(** * Weather dashboard: forecast aggregation, unit conversion, ranking

    A shallow embedding of the two complete entry scripts of the weather
    dashboard, [src/main.js] (module [MainJs]) and the rewritten script
    with the [groupForecastByDay] helper (module [FinalJs]), together with
    the pieces of the JavaScript host they rely on (module [Js]).

    Conventions.
    - A JavaScript Number is modelled by an exact rational ([Q]) where the
      code handles fractional readings, and by an integer ([Z]) where the
      code only ever sees integers (timestamps, parsed display values).
      Binary floating-point rounding of the intermediate products is not
      modelled there; the two temperature conversions are given a second
      time as the code evaluates them, in binary64 (module [Binary64]),
      and compared with the exact ones.
    - A Date is modelled by its epoch time in milliseconds; the host's
      time zone is a fixed offset [tz] (milliseconds east of UTC), daylight
      saving is not modelled, and its default locale is en-US. Integral Numbers print as plain decimal
      numerals (their range below 10^21).
    - A plain object used as a dictionary is an association list in
      property-creation order, enumerated the way the language orders own
      keys (array-index keys first, ascending; then the others in creation
      order). The names a plain object inherits from [Object.prototype]
      are modelled in the tally of [getMostCommonIcon], which is read and
      written under the condition codes of the payload; the grouping
      dictionaries are keyed by numerals and dates, which are no such
      names, and the icon table read under a code it does not list gives
      [None].
    - Text is a string of bytes, UTF-8 for what lies beyond ASCII (the
      degree sign is two bytes). The patterns the scripts match are
      modelled by matchers written for each of them; white space and
      case mapping are those of ASCII. *)

From Stdlib Require Import ZArith QArith Qround List Ascii Bool Lia Lqa.
From Stdlib Require Import Permutation Sorted DecimalString DecimalZ.
From Stdlib Require String.
From Stdlib Require PrimFloat FloatOps SpecFloat Uint63.
From stdpp Require Import gmap strings sorting.

Import ListNotations.
Local Open Scope Z_scope.

(** ** The JavaScript host *)

Module Js.

(** [Math.round]: the integer nearest to [x], a tie going towards
    positive infinity. *)
Definition Math_round (x : Q) : Z := Qfloor (x + (1 # 2))%Q.

(** [String(n)] for an integral Number. *)
Definition Number_toString (n : Z) : string :=
  NilZero.string_of_int (Z.to_int n).

(** The integer a decimal numeral denotes. *)
Definition parseDecimal (s : string) : option Z :=
  option_map Z.of_int (NilZero.int_of_string s).

(** [parseInt] as the scripts use it, on numerals only; NaN, the result
    on any other string, is not modelled and reads as 0. The result is
    the integer itself, as it is in the code for the safe integers
    ([isSafeInteger]); beyond them the code gives the nearest double. *)
Definition parseInt (s : string) : Z := default 0 (parseDecimal s).

(** *** Numbers as the engine holds them, in binary64 *)

(** The exact value of a double; [None] for NaN and the infinities. *)
Definition Number_value (x : PrimFloat.float) : option Q :=
  match FloatOps.Prim2SF x with
  | SpecFloat.S754_zero _ => Some 0%Q
  | SpecFloat.S754_finite s m e =>
      let n := if s then Z.neg m else Z.pos m in
      Some (if 0 <=? e then inject_Z (n * 2 ^ e)
            else (n # Pos.pow 2 (Z.to_pos (- e)))%Q)
  | _ => None
  end.

(** [Math.round] on a double: exact on the value the double holds;
    [None] stands for NaN and the infinities, which it returns as they
    are. *)
Definition Math_round64 (x : PrimFloat.float) : option Z :=
  option_map Math_round (Number_value x).

(** The double of an integer below 2^53 in magnitude, which a double
    holds exactly. *)
Definition Number_of_Z (n : Z) : PrimFloat.float :=
  if n <? 0 then PrimFloat.opp (PrimFloat.of_uint63 (Uint63.of_Z (- n)))
  else PrimFloat.of_uint63 (Uint63.of_Z n).

(** [Number.isSafeInteger]: the integers on which [parseInt] and
    [String] are exact. *)
Definition isSafeInteger (n : Z) : Prop :=
  - (2 ^ 53 - 1) <= n <= 2 ^ 53 - 1.

(** [s.padStart(n, c)] for a one-character filler. *)
Definition padStart (n : nat) (c : ascii) (s : string) : string :=
  String.concat "" (repeat (String c "") (n - String.length s)%nat) +:+ s.

(** A Number that may be [-Infinity] or [Infinity]. *)
Inductive ext (A : Type) : Type :=
| NegInfinity
| Finite (a : A)
| PosInfinity.
Arguments NegInfinity {A}.
Arguments Finite {A} a.
Arguments PosInfinity {A}.

(** [Math.max(...xs)] and [Math.min(...xs)]; on no argument they are
    [-Infinity] and [Infinity]. *)
Definition Qmax2 (a b : Q) : Q := if Qle_bool a b then b else a.
Definition Qmin2 (a b : Q) : Q := if Qle_bool a b then a else b.

Definition Math_max (xs : list Q) : ext Q :=
  match xs with
  | [] => NegInfinity
  | x :: rest => Finite (fold_left Qmax2 rest x)
  end.

Definition Math_min (xs : list Q) : ext Q :=
  match xs with
  | [] => PosInfinity
  | x :: rest => Finite (fold_left Qmin2 rest x)
  end.

Definition Math_round_ext (x : ext Q) : ext Z :=
  match x with
  | NegInfinity => NegInfinity
  | Finite q => Finite (Math_round q)
  | PosInfinity => PosInfinity
  end.

(** The string a template literal gives for such a value. *)
Definition ext_toString (x : ext Z) : string :=
  match x with
  | NegInfinity => "-Infinity"
  | Finite n => Number_toString n
  | PosInfinity => "Infinity"
  end.

(** [xs.sort(cmp)]: the language requires the sort to be stable; it is
    modelled by insertion from the right, an element going in front of
    the first one it does not compare greater than. *)
Fixpoint sort_insert {A} (cmp : A -> A -> Z) (x : A) (l : list A) : list A :=
  match l with
  | [] => [x]
  | y :: l' =>
      if cmp x y <=? 0 then x :: y :: l' else y :: sort_insert cmp x l'
  end.

Definition Array_sort {A} (cmp : A -> A -> Z) (l : list A) : list A :=
  fold_right (sort_insert cmp) [] l.

(** [xs.slice(0, n)]. *)
Definition slice0 {A} (n : nat) (xs : list A) : list A := firstn n xs.

(** *** Plain objects used as dictionaries *)

(** Own properties in creation order. *)
Definition obj (V : Type) : Type := list (string * V).

Fixpoint get {V} (k : string) (o : obj V) : option V :=
  match o with
  | [] => None
  | (k', v) :: o' => if String.eqb k k' then Some v else get k o'
  end.

(** [o[k] = v]: an existing property keeps its place. *)
Fixpoint set {V} (k : string) (v : V) (o : obj V) : obj V :=
  match o with
  | [] => [(k, v)]
  | (k', v') :: o' =>
      if String.eqb k k' then (k, v) :: o' else (k', v') :: set k v o'
  end.

(** The names a plain object inherits from [Object.prototype]. Read
    through a plain object each gives a function, and [__proto__] the
    prototype itself: never a number, and never a falsy value. None of
    them is enumerable. *)
Definition inheritedNames : list string :=
  ["constructor"; "__defineGetter__"; "__defineSetter__"; "hasOwnProperty";
   "__lookupGetter__"; "__lookupSetter__"; "isPrototypeOf";
   "propertyIsEnumerable"; "toString"; "valueOf"; "__proto__";
   "toLocaleString"].

Definition inherited (k : string) : bool :=
  existsb (String.eqb k) inheritedNames.

(** A key is an array index when it is the canonical decimal numeral
    of an integer between 0 and 2^32 - 2. *)
Definition arrayIndex (k : string) : option Z :=
  match parseDecimal k with
  | Some n =>
      if (0 <=? n) && (n <? 4294967295) && String.eqb (Number_toString n) k
      then Some n else None
  | None => None
  end.

Definition isArrayIndex (k : string) : bool :=
  match arrayIndex k with Some _ => true | None => false end.

Definition indexed {V} (e : string * V) : option (Z * (string * V)) :=
  option_map (fun i => (i, e)) (arrayIndex (fst e)).

(** Own properties in enumeration order: array indices ascending, then
    the other keys in creation order. *)
Definition ownEntries {V} (o : obj V) : list (string * V) :=
  map snd (Array_sort (fun a b => fst a - fst b) (omap indexed o))
  ++ List.filter (fun e => negb (isArrayIndex (fst e))) o.

Definition Object_keys {V} (o : obj V) : list string := map fst (ownEntries o).
Definition Object_values {V} (o : obj V) : list V := map snd (ownEntries o).

(** *** Dates *)

Definition msPerHour : Z := 3600000.
Definition msPerDay : Z := 86400000.

(** The time values of a valid Date: 100 000 000 days either side of
    the epoch. Beyond them [new Date(t)] is an Invalid Date, whose fields
    are NaN. *)
Definition validTime (t : Z) : Prop :=
  -8640000000000000 <= t <= 8640000000000000.

(** Proleptic Gregorian (year, month, day) of a day count from
    1970-01-01. *)
Definition civil (days : Z) : Z * Z * Z :=
  let z := days + 719468 in
  let era := z / 146097 in
  let doe := z - era * 146097 in
  let yoe := (doe - doe / 1460 + doe / 36524 - doe / 146096) / 365 in
  let doy := doe - (365 * yoe + yoe / 4 - yoe / 100) in
  let mp := (5 * doy + 2) / 153 in
  let d := doy - (153 * mp + 2) / 5 + 1 in
  let m := if mp <? 10 then mp + 3 else mp - 9 in
  (yoe + era * 400 + (if m <=? 2 then 1 else 0), m, d).

Definition weekdaysLong : list string :=
  ["Sunday"; "Monday"; "Tuesday"; "Wednesday"; "Thursday"; "Friday";
   "Saturday"].

Definition monthsShort : list string :=
  ["Jan"; "Feb"; "Mar"; "Apr"; "May"; "Jun"; "Jul"; "Aug"; "Sep"; "Oct";
   "Nov"; "Dec"].

Section Date.
(** Offset of local time from UTC, in milliseconds: one offset for every
    instant, as on a host without daylight saving. The fields below are
    those of a valid Date ([validTime]). *)
Variable tz : Z.

Definition localDay (t : Z) : Z := (t + tz) / msPerDay.

(** [date.getHours()]. *)
Definition getHours (t : Z) : Z := ((t + tz) / msPerHour) mod 24.

(** [date.getDay()]: 0 is Sunday. *)
Definition getDay (t : Z) : Z := (localDay t + 4) mod 7.

(** [date.setHours(0, 0, 0, 0)]: the start of the local day. *)
Definition setHours0 (t : Z) : Z := localDay t * msPerDay - tz.

(** [date.toLocaleDateString()] in the en-US locale: "12/7/2025". *)
Definition toLocaleDateString (t : Z) : string :=
  let '(y, m, d) := civil (localDay t) in
  Number_toString m +:+ "/" +:+ Number_toString d +:+ "/"
  +:+ Number_toString y.

(** [date.toLocaleDateString("en-US", { weekday: "long" })]. *)
Definition weekdayLong (t : Z) : string :=
  nth (Z.to_nat (getDay t)) weekdaysLong "".

(** [date.toLocaleDateString("en-US", { weekday: "short" })]. *)
Definition weekdayShort (t : Z) : string :=
  String.substring 0 3 (weekdayLong t).

(** [date.toLocaleDateString("en-US", { weekday: "long", month:
    "short", day: "numeric", year: "numeric" })]:
    "Sunday, Dec 7, 2025". *)
Definition toLongDateString (t : Z) : string :=
  let '(y, m, d) := civil (localDay t) in
  weekdayLong t +:+ ", " +:+ nth (Z.to_nat (m - 1)) monthsShort "" +:+ " "
  +:+ Number_toString d +:+ ", " +:+ Number_toString y.
End Date.

(** *** Text: character classes and the patterns the scripts match *)

(** [\d]. *)
Definition isDigit (c : ascii) : bool :=
  ((48 <=? nat_of_ascii c) && (nat_of_ascii c <=? 57))%nat.

(** [\s], on the ASCII range: tab, line feed, vertical tab, form feed,
    carriage return and space. White space beyond ASCII is not
    modelled. *)
Definition isSpace (c : ascii) : bool :=
  ((9 <=? nat_of_ascii c) && (nat_of_ascii c <=? 13)
   || (nat_of_ascii c =? 32))%nat.

(** The longest prefix of digits. *)
Fixpoint takeDigits (s : string) : string :=
  match s with
  | String c s' => if isDigit c then String c (takeDigits s') else ""
  | EmptyString => ""
  end.

Definition startsWithDigit (s : string) : bool :=
  match s with
  | String c _ => isDigit c
  | EmptyString => false
  end.

(** [s.match(/(-?\d+)/)]: the first capture of the leftmost match. *)
Fixpoint match_integer (s : string) : option string :=
  match s with
  | String c s' =>
      if isDigit c then Some (String c (takeDigits s'))
      else if Ascii.eqb c "-" && startsWithDigit s'
           then Some (String c (takeDigits s'))
           else match_integer s'
  | EmptyString => None
  end.

(** [s.match(/(\d+)/)]: the first capture of the leftmost match. *)
Fixpoint match_digits (s : string) : option string :=
  match s with
  | String c s' =>
      if isDigit c then Some (String c (takeDigits s')) else match_digits s'
  | EmptyString => None
  end.

(** [\s*] consumed from the front. *)
Fixpoint dropSpaces (s : string) : string :=
  match s with
  | String c s' => if isSpace c then dropSpaces s' else s
  | EmptyString => ""
  end.

(** [c.toUpperCase()] on the ASCII letters. *)
Definition upperChar (c : ascii) : ascii :=
  if ((97 <=? nat_of_ascii c) && (nat_of_ascii c <=? 122))%nat
  then ascii_of_nat (nat_of_ascii c - 32) else c.

Fixpoint toUpperCase (s : string) : string :=
  match s with
  | String c s' => String (upperChar c) (toUpperCase s')
  | EmptyString => ""
  end.

(** [(AM|PM)] under the [i] flag, at the front of [s]: the text
    matched. *)
Definition periodAt (s : string) : option string :=
  match s with
  | String a (String m _) =>
      if (Ascii.eqb (upperChar a) "A" || Ascii.eqb (upperChar a) "P")
         && Ascii.eqb (upperChar m) "M"
      then Some (String a (String m ""))
      else None
  | _ => None
  end.

(** [/(\d{1,2})\s*(AM|PM)/i] at the front of [s]: the two captures.
    When two digits are followed by no period, retrying with one digit
    cannot match either, the next character being a digit. *)
Definition clock12At (s : string) : option (string * string) :=
  match s with
  | String d1 rest =>
      if isDigit d1 then
        match rest with
        | String d2 rest2 =>
            if isDigit d2
            then option_map (pair (String d1 (String d2 "")))
                   (periodAt (dropSpaces rest2))
            else option_map (pair (String d1 ""))
                   (periodAt (dropSpaces rest))
        | EmptyString => None
        end
      else None
  | EmptyString => None
  end.

(** [s.match(/(\d{1,2})\s*(AM|PM)/i)]: the captures of the leftmost
    match. *)
Fixpoint match_clock12 (s : string) : option (string * string) :=
  match clock12At s with
  | Some m => Some m
  | None =>
      match s with
      | String _ s' => match_clock12 s'
      | EmptyString => None
      end
  end.

(** [/^\d{2}:00$/.test(s)]. *)
Definition test_clock24 (s : string) : bool :=
  match s with
  | String d1 (String d2 (String c (String z1 (String z2 EmptyString)))) =>
      isDigit d1 && isDigit d2 && Ascii.eqb c ":" && Ascii.eqb z1 "0"
      && Ascii.eqb z2 "0"
  | _ => false
  end.

(** [s.includes(needle)]. *)
Fixpoint includes (needle s : string) : bool :=
  String.prefix needle s
  || match s with
     | String _ s' => includes needle s'
     | EmptyString => false
     end.

(** [s.split(":")[0]]. *)
Fixpoint beforeColon (s : string) : string :=
  match s with
  | String c s' => if Ascii.eqb c ":" then "" else String c (beforeColon s')
  | EmptyString => ""
  end.

(** [s.trim()]. *)
Fixpoint trimEnd (s : string) : string :=
  match s with
  | String c s' =>
      match trimEnd s' with
      | EmptyString => if isSpace c then "" else String c ""
      | rest => String c rest
      end
  | EmptyString => ""
  end.

Definition trim (s : string) : string := trimEnd (dropSpaces s).

(** [String(b)] for a boolean. *)
Definition Boolean_toString (b : bool) : string :=
  if b then "true" else "false".

End Js.

(** ** Temperature conversion (identical in both scripts) *)

(** The two functions in exact arithmetic: what the code computes
    whenever the binary64 evaluation of the expression rounds to the same
    integer. *)
Definition celsiusToFahrenheit (celsius : Q) : Z :=
  Js.Math_round ((celsius * 9) / 5 + 32)%Q.

Definition fahrenheitToCelsius (fahrenheit : Q) : Z :=
  Js.Math_round (((fahrenheit - 32) * 5) / 9)%Q.

(** The two functions as the code evaluates them: every operation
    rounds to the nearest double, and [Math.round] is taken of the double
    that results. [None] stands for NaN and the infinities. *)
Module Binary64.
Import PrimFloat.
Local Open Scope float_scope.

Definition celsiusToFahrenheit (celsius : float) : option Z :=
  Js.Math_round64 ((celsius * 9) / 5 + 32).

Definition fahrenheitToCelsius (fahrenheit : float) : option Z :=
  Js.Math_round64 (((fahrenheit - 32) * 5) / 9).

(** The doubles nearest to -57.1 and to -45.27777777777778. *)
Definition minus_57_1 : float := -0x1.c8ccccccccccdp+5.
Definition minus_45_27 : float := -0x1.6a38e38e38e39p+5.
End Binary64.

(** Stated from the specification: [n] is [x] rounded to the nearest
    integer, the half-way case resolved upwards. *)
Definition nearest_integer (x : Q) (n : Z) : Prop :=
  (inject_Z n - (1 # 2) <= x)%Q /\ (x < inject_Z n + (1 # 2))%Q.

(** ** Reading numbers back from the page (identical in both scripts) *)

(** [null] is [None]. *)
Definition extractTemperature (text : string) : option Z :=
  option_map Js.parseInt (Js.match_integer text).

Definition extractWindSpeed (text : string) : option Z :=
  option_map Js.parseInt (Js.match_digits text).

(** ** Payloads, page and network *)

(** One entry of the forecast payload: [dt], [main.temp] and
    [weather[0].icon]. *)
Record sample := { dt : Z; temp : Q; icon : string }.

(** The forecast payload; [fc_list] is [None] when the object has no
    [list] property (as in the service's error objects). *)
Record forecastData := { fc_list : option (list sample) }.

(** The current-conditions payload: [name], [sys.country], [main.temp],
    [main.feels_like], [main.humidity], [wind.speed], [rain["1h"]] and
    [weather[0].icon]. *)
Record currentData := {
  cd_name : string;
  cd_country : string;
  cd_temp : Q;
  cd_feels_like : Q;
  cd_humidity : Z;
  cd_wind_speed : Q;
  cd_rain_1h : option Q;
  cd_icon : string
}.

(** What the scripts read from the host besides the network. *)
Record host := {
  tz : Z;                      (* local time minus UTC, milliseconds *)
  now : Z;                     (* [new Date()] *)
  showNumber : Q -> string     (* a fractional Number in a template *)
}.

Record hourlyCard := {
  hourlyTime : string;
  hourlyTemp : string;
  hourlyIcon : option string;
  hourlyDisplay : string
}.

Record dailyCard := {
  dayName : string;
  dayIcon : option string;
  dayTempMax : string;
  dayTempMin : string
}.

Record dayOption := {
  dayText : string;
  dayHidden : bool;
  dayActive : bool
}.

(** The elements of the page the scripts write to. *)
Record page := {
  locationName : string;
  currentDate : string;
  mainTemperature : string;
  mainWeatherIcon : option string;
  feelsLikeTemp : string;
  humidityValue : string;
  windSpeed : string;
  precipitationValue : string;
  dailyCards : list dailyCard;
  hourlyCards : list hourlyCard;
  dayOptions : list dayOption;
  selectedDay : string;
  loadingVisible : bool
}.

Definition with_current (p : page)
    (loc date temp : string) (ic : option string)
    (feels hum wind precip : string) : page :=
  {| locationName := loc; currentDate := date; mainTemperature := temp;
     mainWeatherIcon := ic; feelsLikeTemp := feels; humidityValue := hum;
     windSpeed := wind; precipitationValue := precip;
     dailyCards := dailyCards p; hourlyCards := hourlyCards p;
     dayOptions := dayOptions p; selectedDay := selectedDay p;
     loadingVisible := loadingVisible p |}.

Definition with_dailyCards (p : page) (cs : list dailyCard) : page :=
  {| locationName := locationName p; currentDate := currentDate p;
     mainTemperature := mainTemperature p;
     mainWeatherIcon := mainWeatherIcon p;
     feelsLikeTemp := feelsLikeTemp p; humidityValue := humidityValue p;
     windSpeed := windSpeed p; precipitationValue := precipitationValue p;
     dailyCards := cs; hourlyCards := hourlyCards p;
     dayOptions := dayOptions p; selectedDay := selectedDay p;
     loadingVisible := loadingVisible p |}.

Definition with_hourlyCards (p : page) (cs : list hourlyCard) : page :=
  {| locationName := locationName p; currentDate := currentDate p;
     mainTemperature := mainTemperature p;
     mainWeatherIcon := mainWeatherIcon p;
     feelsLikeTemp := feelsLikeTemp p; humidityValue := humidityValue p;
     windSpeed := windSpeed p; precipitationValue := precipitationValue p;
     dailyCards := dailyCards p; hourlyCards := cs;
     dayOptions := dayOptions p; selectedDay := selectedDay p;
     loadingVisible := loadingVisible p |}.

Definition with_dayMenu (p : page) (os : list dayOption) (sel : string)
    : page :=
  {| locationName := locationName p; currentDate := currentDate p;
     mainTemperature := mainTemperature p;
     mainWeatherIcon := mainWeatherIcon p;
     feelsLikeTemp := feelsLikeTemp p; humidityValue := humidityValue p;
     windSpeed := windSpeed p; precipitationValue := precipitationValue p;
     dailyCards := dailyCards p; hourlyCards := hourlyCards p;
     dayOptions := os; selectedDay := sel;
     loadingVisible := loadingVisible p |}.

Definition with_loading (p : page) (b : bool) : page :=
  {| locationName := locationName p; currentDate := currentDate p;
     mainTemperature := mainTemperature p;
     mainWeatherIcon := mainWeatherIcon p;
     feelsLikeTemp := feelsLikeTemp p; humidityValue := humidityValue p;
     windSpeed := windSpeed p; precipitationValue := precipitationValue p;
     dailyCards := dailyCards p; hourlyCards := hourlyCards p;
     dayOptions := dayOptions p; selectedDay := selectedDay p;
     loadingVisible := b |}.

(** The page with every temperature text rewritten by [f]: the main
    and the feels-like temperature, the extremes of the daily cards and
    the temperatures of the hourly cards. *)
Definition map_temperatures (f : string -> string) (p : page) : page :=
  {| locationName := locationName p; currentDate := currentDate p;
     mainTemperature := f (mainTemperature p);
     mainWeatherIcon := mainWeatherIcon p;
     feelsLikeTemp := f (feelsLikeTemp p); humidityValue := humidityValue p;
     windSpeed := windSpeed p; precipitationValue := precipitationValue p;
     dailyCards :=
       map (fun c => {| dayName := dayName c; dayIcon := dayIcon c;
                        dayTempMax := f (dayTempMax c);
                        dayTempMin := f (dayTempMin c) |})
         (dailyCards p);
     hourlyCards :=
       map (fun c => {| hourlyTime := hourlyTime c;
                        hourlyTemp := f (hourlyTemp c);
                        hourlyIcon := hourlyIcon c;
                        hourlyDisplay := hourlyDisplay c |})
         (hourlyCards p);
     dayOptions := dayOptions p; selectedDay := selectedDay p;
     loadingVisible := loadingVisible p |}.

(** The page with the time text of every hourly card rewritten by
    [f]. *)
Definition map_hourlyTimes (f : string -> string) (p : page) : page :=
  with_hourlyCards p
    (map (fun c => {| hourlyTime := f (hourlyTime c);
                      hourlyTemp := hourlyTemp c;
                      hourlyIcon := hourlyIcon c;
                      hourlyDisplay := hourlyDisplay c |})
       (hourlyCards p)).

Definition with_windSpeed (p : page) (w : string) : page :=
  with_current p (locationName p) (currentDate p) (mainTemperature p)
    (mainWeatherIcon p) (feelsLikeTemp p) (humidityValue p) w
    (precipitationValue p).

(** Exceptions and the outcome of a statement that may throw. *)
Inductive exn : Type :=
| TypeError
| HttpError (status : Z)
| CityNotFound
| FetchRejected
| JsonRejected.

Inductive result (A : Type) : Type :=
| Ok (a : A)
| Throw (e : exn).
Arguments Ok {A} a.
Arguments Throw {A} e.

(** A settled [fetch]: rejected (transport error), or resolved with a
    response whose body may fail to parse ([json = None]). *)
Record response (A : Type) := {
  ok : bool;
  status : Z;
  json : option A
}.
Arguments ok {A} r.
Arguments status {A} r.
Arguments json {A} r.

Inductive fetched (A : Type) : Type :=
| Rejected
| Resolved (r : response A).
Arguments Rejected {A}.
Arguments Resolved {A} r.

(** The remote service, by request URL. *)
Record network := {
  GET_weather : string -> fetched currentData;
  GET_forecast : string -> fetched forecastData
}.

Definition API_KEY : string := "491d823269a39efcdc476377ae1b028c".
Definition BASE_URL : string := "https://api.openweathermap.org/data/2.5".

Definition weatherUrl (cityName : string) : string :=
  BASE_URL +:+ "/weather?q=" +:+ cityName +:+ "&appid=" +:+ API_KEY
  +:+ "&units=metric".

Definition forecastUrl (cityName : string) : string :=
  BASE_URL +:+ "/forecast?q=" +:+ cityName +:+ "&appid=" +:+ API_KEY
  +:+ "&units=metric".

(** The bundled images, by file name. *)
Definition weatherIconMap : Js.obj string :=
  [("01d", "icon-sunny.webp"); ("01n", "full-moon.png");
   ("02d", "icon-partly-cloudy.webp"); ("02n", "icon-partly-cloudy.webp");
   ("03d", "cloudy.png"); ("03n", "cloudy.png");
   ("04d", "icon-overcast.webp"); ("04n", "icon-overcast.webp");
   ("09d", "icon-drizzle.webp"); ("09n", "icon-drizzle.webp");
   ("10d", "icon-rain.webp"); ("10n", "icon-rain.webp");
   ("11d", "icon-storm.webp"); ("11n", "icon-storm.webp");
   ("13d", "icon-snow.webp"); ("13n", "icon-snow.webp");
   ("50d", "icon-fog.webp"); ("50n", "icon-fog.webp")].

(** [`${n}°`]. *)
Definition degrees (n : string) : string := n +:+ "°".

Definition dquote : string := String "034"%char "".

(** [v || d] for a string that may be [null]: the empty string is
    falsy. *)
Definition orString (v : option string) (d : string) : string :=
  match v with
  | Some s => if String.eqb s "" then d else s
  | None => d
  end.

(** Statements that read and write a state [S] and may throw; what was
    written before a throw stays written. *)
Definition M (S A : Type) : Type := S -> S * result A.

Definition ret {S A} (a : A) : M S A := fun s => (s, Ok a).
Definition throw {S A} (e : exn) : M S A := fun s => (s, Throw e).
Definition bind {S A B} (c : M S A) (k : A -> M S B) : M S B :=
  fun s => match c s with
           | (s', Ok a) => k a s'
           | (s', Throw e) => (s', Throw e)
           end.
Definition modify {S} (f : S -> S) : M S unit := fun s => (f s, Ok tt).
Definition lift {S A} (r : result A) : M S A := fun s => (s, r).

(** [try { body } catch (error) { handler }]. *)
Definition try_catch {S} (body : M S unit) (handler : exn -> S -> S)
    : S -> S :=
  fun s => match body s with
           | (s', Ok _) => s'
           | (s', Throw e) => handler e s'
           end.

Definition get_state {S} : M S S := fun s => (s, Ok s).

Notation "'do' x <- c ; k" := (bind c (fun x => k))
  (at level 10, x name, c at level 100, k at level 200).
Notation "c ;; k" := (bind c (fun _ => k))
  (at level 100, k at level 200, right associativity).

(** [await fetch(url)] followed by the check of [ok] when the script
    makes one, then [await res.json()]. *)
Definition settle {S A} (checked : bool) (onStatus : Z -> exn)
    (f : fetched A) : M S A :=
  match f with
  | Rejected => throw FetchRejected
  | Resolved r =>
      if checked && negb (ok r) then throw (onStatus (status r))
      else match json r with
           | Some data => ret data
           | None => throw JsonRejected
           end
  end.

(** ** [src/main.js] *)

Module MainJs.

Record app := {
  doc : page;
  localStorage : gmap string string;
  globalForecastData : option forecastData;
  currentUnit : string;
  currentWindUnit : string;
  current24Hour : bool;
  currentDayIndex : nat;
  requests : list string          (* URLs fetched, oldest first *)
}.

Definition with_doc (a : app) (p : page) : app :=
  {| doc := p; localStorage := localStorage a;
     globalForecastData := globalForecastData a;
     currentUnit := currentUnit a; currentWindUnit := currentWindUnit a;
     current24Hour := current24Hour a;
     currentDayIndex := currentDayIndex a; requests := requests a |}.

Definition with_localStorage (a : app) (st : gmap string string) : app :=
  {| doc := doc a; localStorage := st;
     globalForecastData := globalForecastData a;
     currentUnit := currentUnit a; currentWindUnit := currentWindUnit a;
     current24Hour := current24Hour a;
     currentDayIndex := currentDayIndex a; requests := requests a |}.

Definition with_globalForecastData (a : app) (d : option forecastData)
    : app :=
  {| doc := doc a; localStorage := localStorage a;
     globalForecastData := d;
     currentUnit := currentUnit a; currentWindUnit := currentWindUnit a;
     current24Hour := current24Hour a;
     currentDayIndex := currentDayIndex a; requests := requests a |}.

Definition with_settings (a : app) (u w : string) (t : bool) : app :=
  {| doc := doc a; localStorage := localStorage a;
     globalForecastData := globalForecastData a;
     currentUnit := u; currentWindUnit := w;
     current24Hour := t;
     currentDayIndex := currentDayIndex a; requests := requests a |}.

Definition with_currentDayIndex (a : app) (i : nat) : app :=
  {| doc := doc a; localStorage := localStorage a;
     globalForecastData := globalForecastData a;
     currentUnit := currentUnit a; currentWindUnit := currentWindUnit a;
     current24Hour := current24Hour a;
     currentDayIndex := i; requests := requests a |}.

Definition with_request (a : app) (url : string) : app :=
  {| doc := doc a; localStorage := localStorage a;
     globalForecastData := globalForecastData a;
     currentUnit := currentUnit a; currentWindUnit := currentWindUnit a;
     current24Hour := current24Hour a;
     currentDayIndex := currentDayIndex a;
     requests := requests a ++ [url] |}.

Definition mpsToMph (mps : Q) : Z := Js.Math_round (mps * (2237 # 1000))%Q.
Definition mpsToKmh (mps : Q) : Z := Js.Math_round (mps * (36 # 10))%Q.

Section Host.
Variable h : host.

Definition formatDate (date : Z) : string :=
  Js.toLongDateString (tz h) date.

Definition formatTime (current24Hour : bool) (date : Z) : string :=
  let hours := Js.getHours (tz h) date in
  if current24Hour then
    Js.padStart 2 "0" (Js.Number_toString hours) +:+ ":00"
  else
    let ampm := if 12 <=? hours then "PM" else "AM" in
    let displayHours := if hours mod 12 =? 0 then 12 else hours mod 12 in
    Js.Number_toString displayHours +:+ " " +:+ ampm.

Definition formatDayName (date : Z) : string :=
  Js.weekdayShort (tz h) date.

(** A value of the tally: a count, or the text that [+ 1] makes of a
    value that is not a number. *)
Inductive tallyValue : Type :=
| Count (n : Z)
| Glued.

(** [counts[icon] = (counts[icon] || 0) + 1] for each code. Under a
    name inherited from [Object.prototype] the first read gives a function
    (or the prototype), which is truthy, so [+ 1] glues text; the
    assignment makes it an own property, except under [__proto__], whose
    setter ignores a value that is not an object. *)
Definition iconCounts (icons : list string) : Js.obj tallyValue :=
  fold_left
    (fun counts icon =>
       match Js.get icon counts with
       | Some (Count n) =>
           Js.set icon (Count ((if n =? 0 then 0 else n) + 1)) counts
       | Some Glued => Js.set icon Glued counts
       | None =>
           if Js.inherited icon
           then if String.eqb icon "__proto__" then counts
                else Js.set icon Glued counts
           else Js.set icon (Count (0 + 1)) counts
       end)
    icons [].

(** [undefined] (here [None]) on an empty array. The [for]-[in] loop
    visits the own keys of the tally; a glued text compared with a number
    reads as NaN and is never greater. *)
Definition getMostCommonIcon (icons : list string) : option string :=
  let counts := iconCounts icons in
  fst (fold_left
         (fun '(mostCommon, highestCount) icon =>
            match Js.get icon counts with
            | Some (Count n) =>
                if highestCount <? n then (Some icon, n)
                else (mostCommon, highestCount)
            | _ => (mostCommon, highestCount)
            end)
         (Js.Object_keys counts) (head icons, 0)).

Definition updateCurrentWeather (currentWindUnit : string)
    (data : currentData) (p : page) : page :=
  let windSpeedValue :=
    if String.eqb currentWindUnit "mph" then mpsToMph (cd_wind_speed data)
    else mpsToKmh (cd_wind_speed data) in
  with_current p
    (cd_name data +:+ ", " +:+ cd_country data)
    (formatDate (now h))
    (degrees (Js.Number_toString (Js.Math_round (cd_temp data))))
    (Js.get (cd_icon data) weatherIconMap)
    (degrees (Js.Number_toString (Js.Math_round (cd_feels_like data))))
    (Js.Number_toString (cd_humidity data) +:+ "%")
    (Js.Number_toString windSpeedValue +:+ " " +:+ currentWindUnit)
    (match cd_rain_1h data with
     | Some r => if Qeq_bool r 0 then "0 mm" else showNumber h r +:+ " mm"
     | None => "0 mm"
     end).

(** The key of a forecast's local day: the epoch time of its
    midnight. *)
Definition dateKey (forecast : sample) : Z :=
  Js.setHours0 (tz h) (dt forecast * 1000).

(** The grouping loop of [updateHourlyForecast]. *)
Definition dailyForecasts (l : list sample) : Js.obj (list sample) :=
  fold_left
    (fun o forecast =>
       let k := Js.Number_toString (dateKey forecast) in
       let o1 := match Js.get k o with
                 | Some _ => o
                 | None => Js.set k [] o
                 end in
       Js.set k (default [] (Js.get k o1) ++ [forecast]) o1)
    l [].

Definition sortedDays (l : list sample) : list Z :=
  Js.Array_sort (fun a b => a - b)
    (map Js.parseInt (Js.Object_keys (dailyForecasts l))).

(** The day groups in the order [sortedDays] indexes them. *)
Definition dayBuckets (l : list sample) : list (list sample) :=
  omap (fun k => Js.get (Js.Number_toString k) (dailyForecasts l))
    (sortedDays l).

(** [hourlyData] as [updateHourlyForecast] computes it. *)
Definition hourlyData (l : list sample) (dayIndex : nat) : list sample :=
  let selectedDayKey := sortedDays l !! dayIndex in
  let selectedDayForecasts :=
    match selectedDayKey ≫=
          (fun k => Js.get (Js.Number_toString k) (dailyForecasts l)) with
    | Some b => b
    | None => Js.slice0 8 l
    end in
  Js.slice0 8 selectedDayForecasts.

Definition fillHourlyCard (current24Hour : bool) (forecast : sample)
    (card : hourlyCard) : hourlyCard :=
  {| hourlyTime := formatTime current24Hour (dt forecast * 1000);
     hourlyTemp :=
       degrees (Js.Number_toString (Js.Math_round (temp forecast)));
     hourlyIcon := Js.get (icon forecast) weatherIconMap;
     hourlyDisplay := hourlyDisplay card |}.

Definition updateHourlyForecast (current24Hour : bool)
    (forecastData : forecastData) (dayIndex : nat) (p : page)
    : result page :=
  match fc_list forecastData with
  | None => Throw TypeError
  | Some l =>
      Ok (with_hourlyCards p
            (fold_left
               (fun cards '(index, forecast) =>
                  match cards !! index with
                  | Some card =>
                      <[index := fillHourlyCard current24Hour forecast card]>
                        cards
                  | None => cards
                  end)
               (imap pair (hourlyData l dayIndex)) (hourlyCards p)))
  end.

(** The grouping loop of [populateDayDropdown]. *)
Definition dropdownDays (l : list sample) : Js.obj Z :=
  fold_left
    (fun o forecast =>
       let k := Js.Number_toString (dateKey forecast) in
       match Js.get k o with
       | Some _ => o
       | None => Js.set k (dateKey forecast) o
       end)
    l [].

Definition dayLabel (date : Z) : string :=
  let today := Js.setHours0 (tz h) (now h) in
  let diffDays := (date - today) / Js.msPerDay in
  if diffDays =? 0 then "Today"
  else if diffDays =? 1 then "Tomorrow"
  else Js.weekdayLong (tz h) date.

Definition populateDayDropdown (forecastData : forecastData) (p : page)
    : result page :=
  match fc_list forecastData with
  | None => Throw TypeError
  | Some l =>
      let daysArray :=
        Js.Array_sort (fun a b => a - b)
          (Js.Object_values (dropdownDays l)) in
      let labelled :=
        imap (fun index o =>
                if (index <? 7)%nat then
                  match daysArray !! index with
                  | Some date =>
                      {| dayText := dayLabel date;
                         dayHidden := dayHidden o;
                         dayActive := dayActive o |}
                  | None =>
                      {| dayText := ""; dayHidden := true;
                         dayActive := dayActive o |}
                  end
                else o)
             (dayOptions p) in
      Ok (with_dayMenu p
            (match labelled with
             | o :: os =>
                 {| dayText := dayText o; dayHidden := dayHidden o;
                    dayActive := true |} :: os
             | [] => []
             end)
            "Today")
  end.

(** One value of the dictionary built by [updateDailyForecast]. *)
Record dayData := {
  temps : list Q;
  icons : list string;
  date : Z
}.

Definition dailyData (l : list sample) : Js.obj dayData :=
  fold_left
    (fun o forecast =>
       let k := Js.Number_toString (dateKey forecast) in
       let o1 := match Js.get k o with
                 | Some _ => o
                 | None =>
                     Js.set k {| temps := []; icons := [];
                                 date := dateKey forecast |} o
                 end in
       match Js.get k o1 with
       | Some d =>
           Js.set k {| temps := temps d ++ [temp forecast];
                       icons := icons d ++ [icon forecast];
                       date := date d |} o1
       | None => o1
       end)
    l [].

(** The three values a daily card is filled from. *)
Definition maxTemp (d : dayData) : Js.ext Z :=
  Js.Math_round_ext (Js.Math_max (temps d)).
Definition minTemp (d : dayData) : Js.ext Z :=
  Js.Math_round_ext (Js.Math_min (temps d)).
Definition mostCommonIcon (d : dayData) : option string :=
  getMostCommonIcon (icons d).

Definition fillDailyCard (d : dayData) : dailyCard :=
  {| dayName := formatDayName (date d);
     dayIcon := mostCommonIcon d ≫= (fun c => Js.get c weatherIconMap);
     dayTempMax := degrees (Js.ext_toString (maxTemp d));
     dayTempMin := degrees (Js.ext_toString (minTemp d)) |}.

Definition next7Days (l : list sample) : list dayData :=
  Js.slice0 7
    (Js.Array_sort (fun a b => date a - date b)
       (Js.Object_values (dailyData l))).

Definition updateDailyForecast (forecastData : forecastData) (p : page)
    : result page :=
  match fc_list forecastData with
  | None => Throw TypeError
  | Some l =>
      Ok (with_dailyCards p
            (fold_left
               (fun cards '(index, d) =>
                  match cards !! index with
                  | Some _ => <[index := fillDailyCard d]> cards
                  | None => cards
                  end)
               (imap pair (next7Days l)) (dailyCards p)))
  end.

Definition saveLocation (cityName : string) (a : app) : app :=
  with_localStorage a (<["lastLocation" := cityName]> (localStorage a)).

Definition fetch {A} (url : string) (served : string -> fetched A)
    : M app (fetched A) :=
  modify (fun a => with_request a url) ;; ret (served url).

Definition onPage (f : page -> result page) : M app unit :=
  fun a => match f (doc a) with
           | Ok p => (with_doc a p, Ok tt)
           | Throw e => (a, Throw e)
           end.

Definition showFailure (cityName : string) (p : page) : page :=
  with_current p
    ("Could not find weather for " +:+ dquote +:+ cityName +:+ dquote)
    "Please try another city"
    "--°" (mainWeatherIcon p) "--°" "--%" "-- mph" "-- mm".

Definition fetchWeatherForCity (net : network) (cityName : string)
    : app -> app :=
  try_catch
    (do currentRes <- fetch (weatherUrl cityName) (GET_weather net);
     do currentData <- settle true HttpError currentRes;
     do a <- get_state;
     onPage (fun p =>
               Ok (updateCurrentWeather (currentWindUnit a) currentData p)) ;;
     do forecastRes <- fetch (forecastUrl cityName) (GET_forecast net);
     do forecastData <- settle true HttpError forecastRes;
     modify (fun a => with_globalForecastData a (Some forecastData)) ;;
     onPage (updateHourlyForecast (current24Hour a) forecastData 0) ;;
     onPage (updateDailyForecast forecastData) ;;
     onPage (populateDayDropdown forecastData) ;;
     modify (saveLocation cityName))
    (fun _ a => with_doc a (showFailure cityName (doc a))).

(** Returns the state with the saved settings applied and the location
    to start with. *)
Definition loadSettings (a : app) : app * string :=
  let savedUnit := localStorage a !! "temperatureUnit" in
  let savedWindUnit := localStorage a !! "windUnit" in
  let saved24Hour := localStorage a !! "24hourFormat" in
  let savedLocation := localStorage a !! "lastLocation" in
  (with_settings a
     (orString savedUnit (currentUnit a))
     (orString savedWindUnit (currentWindUnit a))
     (match saved24Hour with
      | Some s => if String.eqb s "" then current24Hour a
                  else String.eqb s "true"
      | None => current24Hour a
      end),
   orString savedLocation "Cardiff").

(** The statements at the end of the script that start the page. *)
Definition initialize (net : network) (a : app) : app :=
  let '(a1, lastLocation) := loadSettings a in
  fetchWeatherForCity net lastLocation a1.
End Host.

(** The globals as the script declares them, over a given page and
    storage. *)
Definition start (p : page) (st : gmap string string) : app :=
  {| doc := p; localStorage := st; globalForecastData := None;
     currentUnit := "celsius"; currentWindUnit := "mph";
     current24Hour := false; currentDayIndex := 0; requests := [] |}.

(** *** Settings and the handlers of the page *)

Definition saveSettings (a : app) : app :=
  with_localStorage a
    (<["24hourFormat" := Js.Boolean_toString (current24Hour a)]>
       (<["windUnit" := currentWindUnit a]>
          (<["temperatureUnit" := currentUnit a]> (localStorage a)))).

(** What [convertAllTemperatures] does to the text of one element. *)
Definition convertTemperature (toUnit : string) (text : string) : string :=
  if Js.includes "°" text then
    match extractTemperature text with
    | Some temp =>
        degrees
          (Js.Number_toString
             (if String.eqb toUnit "fahrenheit"
              then celsiusToFahrenheit (inject_Z temp)
              else fahrenheitToCelsius (inject_Z temp)))
    | None => text
    end
  else text.

(** The unit badge is outside the modelled page. *)
Definition convertAllTemperatures (toUnit : string) (p : page) : page :=
  map_temperatures (convertTemperature toUnit) p.

(** A click on a temperature-unit option. *)
Definition selectUnit (selectedUnit : string) (a : app) : app :=
  if String.eqb selectedUnit (currentUnit a) then a
  else
    saveSettings
      (with_doc
         (with_settings a selectedUnit (currentWindUnit a) (current24Hour a))
         (convertAllTemperatures selectedUnit (doc a))).

(** A click on a wind-unit option. *)
Definition selectWindUnit (selectedWindUnit : string) (a : app) : app :=
  if String.eqb selectedWindUnit (currentWindUnit a) then a
  else
    let text := windSpeed (doc a) in
    let p :=
      if String.eqb text "" then doc a
      else
        match extractWindSpeed text with
        | Some currentSpeed =>
            let newSpeed :=
              if String.eqb selectedWindUnit "mph" then currentSpeed
              else Js.Math_round (inject_Z currentSpeed * (1609 # 1000))%Q in
            with_windSpeed (doc a)
              (Js.Number_toString newSpeed +:+ " " +:+ selectedWindUnit)
        | None => doc a
        end in
    saveSettings
      (with_doc
         (with_settings a (currentUnit a) selectedWindUnit (current24Hour a))
         p).

(** A click on a time-format option: the hourly view is rendered again
    for [currentDayIndex], the day of the last click in the day menu. *)
Definition selectTimeFormat (h : host) (selectedTimeFormat : string)
    : M app unit :=
  fun a =>
    let is24Hour := String.eqb selectedTimeFormat "24" in
    if Bool.eqb is24Hour (current24Hour a) then (a, Ok tt)
    else
      let a1 := with_settings a (currentUnit a) (currentWindUnit a)
                  is24Hour in
      match globalForecastData a1 with
      | Some data =>
          match updateHourlyForecast h is24Hour data (currentDayIndex a1)
                  (doc a1) with
          | Ok p => (saveSettings (with_doc a1 p), Ok tt)
          | Throw e => (a1, Throw e)
          end
      | None => (saveSettings a1, Ok tt)
      end.

(** A click on the day option [selectedDay] of the hourly view. *)
Definition selectDay (h : host) (selectedDay : nat) (text : string)
    : M app unit :=
  fun a =>
    let a1 :=
      with_doc (with_currentDayIndex a selectedDay)
        (with_dayMenu (doc a)
           (imap (fun index o =>
                    {| dayText := dayText o;
                       dayHidden := dayHidden o;
                       dayActive := Nat.eqb index selectedDay |})
                 (dayOptions (doc a)))
           text) in
    match globalForecastData a1 with
    | Some data =>
        match updateHourlyForecast h (current24Hour a1) data
                (currentDayIndex a1) (doc a1) with
        | Ok p => (with_doc a1 p, Ok tt)
        | Throw e => (a1, Throw e)
        end
    | None => (a1, Ok tt)
    end.

(** A click on the search button with [inputValue] in the input: the
    state and the alert raised, if any. *)
Definition searchClick (h : host) (net : network) (inputValue : string)
    (a : app) : app * option string :=
  let cityName := Js.trim inputValue in
  if String.eqb cityName "" then (a, Some "Please enter a city name")
  else (fetchWeatherForCity h net cityName a, None).

End MainJs.

(** ** The rewritten script with [groupForecastByDay] *)

Module FinalJs.

Record app := {
  doc : page;
  localStorage : gmap string string;
  city : string;
  globalForecastData : option forecastData;
  currentUnit : string;
  currentSpeedUnit : string;
  currentTimeFormat : string;
  requests : list string          (* URLs fetched, oldest first *)
}.

Definition with_doc (a : app) (p : page) : app :=
  {| doc := p; localStorage := localStorage a; city := city a;
     globalForecastData := globalForecastData a;
     currentUnit := currentUnit a; currentSpeedUnit := currentSpeedUnit a;
     currentTimeFormat := currentTimeFormat a; requests := requests a |}.

Definition with_localStorage (a : app) (st : gmap string string) : app :=
  {| doc := doc a; localStorage := st; city := city a;
     globalForecastData := globalForecastData a;
     currentUnit := currentUnit a; currentSpeedUnit := currentSpeedUnit a;
     currentTimeFormat := currentTimeFormat a; requests := requests a |}.

Definition with_globalForecastData (a : app) (d : option forecastData)
    : app :=
  {| doc := doc a; localStorage := localStorage a; city := city a;
     globalForecastData := d;
     currentUnit := currentUnit a; currentSpeedUnit := currentSpeedUnit a;
     currentTimeFormat := currentTimeFormat a; requests := requests a |}.

Definition with_request (a : app) (url : string) : app :=
  {| doc := doc a; localStorage := localStorage a; city := city a;
     globalForecastData := globalForecastData a;
     currentUnit := currentUnit a; currentSpeedUnit := currentSpeedUnit a;
     currentTimeFormat := currentTimeFormat a;
     requests := requests a ++ [url] |}.

Definition PRIORITY_COUNTRIES : list string :=
  ["United Kingdom"; "UK"; "England"; "Scotland"; "Wales";
   "Northern Ireland"; "United States"; "USA"; "Canada"; "Australia";
   "Germany"; "France"; "Spain"; "Italy"; "Netherlands"; "Belgium";
   "Sweden"; "Norway"; "Denmark"; "Switzerland"; "Poland"; "Portugal";
   "Ireland"].

(** A candidate of the geocoding service: [name], [country] and
    [population] ([None] when the property is missing). *)
Record cityMatch := {
  c_name : string;
  c_country : string;
  c_population : option Z
}.

(** [PRIORITY_COUNTRIES.includes(country)]. *)
Definition isPriority (country : string) : bool :=
  existsb (String.eqb country) PRIORITY_COUNTRIES.

(** The comparator handed to [sort]. *)
Definition compareCities (a b : cityMatch) : Z :=
  let aPriority := isPriority (c_country a) in
  let bPriority := isPriority (c_country b) in
  if aPriority && negb bPriority then -1
  else if negb aPriority && bPriority then 1
  else default 0 (c_population b) - default 0 (c_population a).

Definition prioritizeCities (cities : list cityMatch) : list cityMatch :=
  Js.Array_sort compareCities cities.

Definition setLoading (isLoading : bool) (p : page) : page :=
  with_loading p isLoading.

Definition mphToKmh (speed : Q) : Z := Js.Math_round (speed * (1609 # 1000))%Q.
Definition kmhToMph (speed : Q) : Z := Js.Math_round (speed / (1609 # 1000))%Q.

Section Host.
Variable h : host.

Definition formatTime (currentTimeFormat : string) (timestamp : Z)
    : string :=
  let hours := Js.getHours (tz h) (timestamp * 1000) in
  if String.eqb currentTimeFormat "24" then
    Js.padStart 2 "0" (Js.Number_toString hours) +:+ ":00"
  else
    let ampm := if 12 <=? hours then "PM" else "AM" in
    let displayHours := if hours mod 12 =? 0 then 12 else hours mod 12 in
    Js.Number_toString displayHours +:+ " " +:+ ampm.

Definition formatDate (date : Z) : string :=
  Js.toLongDateString (tz h) date.

(** The dictionary built by the loop of [groupForecastByDay]. *)
Definition dailyData (l : list sample) : Js.obj (list sample) :=
  fold_left
    (fun o item =>
       let dateKey := Js.toLocaleDateString (tz h) (dt item * 1000) in
       let o1 := match Js.get dateKey o with
                 | Some _ => o
                 | None => Js.set dateKey [] o
                 end in
       Js.set dateKey (default [] (Js.get dateKey o1) ++ [item]) o1)
    l [].

Definition groupForecastByDay (data : forecastData)
    : result (list (list sample)) :=
  match fc_list data with
  | None => Throw TypeError
  | Some l => Ok (Js.Object_values (dailyData l))
  end.

Definition getDynamicWeekdays : list string :=
  let todayIndex := Js.getDay (tz h) (now h) in
  map (fun i => nth (Z.to_nat ((todayIndex + i) mod 7)) Js.weekdaysLong "")
    [0; 1; 2; 3; 4; 5; 6].

Definition updateDaySelectorText (p : page) : page :=
  with_dayMenu p
    (imap (fun index o =>
             {| dayText :=
                  match index with
                  | O => "Today"
                  | S O => "Tomorrow"
                  | _ => default "" (getDynamicWeekdays !! index)
                  end;
                dayHidden := dayHidden o; dayActive := dayActive o |})
          (dayOptions p))
    (selectedDay p).

(** The badge and the check marks are outside the modelled page. *)
Definition initializeUI (p : page) : page := updateDaySelectorText p.

Definition updateCurrentWeather (currentUnit currentSpeedUnit : string)
    (data : currentData) (p : page) : page :=
  let fahrenheit := String.eqb currentUnit "fahrenheit" in
  let temp := if fahrenheit
              then inject_Z (celsiusToFahrenheit (cd_temp data))
              else cd_temp data in
  let feelsLike := if fahrenheit
                   then inject_Z (celsiusToFahrenheit (cd_feels_like data))
                   else cd_feels_like data in
  let windSpeedValue :=
    Js.Math_round (cd_wind_speed data * (2237 # 1000))%Q in
  with_current p
    (cd_name data +:+ ", " +:+ cd_country data)
    (formatDate (now h))
    (degrees (Js.Number_toString (Js.Math_round temp)))
    (Js.get (cd_icon data) weatherIconMap)
    (degrees (Js.Number_toString (Js.Math_round feelsLike)))
    (Js.Number_toString (cd_humidity data) +:+ "%")
    (if String.eqb currentSpeedUnit "kmh"
     then Js.Number_toString (mphToKmh (inject_Z windSpeedValue))
          +:+ " km/h"
     else Js.Number_toString windSpeedValue +:+ " mph")
    (match cd_rain_1h data with
     | Some r => if Qeq_bool r 0 then "0 mm" else showNumber h r +:+ " mm"
     | None => "0 mm"
     end).

(** [celsiusToFahrenheit] on a value that may be infinite. *)
Definition toFahrenheit (x : Js.ext Z) : Js.ext Z :=
  match x with
  | Js.Finite n => Js.Finite (celsiusToFahrenheit (inject_Z n))
  | other => other
  end.

(** The values a daily card is filled from, for a day's items. *)
Definition maxTemp (currentUnit : string) (dayItems : list sample)
    : Js.ext Z :=
  let maxTemp := Js.Math_round_ext (Js.Math_max (map temp dayItems)) in
  if String.eqb currentUnit "fahrenheit" then toFahrenheit maxTemp
  else maxTemp.

Definition minTemp (currentUnit : string) (dayItems : list sample)
    : Js.ext Z :=
  let minTemp := Js.Math_round_ext (Js.Math_min (map temp dayItems)) in
  if String.eqb currentUnit "fahrenheit" then toFahrenheit minTemp
  else minTemp.

(** [dayItems[0].weather[0].icon]. *)
Definition iconCode (dayItems : list sample) : option string :=
  icon <$> head dayItems.

Definition fillDailyCard (currentUnit : string)
    (dayItems : option (list sample)) : dailyCard :=
  match dayItems with
  | Some (first :: rest) =>
      {| dayName := Js.weekdayShort (tz h) (dt first * 1000);
         dayIcon := iconCode (first :: rest)
                      ≫= (fun c => Js.get c weatherIconMap);
         dayTempMax :=
           degrees (Js.ext_toString (maxTemp currentUnit (first :: rest)));
         dayTempMin :=
           degrees (Js.ext_toString (minTemp currentUnit (first :: rest)))
      |}
  | _ =>
      {| dayName := "N/A"; dayIcon := Some "icon-sunny.webp";
         dayTempMax := "N/A"; dayTempMin := "N/A" |}
  end.

Definition updateDailyForecast (currentUnit : string)
    (data : forecastData) (p : page) : result page :=
  match groupForecastByDay data with
  | Throw e => Throw e
  | Ok daysArray =>
      Ok (with_dailyCards p
            (imap (fun index _ =>
                     fillDailyCard currentUnit (daysArray !! index))
                  (dailyCards p)))
  end.

(** [selectedDayItems]: the group at [dayIndex], or [undefined]. *)
Definition selectedDayItems (daysArray : list (list sample))
    (dayIndex : nat) : option (list sample) :=
  daysArray !! dayIndex.

Definition fillHourlyCard (currentUnit currentTimeFormat : string)
    (forecast : option sample) (card : hourlyCard) : hourlyCard :=
  match forecast with
  | Some f =>
      let temp := Js.Math_round (temp f) in
      let temp := if String.eqb currentUnit "fahrenheit"
                  then celsiusToFahrenheit (inject_Z temp) else temp in
      {| hourlyTime := formatTime currentTimeFormat (dt f);
         hourlyTemp := degrees (Js.Number_toString temp);
         hourlyIcon := Js.get (icon f) weatherIconMap;
         hourlyDisplay := "flex" |}
  | None =>
      {| hourlyTime := hourlyTime card; hourlyTemp := hourlyTemp card;
         hourlyIcon := hourlyIcon card; hourlyDisplay := "none" |}
  end.

Definition updateHourlyForecast (currentUnit currentTimeFormat : string)
    (data : forecastData) (dayIndex : nat) (p : page) : result page :=
  match groupForecastByDay data with
  | Throw e => Throw e
  | Ok daysArray =>
      Ok (with_hourlyCards p
            (imap (fun index card =>
                     fillHourlyCard currentUnit currentTimeFormat
                       (selectedDayItems daysArray dayIndex
                          ≫= (fun items => items !! index))
                       card)
                  (hourlyCards p)))
  end.

Definition fetch {A} (url : string) (served : string -> fetched A)
    : M app (fetched A) :=
  modify (fun a => with_request a url) ;; ret (served url).

Definition onPage (f : page -> result page) : M app unit :=
  fun a => match f (doc a) with
           | Ok p => (with_doc a p, Ok tt)
           | Throw e => (a, Throw e)
           end.

Definition showFailure (city : string) (p : page) : page :=
  with_current p
    ("Could not find " +:+ dquote +:+ city +:+ dquote)
    "Please try another city"
    "--°" (mainWeatherIcon p) "--°" "--%" "-- mph" "-- mm".

Definition fetchWeather (net : network) (a0 : app) : app :=
  let a1 := with_doc a0 (setLoading true (doc a0)) in
  let a2 :=
    try_catch
      (do a <- get_state;
       do currentResponse <- fetch (weatherUrl (city a)) (GET_weather net);
       do currentData <- settle true (fun _ => CityNotFound) currentResponse;
       do forecastResponse <-
         fetch (forecastUrl (city a)) (GET_forecast net);
       do forecastData <- settle false HttpError forecastResponse;
       modify (fun a => with_globalForecastData a (Some forecastData)) ;;
       onPage (fun p =>
                 Ok (updateCurrentWeather (currentUnit a)
                       (currentSpeedUnit a) currentData p)) ;;
       onPage (updateDailyForecast (currentUnit a) forecastData) ;;
       onPage (updateHourlyForecast (currentUnit a) (currentTimeFormat a)
                 forecastData 0) ;;
       modify (fun a =>
                 with_localStorage a
                   (<["lastCity" := city a]> (localStorage a))) ;;
       modify (fun a =>
                 with_doc a (with_dayMenu (doc a) (dayOptions (doc a))
                               "Today")))
      (fun _ a => with_doc a (showFailure (city a) (doc a)))
      a1 in
  with_doc a2 (setLoading false (doc a2)).
End Host.

(** The globals as the script initialises them from storage. *)
Definition start (p : page) (st : gmap string string) : app :=
  {| doc := p; localStorage := st;
     city := orString (st !! "lastCity") "Cardiff";
     globalForecastData := None;
     currentUnit := orString (st !! "tempUnit") "celsius";
     currentSpeedUnit := orString (st !! "windUnit") "mph";
     currentTimeFormat := orString (st !! "timeFormat") "12";
     requests := [] |}.

(** The two statements at the end of the script. *)
Definition initialize (h : host) (net : network) (a : app) : app :=
  fetchWeather h net (with_doc a (initializeUI h (doc a))).

(** *** The converters and the handlers of the page *)

Definition with_prefs (a : app) (c u w t : string) : app :=
  {| doc := doc a; localStorage := localStorage a; city := c;
     globalForecastData := globalForecastData a;
     currentUnit := u; currentSpeedUnit := w;
     currentTimeFormat := t; requests := requests a |}.

(** What [convertAllTemperatures] does to the text of one element. *)
Definition convertTemperature (toUnit : string) (tempStr : string)
    : string :=
  match extractTemperature tempStr with
  | Some tempValue =>
      degrees
        (Js.Number_toString
           (if String.eqb toUnit "fahrenheit"
            then celsiusToFahrenheit (inject_Z tempValue)
            else fahrenheitToCelsius (inject_Z tempValue)))
  | None => tempStr
  end.

Definition convertAllTemperatures (toUnit : string) (p : page) : page :=
  map_temperatures (convertTemperature toUnit) p.

Definition convertSpeedUnit (currentSpeedUnit : string) (p : page) : page :=
  match extractWindSpeed (windSpeed p) with
  | Some speedValue =>
      if String.eqb currentSpeedUnit "kmh"
      then with_windSpeed p
             (Js.Number_toString (mphToKmh (inject_Z speedValue))
              +:+ " km/h")
      else with_windSpeed p
             (Js.Number_toString (kmhToMph (inject_Z speedValue))
              +:+ " mph")
  | None => p
  end.

(** What [convertAllTimes] does to the text of one hourly time. *)
Definition convertTime (currentTimeFormat : string) (text : string)
    : string :=
  let timeStr := Js.trim text in
  if String.eqb currentTimeFormat "24"
     && (Js.includes "AM" timeStr || Js.includes "PM" timeStr)
  then
    match Js.match_clock12 timeStr with
    | Some (digits, matched) =>
        let hours := Js.parseInt digits in
        let period := Js.toUpperCase matched in
        let hours := if String.eqb period "PM" && negb (hours =? 12)
                     then hours + 12 else hours in
        let hours := if String.eqb period "AM" && (hours =? 12)
                     then 0 else hours in
        Js.padStart 2 "0" (Js.Number_toString hours) +:+ ":00"
    | None => text
    end
  else if String.eqb currentTimeFormat "12" && Js.test_clock24 timeStr
  then
    let hours := Js.parseInt (Js.beforeColon timeStr) in
    if hours =? 0 then "12 AM"
    else if hours =? 12 then Js.Number_toString hours +:+ " PM"
    else if 12 <? hours then Js.Number_toString (hours - 12) +:+ " PM"
    else Js.Number_toString hours +:+ " AM"
  else text.

Definition convertAllTimes (currentTimeFormat : string) (p : page) : page :=
  map_hourlyTimes (convertTime currentTimeFormat) p.

(** A click on a temperature-unit option; the badge and the check
    marks are outside the modelled page. *)
Definition selectUnit (unit : string) (a : app) : app :=
  if String.eqb unit (currentUnit a) then a
  else
    let a1 := with_prefs a (city a) unit (currentSpeedUnit a)
                (currentTimeFormat a) in
    let a2 := with_doc a1 (convertAllTemperatures unit (doc a1)) in
    with_localStorage a2 (<["tempUnit" := unit]> (localStorage a2)).

(** A click on a wind-unit option. *)
Definition selectWindUnit (unit : string) (a : app) : app :=
  if String.eqb unit (currentSpeedUnit a) then a
  else
    let a1 := with_prefs a (city a) (currentUnit a) unit
                (currentTimeFormat a) in
    let a2 := with_doc a1 (convertSpeedUnit unit (doc a1)) in
    with_localStorage a2 (<["windUnit" := unit]> (localStorage a2)).

(** A click on a time-format option. *)
Definition selectTimeFormat (format : string) (a : app) : app :=
  if String.eqb format (currentTimeFormat a) then a
  else
    let a1 := with_prefs a (city a) (currentUnit a) (currentSpeedUnit a)
                format in
    let a2 := with_doc a1 (convertAllTimes format (doc a1)) in
    with_localStorage a2 (<["timeFormat" := format]> (localStorage a2)).

(** A click on the day option [dayIndex] of the hourly view. With no
    forecast stored yet, [groupForecastByDay] reads [list] off [null] and
    throws. *)
Definition selectDay (h : host) (dayIndex : nat) (dayName : string)
    : M app unit :=
  fun a =>
    let a1 := with_doc a (with_dayMenu (doc a) (dayOptions (doc a))
                            dayName) in
    match globalForecastData a1 with
    | Some data =>
        match updateHourlyForecast h (currentUnit a1) (currentTimeFormat a1)
                data dayIndex (doc a1) with
        | Ok p => (with_doc a1 p, Ok tt)
        | Throw e => (a1, Throw e)
        end
    | None => (a1, Throw TypeError)
    end.

(** A click on the search button with [inputValue] in the input: the
    state and the alert raised, if any. *)
Definition searchClick (h : host) (net : network) (inputValue : string)
    (a : app) : app * option string :=
  let cityName := Js.trim inputValue in
  if String.eqb cityName "" then (a, Some "Please enter a city name")
  else
    (fetchWeather h net
       (with_prefs a cityName (currentUnit a) (currentSpeedUnit a)
          (currentTimeFormat a)),
     None).

(** The Enter key in the input. *)
Definition enterKey (h : host) (net : network) (inputValue : string)
    (a : app) : app :=
  let cityName := Js.trim inputValue in
  if String.eqb cityName "" then a
  else
    fetchWeather h net
      (with_prefs a cityName (currentUnit a) (currentSpeedUnit a)
         (currentTimeFormat a)).

End FinalJs.

(** * Specification-side notions *)

(** [m] is the largest (smallest) element of [xs]. *)
Definition is_maximum (m : Q) (xs : list Q) : Prop :=
  In m xs /\ Forall (fun x => (x <= m)%Q) xs.

Definition is_minimum (m : Q) (xs : list Q) : Prop :=
  In m xs /\ Forall (fun x => (m <= x)%Q) xs.

(** Hour [hr] on a 24-hour clock, two digits. *)
Definition digitChar (n : Z) : ascii := ascii_of_nat (48 + Z.to_nat n).

Definition zeroPadded (hr : Z) : string :=
  String (digitChar (hr / 10)) (String (digitChar (hr mod 10)) "").

(** Hour [hr] on a 12-hour clock. *)
Definition clock12 (hr : Z) : string :=
  Js.Number_toString (if hr mod 12 =? 0 then 12 else hr mod 12)
  +:+ " " +:+ (if hr <? 12 then "AM" else "PM").

(** The distinct elements of [ks], each at the place of its first
    occurrence. *)
Fixpoint firstSeen {K} `{EqDecision K} (ks : list K) : list K :=
  match ks with
  | [] => []
  | k :: rest =>
      k :: List.filter (fun k' => negb (bool_decide (k' = k))) (firstSeen rest)
  end.

(** The samples of [l] whose day key is [k], in the order of [l]. *)
Definition ofDay {K} `{EqDecision K} (key : sample -> K) (k : K)
    (l : list sample) : list sample :=
  List.filter (fun s => bool_decide (key s = k)) l.

(** The day key of the rewritten script: the local date as text. *)
Definition localeDay (h : host) (item : sample) : string :=
  Js.toLocaleDateString (tz h) (dt item * 1000).

(** [buckets] split [l] by day: one bucket for each key of [ks], holding
    the samples of that day in input order; every sample lies in exactly
    one bucket, and nothing is dropped or repeated. *)
Definition splitsByDay {K} `{EqDecision K} (key : sample -> K)
    (ks : list K) (l : list sample) (buckets : list (list sample)) : Prop :=
  buckets = map (fun k => ofDay key k l) ks /\
  (forall s, s ∈ l ->
     exists i, (exists b, buckets !! i = Some b /\ s ∈ b) /\
               (forall j b, buckets !! j = Some b -> s ∈ b -> j = i)) /\
  Permutation (concat buckets) l /\
  list_sum (map length buckets) = length l.

(** A card taken off display, its content left as it was. *)
Definition hidden (card : hourlyCard) : hourlyCard :=
  {| hourlyTime := hourlyTime card; hourlyTemp := hourlyTemp card;
     hourlyIcon := hourlyIcon card; hourlyDisplay := "none" |}.

(** How often [c] occurs in [icons]. *)
Definition occurrences (c : string) (icons : list string) : Z :=
  Z.of_nat (length (List.filter (String.eqb c) icons)).

(** [c] has the highest number of occurrences in [icons] and, among the
    codes with that number, occurs first. *)
Definition representative (icons : list string) (c : string) : Prop :=
  (forall c', occurrences c' icons <= occurrences c icons) /\
  exists pre post,
    icons = pre ++ c :: post /\
    forall c', c' ∈ pre -> occurrences c' icons < occurrences c icons.

(** Whether a candidate is of a priority country, and its population
    as the comparator reads it. *)
Definition priorityOf (c : FinalJs.cityMatch) : bool :=
  FinalJs.isPriority (FinalJs.c_country c).

Definition populationOf (c : FinalJs.cityMatch) : Z :=
  default 0 (FinalJs.c_population c).

(** [a] may stand before [b]: a priority country before any other, and
    within a group the larger population first. *)
Definition rankedBefore (a b : FinalJs.cityMatch) : Prop :=
  (priorityOf a = true /\ priorityOf b = false) \/
  (priorityOf a = priorityOf b /\ populationOf b <= populationOf a).

(** Same group and same population. *)
Definition sameRank (a b : FinalJs.cityMatch) : bool :=
  Bool.eqb (priorityOf a) (priorityOf b)
  && (populationOf a =? populationOf b).

(** A fetch that fails: a transport error or a non-success status. *)
Definition failed {A} (f : fetched A) : Prop :=
  match f with
  | Rejected => True
  | Resolved r => ok r = false
  end.

(** The five current-conditions fields hold the placeholder. *)
Definition showsPlaceholders (p : page) : Prop :=
  currentDate p = "Please try another city" /\
  mainTemperature p = "--°" /\
  feelsLikeTemp p = "--°" /\
  humidityValue p = "--%" /\
  windSpeed p = "-- mph" /\
  precipitationValue p = "-- mm".

(** * Loop bodies, as the proofs see them *)

(** One turn of a loop that rewrites the entry of an item's key. *)
Definition tallyStep {T V} (key : T -> string) (upd : option V -> T -> V)
    (o : Js.obj V) (x : T) : Js.obj V :=
  Js.set (key x) (upd (Js.get (key x) o) x) o.

(** The value filed under [k] once the items [l] have gone by. *)
Definition tallied {T V} (key : T -> string) (upd : option V -> T -> V)
    (k : string) (l : list T) : option V :=
  fold_left
    (fun acc x => if String.eqb (key x) k then Some (upd acc x) else acc)
    l None.

(** The items of [l] filed under [k], in the order of [l]. *)
Definition filedUnder {T} (key : T -> string) (k : string) (l : list T)
    : list T :=
  List.filter (fun x => String.eqb (key x) k) l.

(** The loop body shared by the grouping loops: create the group on
    the first item of a key, then push the item. *)
Definition groupStep {T} (key : T -> string) (o : Js.obj (list T)) (x : T)
    : Js.obj (list T) :=
  let k := key x in
  let o1 := match Js.get k o with
            | Some _ => o
            | None => Js.set k [] o
            end in
  Js.set k (default [] (Js.get k o1) ++ [x]) o1.

(** The body of the second loop of [getMostCommonIcon], for a count
    [f]. *)
Definition pick (f : string -> Z) : option string * Z -> string
    -> option string * Z :=
  fun '(mostCommon, highestCount) icon =>
    if highestCount <? f icon then (Some icon, f icon)
    else (mostCommon, highestCount).

(** * Sample data *)

(** A host on UTC. *)
Definition utc : host := {| tz := 0; now := 0; showNumber := fun _ => "" |}.

(** A sample taken at [t] seconds. *)
Definition sample_at (t : Z) : sample :=
  {| dt := t; temp := 182 # 10; icon := "10d" |}.

(** A day with readings 18.2, 20.9 and 16.4. *)
Definition day_18_21_16 : list sample :=
  [ {| dt := 1765065600; temp := 182 # 10; icon := "10d" |};
    {| dt := 1765076400; temp := 209 # 10; icon := "10d" |};
    {| dt := 1765087200; temp := 164 # 10; icon := "01d" |} ].

(** Samples carrying the given condition codes. *)
Definition items_with (codes : list string) : list sample :=
  map (fun c => {| dt := 1765065600; temp := 182 # 10; icon := c |}) codes.

(** A candidate named Paris. *)
Definition paris (country : string) (population : Z) : FinalJs.cityMatch :=
  {| FinalJs.c_name := "Paris"; FinalJs.c_country := country;
     FinalJs.c_population := Some population |}.

(** A page with eight hourly cards, seven daily cards and seven day
    options, all empty. *)
Definition blankCard : hourlyCard :=
  {| hourlyTime := ""; hourlyTemp := ""; hourlyIcon := None;
     hourlyDisplay := "flex" |}.

Definition blankPage : page :=
  {| locationName := ""; currentDate := ""; mainTemperature := "";
     mainWeatherIcon := None; feelsLikeTemp := ""; humidityValue := "";
     windSpeed := ""; precipitationValue := "";
     dailyCards :=
       repeat {| dayName := ""; dayIcon := None; dayTempMax := "";
                 dayTempMin := "" |} 7;
     hourlyCards := repeat blankCard 8;
     dayOptions :=
       repeat {| dayText := ""; dayHidden := false; dayActive := false |} 7;
     selectedDay := ""; loadingVisible := false |}.

(** A network on which every request fails in transport. *)
Definition unreachable : network :=
  {| GET_weather := fun _ => Rejected; GET_forecast := fun _ => Rejected |}.

(** A network that knows Cardiff only. *)
Definition cardiff_weather : currentData :=
  {| cd_name := "Cardiff"; cd_country := "GB"; cd_temp := 182 # 10;
     cd_feels_like := 175 # 10; cd_humidity := 80; cd_wind_speed := 5;
     cd_rain_1h := None; cd_icon := "10d" |}.

Definition only_cardiff : network :=
  {| GET_weather := fun url =>
       if String.eqb url (weatherUrl "Cardiff")
       then Resolved {| ok := true; status := 200;
                        json := Some cardiff_weather |}
       else Resolved {| ok := false; status := 404; json := None |};
     GET_forecast := fun url =>
       if String.eqb url (forecastUrl "Cardiff")
       then Resolved {| ok := true; status := 200;
                        json := Some {| fc_list := Some day_18_21_16 |} |}
       else Resolved {| ok := false; status := 404; json := None |} |}.

(** Fresh states of the two scripts, about to search for "Atlantis". *)
Definition atlantis_main : MainJs.app := MainJs.start blankPage ∅.

Definition atlantis_final : FinalJs.app :=
  {| FinalJs.doc := blankPage; FinalJs.localStorage := ∅;
     FinalJs.city := "Atlantis"; FinalJs.globalForecastData := None;
     FinalJs.currentUnit := "celsius"; FinalJs.currentSpeedUnit := "mph";
     FinalJs.currentTimeFormat := "12"; FinalJs.requests := [] |}.

(** * Tactics *)

(** Case analysis on an hour between 0 and 23. *)
Ltac each_hour hr :=
  let n := fresh "n" in
  let E := fresh "E" in
  remember (Z.to_nat hr) as n eqn:E;
  replace hr with (Z.of_nat n) in * by lia;
  do 24 (destruct n as [|n]; [vm_compute; repeat split; reflexivity|]);
  lia.

(** Unfolding of the fetch functions down to their case analysis. *)
Ltac run_fetch :=
  unfold MainJs.fetchWeatherForCity, FinalJs.fetchWeather, try_catch, bind,
    MainJs.fetch, FinalJs.fetch, MainJs.onPage, FinalJs.onPage, modify, ret,
    settle, throw, get_state.

(** * Notions for the further properties *)

(** The [count] integers from [lo] upwards. *)
Fixpoint upFrom (lo : Z) (count : nat) : list Z :=
  match count with
  | O => []
  | S count' => lo :: upFrom (lo + 1) count'
  end.

(** On the whole degree [n] the code's binary64 evaluation of the two
    conversions gives what exact arithmetic gives. *)
Definition binary64Agrees (n : Z) : bool :=
  bool_decide (Binary64.celsiusToFahrenheit (Js.Number_of_Z n)
               = Some (celsiusToFahrenheit (inject_Z n)))
  && bool_decide (Binary64.fahrenheitToCelsius (Js.Number_of_Z n)
                  = Some (fahrenheitToCelsius (inject_Z n))).

(** A day with the single reading 18.4. *)
Definition day_18_4 : list sample :=
  [ {| dt := 1765065600; temp := 184 # 10; icon := "10d" |} ].

(** Whether [s] holds a digit, and whether it holds nothing else. *)
Fixpoint hasDigit (s : string) : bool :=
  match s with
  | String c s' => Js.isDigit c || hasDigit s'
  | EmptyString => false
  end.

Fixpoint allDigits (s : string) : bool :=
  match s with
  | String c s' => Js.isDigit c && allDigits s'
  | EmptyString => true
  end.

(** Whether [s] is white space only. *)
Fixpoint blank (s : string) : bool :=
  match s with
  | String c s' => Js.isSpace c && blank s'
  | EmptyString => true
  end.

(** Whether [s] is ASCII text, on which the model of [trim] is
    exact. *)
Fixpoint isAscii (s : string) : bool :=
  match s with
  | String c s' => (nat_of_ascii c <? 128)%nat && isAscii s'
  | EmptyString => true
  end.



(** What [updateDailyForecast] of [main.js] collects for the day
    [k]: the temperatures and the condition codes of that day's samples,
    in the order of the list. *)
Definition dayDataOf (h : host) (k : Z) (l : list sample)
    : MainJs.dayData :=
  {| MainJs.temps := map temp (ofDay (MainJs.dateKey h) k l);
     MainJs.icons := map icon (ofDay (MainJs.dateKey h) k l);
     MainJs.date := k |}.

(** A dictionary with every value rewritten, keys and order kept. *)
Definition mapValues {V W} (g : string -> V -> W) (o : Js.obj V)
    : Js.obj W :=
  map (fun e => (fst e, g (fst e) (snd e))) o.

(** The statements [c] keep the invariant [I] of the state, whether
    they return or throw. *)
Definition keeps {S A} (I : S -> Prop) (c : M S A) : Prop :=
  forall s, I s -> I (c s).1.

(** A fetch that resolves with a success status and the body [d], and
    one that resolves with the body [d] under any status. *)
Definition delivers {A} (f : fetched A) (d : A) : Prop :=
  match f with
  | Resolved r => ok r = true /\ json r = Some d
  | Rejected => False
  end.

Definition carries {A} (f : fetched A) (d : A) : Prop :=
  match f with
  | Resolved r => json r = Some d
  | Rejected => False
  end.

(** The two scripts once loaded in a fresh browser that reaches
    [only_cardiff]. *)
Definition cardiff_main : MainJs.app :=
  MainJs.initialize utc only_cardiff (MainJs.start blankPage ∅).

Definition cardiff_final : FinalJs.app :=
  FinalJs.initialize utc only_cardiff (FinalJs.start blankPage ∅).


(** * Rounding and temperature conversion *)

Lemma Math_round_nearest (x : Q) : nearest_integer x (Js.Math_round x).
Proof.
  unfold nearest_integer, Js.Math_round.
  pose proof (Qfloor_le (x + (1 # 2))) as Hle.
  pose proof (Qlt_floor (x + (1 # 2))) as Hlt.
  rewrite inject_Z_plus in Hlt.
  split.
  - apply Qplus_le_l with (z := (1 # 2)%Q). ring_simplify.
    ring_simplify in Hle. exact Hle.
  - apply Qplus_lt_l with (z := (1 # 2)%Q).
    eapply Qlt_le_trans; [exact Hlt|].
    ring_simplify. apply Qle_refl.
Qed.

Lemma nearest_integer_unique (x : Q) (n m : Z) :
  nearest_integer x n -> nearest_integer x m -> n = m.
Proof.
  intros [Hn1 Hn2] [Hm1 Hm2].
  assert (Hnm : (inject_Z n < inject_Z m + 1)%Q).
  { apply Qplus_lt_l with (z := (- (1 # 2))%Q).
    eapply Qle_lt_trans; [exact Hn1|].
    eapply Qlt_le_trans; [exact Hm2|]. ring_simplify. apply Qle_refl. }
  assert (Hmn : (inject_Z m < inject_Z n + 1)%Q).
  { apply Qplus_lt_l with (z := (- (1 # 2))%Q).
    eapply Qle_lt_trans; [exact Hm1|].
    eapply Qlt_le_trans; [exact Hn2|]. ring_simplify. apply Qle_refl. }
  change 1%Q with (inject_Z 1) in Hnm, Hmn.
  rewrite <- inject_Z_plus in Hnm, Hmn.
  rewrite <- Zlt_Qlt in Hnm, Hmn. lia.
Qed.

Lemma nearest_integer_Qeq (x y : Q) (n : Z) :
  (x == y)%Q -> nearest_integer x n -> nearest_integer y n.
Proof.
  intros E [H1 H2]. split; rewrite <- E; assumption.
Qed.

Lemma upFrom_In (count : nat) (lo n : Z) :
  lo <= n < lo + Z.of_nat count -> In n (upFrom lo count).
Proof.
  revert lo. induction count as [|count IH]; intros lo Hn; [lia|].
  cbn [upFrom]. destruct (Z.eq_dec lo n) as [->|Hne]; [now left|].
  right. apply IH. lia.
Qed.

(** Checked by evaluation on each of the 40 001 whole degrees. *)
Lemma binary64_agrees_checked :
  forallb binary64Agrees (upFrom (-20000) (Z.to_nat 40001)) = true.
Proof. vm_compute. reflexivity. Qed.

Lemma binary64_agrees (n : Z) :
  -20000 <= n <= 20000 ->
  Binary64.celsiusToFahrenheit (Js.Number_of_Z n)
  = Some (celsiusToFahrenheit (inject_Z n)) /\
  Binary64.fahrenheitToCelsius (Js.Number_of_Z n)
  = Some (fahrenheitToCelsius (inject_Z n)).
Proof.
  intros Hn.
  pose proof (proj1 (forallb_forall _ _) binary64_agrees_checked n) as H.
  assert (Hin : In n (upFrom (-20000) (Z.to_nat 40001)))
    by (apply upFrom_In; lia).
  specialize (H Hin). unfold binary64Agrees in H.
  apply andb_true_iff in H as [H1 H2].
  split; [exact (bool_decide_eq_true_1 _ H1)
         | exact (bool_decide_eq_true_1 _ H2)].
Qed.

(** C4, as the code computes. In exact arithmetic Celsius to Fahrenheit
    is [c * 9/5 + 32] rounded to the nearest integer and Fahrenheit to
    Celsius is [(f - 32) * 5/9] rounded to the nearest integer. The code
    evaluates the expressions in binary64, and on every whole degree
    between -20 000 and 20 000 it returns that same integer; 20 degrees
    Celsius are 68 degrees Fahrenheit and back. *)
Theorem temperature_conversion_rounds :
  (forall c : Q,
      nearest_integer (c * (9 # 5) + 32) (celsiusToFahrenheit c)) /\
  (forall f : Q,
      nearest_integer ((f - 32) * (5 # 9)) (fahrenheitToCelsius f)) /\
  (forall n : Z,
      -20000 <= n <= 20000 ->
      Binary64.celsiusToFahrenheit (Js.Number_of_Z n)
      = Some (celsiusToFahrenheit (inject_Z n)) /\
      Binary64.fahrenheitToCelsius (Js.Number_of_Z n)
      = Some (fahrenheitToCelsius (inject_Z n))) /\
  Binary64.celsiusToFahrenheit (Js.Number_of_Z 20) = Some 68 /\
  Binary64.fahrenheitToCelsius (Js.Number_of_Z 68) = Some 20.
Proof.
  split; [intro c | split; [intro f | split; [|split]]].
  - apply nearest_integer_Qeq with (x := ((c * 9) / 5 + 32)%Q);
      [field | apply Math_round_nearest].
  - apply nearest_integer_Qeq with (x := (((f - 32) * 5) / 9)%Q);
      [field | apply Math_round_nearest].
  - apply binary64_agrees.
  - vm_compute. reflexivity.
  - vm_compute. reflexivity.
Qed.

Lemma temperature_conversion_rounds_witness :
  Binary64.celsiusToFahrenheit (Js.Number_of_Z 20)
  = Some (celsiusToFahrenheit (inject_Z 20)) /\
  Binary64.fahrenheitToCelsius (Js.Number_of_Z 20)
  = Some (fahrenheitToCelsius (inject_Z 20)).
Proof.
  apply (proj1 (proj2 (proj2 temperature_conversion_rounds)) 20). lia.
Defined.

(** On a reading whose expression falls on a half in binary64 and just
    below it in exact arithmetic, the code returns the integer above the
    nearest one: -49 for -57.1 degrees Fahrenheit, where
    [(f - 32) * 5/9] is below -49.5, and -49 for -45.27777777777778 degrees
    Celsius, where [c * 9/5 + 32] is below -49.5. *)
Lemma binary64_tie_rounds_up :
  Binary64.fahrenheitToCelsius Binary64.minus_57_1 = Some (-49) /\
  option_map fahrenheitToCelsius (Js.Number_value Binary64.minus_57_1)
  = Some (-50) /\
  Binary64.celsiusToFahrenheit Binary64.minus_45_27 = Some (-49) /\
  option_map celsiusToFahrenheit (Js.Number_value Binary64.minus_45_27)
  = Some (-50).
Proof. repeat split; vm_compute; reflexivity. Qed.

(** C6. The two rounded conversions are not inverse to each other: some
    integer Fahrenheit reading does not come back from the round trip
    through Celsius. *)
Theorem round_trip_is_lossy :
  exists f : Z,
    celsiusToFahrenheit (inject_Z (fahrenheitToCelsius (inject_Z f))) <> f.
Proof.
  exists 33. vm_compute. discriminate.
Qed.

(** The reading 68 itself survives the round trip. *)
Example round_trip_68 :
  celsiusToFahrenheit (inject_Z (fahrenheitToCelsius 68)) = 68.
Proof. reflexivity. Qed.

(** * Time of day *)

Lemma getHours_range (tz t : Z) : 0 <= Js.getHours tz t < 24.
Proof. unfold Js.getHours. apply Z.mod_pos_bound. lia. Qed.

(** Every hour of the day is the local hour of some instant. *)
Lemma getHours_onto (tz hr : Z) :
  0 <= hr < 24 -> Js.getHours tz (hr * Js.msPerHour - tz) = hr.
Proof.
  intros Hr. unfold Js.getHours, Js.msPerHour.
  replace (hr * 3600000 - tz + tz) with (hr * 3600000) by lia.
  rewrite Z.div_mul by lia. apply Z.mod_small. lia.
Qed.

(** C5. For an hour of the day between 0 and 23, the 24-hour format is
    the hour on two digits followed by ":00", and the 12-hour format is
    the hour modulo 12, with 12 for 0, followed by "AM" before noon and by
    "PM" from noon on. *)
Theorem formatTime_by_hour (h : host) (hr date timestamp : Z) :
  0 <= hr < 24 ->
  Js.getHours (tz h) date = hr ->
  Js.getHours (tz h) (timestamp * 1000) = hr ->
  MainJs.formatTime h true date = zeroPadded hr +:+ ":00" /\
  MainJs.formatTime h false date = clock12 hr /\
  FinalJs.formatTime h "24" timestamp = zeroPadded hr +:+ ":00" /\
  FinalJs.formatTime h "12" timestamp = clock12 hr.
Proof.
  intros Hr Hd Ht.
  unfold MainJs.formatTime, FinalJs.formatTime.
  rewrite Hd, Ht. clear Hd Ht.
  cbn [String.eqb Ascii.eqb Bool.eqb].
  each_hour hr.
Qed.

Lemma formatTime_by_hour_witness :
  MainJs.formatTime utc true 54000000 = "15:00" /\
  MainJs.formatTime utc false 54000000 = "3 PM" /\
  FinalJs.formatTime utc "24" 54000 = "15:00" /\
  FinalJs.formatTime utc "12" 54000 = "3 PM".
Proof.
  exact (formatTime_by_hour utc 15 54000000 54000
           ltac:(lia) eq_refl eq_refl).
Defined.

Example formatTime_midnight :
  MainJs.formatTime utc false 0 = "12 AM" /\
  FinalJs.formatTime utc "12" 0 = "12 AM".
Proof. split; reflexivity. Qed.

(** * Daily extremes *)

Lemma Qmax2_cases (a b : Q) :
  (Js.Qmax2 a b = a /\ (b <= a)%Q) \/ (Js.Qmax2 a b = b /\ (a <= b)%Q).
Proof.
  unfold Js.Qmax2. destruct (Qle_bool a b) eqn:E.
  - right. split; [reflexivity | now apply Qle_bool_iff].
  - left. split; [reflexivity|]. apply Qlt_le_weak, Qnot_le_lt.
    intros Hle. apply Qle_bool_iff in Hle. congruence.
Qed.

Lemma Qmin2_cases (a b : Q) :
  (Js.Qmin2 a b = a /\ (a <= b)%Q) \/ (Js.Qmin2 a b = b /\ (b <= a)%Q).
Proof.
  unfold Js.Qmin2. destruct (Qle_bool a b) eqn:E.
  - left. split; [reflexivity | now apply Qle_bool_iff].
  - right. split; [reflexivity|]. apply Qlt_le_weak, Qnot_le_lt.
    intros Hle. apply Qle_bool_iff in Hle. congruence.
Qed.

Lemma fold_Qmax2_maximum (rest : list Q) (x : Q) :
  is_maximum (fold_left Js.Qmax2 rest x) (x :: rest).
Proof.
  revert x. induction rest as [|y rest IH]; intros x; simpl.
  - split; [now left | constructor; [apply Qle_refl | constructor]].
  - destruct (IH (Js.Qmax2 x y)) as [Hin Hall].
    apply Forall_cons_iff in Hall as [Hm Hrest].
    destruct (Qmax2_cases x y) as [[E Hle] | [E Hle]]; rewrite E in *.
    + split.
      * destruct Hin as [<- | Hin]; [now left | right; now right].
      * repeat constructor; try assumption.
        eapply Qle_trans; eassumption.
    + split.
      * destruct Hin as [<- | Hin]; [right; now left | right; now right].
      * repeat constructor; try assumption.
        eapply Qle_trans; eassumption.
Qed.

Lemma fold_Qmin2_minimum (rest : list Q) (x : Q) :
  is_minimum (fold_left Js.Qmin2 rest x) (x :: rest).
Proof.
  revert x. induction rest as [|y rest IH]; intros x; simpl.
  - split; [now left | constructor; [apply Qle_refl | constructor]].
  - destruct (IH (Js.Qmin2 x y)) as [Hin Hall].
    apply Forall_cons_iff in Hall as [Hm Hrest].
    destruct (Qmin2_cases x y) as [[E Hle] | [E Hle]]; rewrite E in *.
    + split.
      * destruct Hin as [<- | Hin]; [now left | right; now right].
      * repeat constructor; try assumption.
        eapply Qle_trans; eassumption.
    + split.
      * destruct Hin as [<- | Hin]; [right; now left | right; now right].
      * repeat constructor; try assumption.
        eapply Qle_trans; eassumption.
Qed.

(** C7. For a day with at least one sample, the summary's maximum is
    the largest raw temperature rounded to the nearest integer and its
    minimum the smallest one rounded; with a single sample the two are
    equal. (The rewritten script converts the rounded values to Fahrenheit
    afterwards when that unit is selected.) *)
Theorem day_summary_extremes
    (ts : list Q) (d : MainJs.dayData) (dayItems : list sample) :
  ts <> [] ->
  MainJs.temps d = ts ->
  map temp dayItems = ts ->
  exists (hi lo : Q) (zhi zlo : Z),
    is_maximum hi ts /\ is_minimum lo ts /\
    nearest_integer hi zhi /\ nearest_integer lo zlo /\
    MainJs.maxTemp d = Js.Finite zhi /\
    MainJs.minTemp d = Js.Finite zlo /\
    FinalJs.maxTemp "celsius" dayItems = Js.Finite zhi /\
    FinalJs.minTemp "celsius" dayItems = Js.Finite zlo /\
    FinalJs.maxTemp "fahrenheit" dayItems
      = Js.Finite (celsiusToFahrenheit (inject_Z zhi)) /\
    FinalJs.minTemp "fahrenheit" dayItems
      = Js.Finite (celsiusToFahrenheit (inject_Z zlo)) /\
    (length ts = 1%nat -> zhi = zlo).
Proof.
  intros Hne Hd Hitems.
  destruct ts as [|x rest]; [congruence|].
  exists (fold_left Js.Qmax2 rest x), (fold_left Js.Qmin2 rest x).
  exists (Js.Math_round (fold_left Js.Qmax2 rest x)),
         (Js.Math_round (fold_left Js.Qmin2 rest x)).
  unfold MainJs.maxTemp, MainJs.minTemp, FinalJs.maxTemp, FinalJs.minTemp.
  rewrite Hd, Hitems. cbn [String.eqb Ascii.eqb Bool.eqb].
  repeat split; try reflexivity;
    try apply fold_Qmax2_maximum; try apply fold_Qmin2_minimum;
    try apply Math_round_nearest.
  intros Hlen. destruct rest; [reflexivity | discriminate].
Qed.

Lemma day_summary_extremes_witness :
  exists (hi lo : Q) (zhi zlo : Z),
    is_maximum hi [182 # 10; 209 # 10; 164 # 10]%Q /\
    is_minimum lo [182 # 10; 209 # 10; 164 # 10]%Q /\
    nearest_integer hi zhi /\ nearest_integer lo zlo /\
    MainJs.maxTemp
      {| MainJs.temps := [182 # 10; 209 # 10; 164 # 10]%Q;
         MainJs.icons := ["10d"; "10d"; "01d"];
         MainJs.date := 1765065600000 |} = Js.Finite zhi /\
    MainJs.minTemp
      {| MainJs.temps := [182 # 10; 209 # 10; 164 # 10]%Q;
         MainJs.icons := ["10d"; "10d"; "01d"];
         MainJs.date := 1765065600000 |} = Js.Finite zlo /\
    FinalJs.maxTemp "celsius" day_18_21_16 = Js.Finite zhi /\
    FinalJs.minTemp "celsius" day_18_21_16 = Js.Finite zlo /\
    FinalJs.maxTemp "fahrenheit" day_18_21_16
      = Js.Finite (celsiusToFahrenheit (inject_Z zhi)) /\
    FinalJs.minTemp "fahrenheit" day_18_21_16
      = Js.Finite (celsiusToFahrenheit (inject_Z zlo)) /\
    (length [182 # 10; 209 # 10; 164 # 10]%Q = 1%nat -> zhi = zlo).
Proof.
  apply (day_summary_extremes [182 # 10; 209 # 10; 164 # 10]%Q
           {| MainJs.temps := [182 # 10; 209 # 10; 164 # 10]%Q;
              MainJs.icons := ["10d"; "10d"; "01d"];
              MainJs.date := 1765065600000 |}
           day_18_21_16);
    [discriminate | reflexivity | reflexivity].
Defined.

(** The worked example: 18.2, 20.9 and 16.4 give 21 and 16. *)
Example day_summary_21_16 :
  FinalJs.maxTemp "celsius" day_18_21_16 = Js.Finite 21 /\
  FinalJs.minTemp "celsius" day_18_21_16 = Js.Finite 16 /\
  MainJs.maxTemp
    {| MainJs.temps := map temp day_18_21_16;
       MainJs.icons := map icon day_18_21_16;
       MainJs.date := 1765065600000 |} = Js.Finite 21 /\
  MainJs.minTemp
    {| MainJs.temps := map temp day_18_21_16;
       MainJs.icons := map icon day_18_21_16;
       MainJs.date := 1765065600000 |} = Js.Finite 16.
Proof. repeat split; reflexivity. Qed.

(** With Fahrenheit selected the rewritten script shows neither the
    rounded maximum nor the maximum in Fahrenheit rounded: for the single
    reading 18.4 it shows 64, the conversion of the rounded 18, where the
    reading itself converts to 65. *)
Lemma fahrenheit_summary_converts_rounded :
  FinalJs.maxTemp "fahrenheit" day_18_4 = Js.Finite 64 /\
  FinalJs.minTemp "fahrenheit" day_18_4 = Js.Finite 64 /\
  nearest_integer (184 # 10) 18 /\
  celsiusToFahrenheit (184 # 10) = 65.
Proof.
  repeat split; try reflexivity.
  - vm_compute. discriminate.
Qed.

(** * Sorting *)

Section Sorting.
Context {A : Type} (cmp : A -> A -> Z).

Lemma sort_insert_perm (x : A) (l : list A) :
  Permutation (Js.sort_insert cmp x l) (x :: l).
Proof.
  induction l as [|y l IH]; simpl; [reflexivity|].
  destruct (cmp x y <=? 0); [reflexivity|].
  rewrite IH. apply perm_swap.
Qed.

Lemma Array_sort_perm (l : list A) : Permutation (Js.Array_sort cmp l) l.
Proof.
  induction l as [|x l IH]; simpl; [reflexivity|].
  rewrite sort_insert_perm. now constructor.
Qed.

(** Elements of one class that never compare greater than each other
    keep their relative order. *)
Lemma sort_insert_filter (p : A -> bool) (x : A) (l : list A) :
  (forall a b, p a = true -> p b = true -> cmp a b <= 0) ->
  List.filter p (Js.sort_insert cmp x l) = List.filter p (x :: l).
Proof.
  intros Hp. induction l as [|y l IH]; [reflexivity|].
  cbn [Js.sort_insert]. destruct (cmp x y <=? 0) eqn:E; [reflexivity|].
  apply Z.leb_gt in E. cbn [List.filter] in *. rewrite IH.
  destruct (p x) eqn:Px, (p y) eqn:Py; try reflexivity.
  specialize (Hp x y Px Py). lia.
Qed.

Lemma Array_sort_stable (p : A -> bool) (l : list A) :
  (forall a b, p a = true -> p b = true -> cmp a b <= 0) ->
  List.filter p (Js.Array_sort cmp l) = List.filter p l.
Proof.
  intros Hp. induction l as [|x l IH]; [reflexivity|].
  cbn [Js.Array_sort fold_right].
  rewrite sort_insert_filter by exact Hp.
  cbn [List.filter]. fold (Js.Array_sort cmp l). now rewrite IH.
Qed.

Hypothesis cmp_total : forall a b, 0 < cmp a b -> cmp b a <= 0.
Hypothesis cmp_trans :
  forall a b c, cmp a b <= 0 -> cmp b c <= 0 -> cmp a c <= 0.

Lemma sort_insert_sorted (x : A) (l : list A) :
  StronglySorted (fun a b => cmp a b <= 0) l ->
  StronglySorted (fun a b => cmp a b <= 0) (Js.sort_insert cmp x l).
Proof.
  induction l as [|y l IH]; intros Hs; simpl.
  - repeat constructor.
  - apply StronglySorted_inv in Hs as [Hs Hy].
    destruct (cmp x y <=? 0) eqn:E.
    + apply Z.leb_le in E. constructor; [now constructor|].
      constructor; [exact E|].
      eapply List.Forall_impl; [|exact Hy]. intros z Hz. eauto.
    + apply Z.leb_gt in E. constructor; [auto|].
      eapply Permutation_Forall;
        [symmetry; apply sort_insert_perm|].
      constructor; [auto | exact Hy].
Qed.

Lemma Array_sort_sorted (l : list A) :
  StronglySorted (fun a b => cmp a b <= 0) (Js.Array_sort cmp l).
Proof.
  induction l as [|x l IH]; simpl; [constructor|].
  now apply sort_insert_sorted.
Qed.
End Sorting.

Lemma StronglySorted_weaken {A} (R R' : A -> A -> Prop) (l : list A) :
  (forall a b, R a b -> R' a b) ->
  StronglySorted R l -> StronglySorted R' l.
Proof.
  intros HR Hs. induction Hs as [|x l Hs IH Hx]; constructor; [exact IH|].
  eapply List.Forall_impl; [|exact Hx]. intros b. apply HR.
Qed.

(** A sorted list that is already in order is left as it is. *)
Lemma Array_sort_id {A} (cmp : A -> A -> Z) (l : list A) :
  StronglySorted (fun a b => cmp a b <= 0) l -> Js.Array_sort cmp l = l.
Proof.
  induction l as [|x l IH]; intros Hs; [reflexivity|].
  apply StronglySorted_inv in Hs as [Hs Hx].
  cbn [Js.Array_sort fold_right]. fold (Js.Array_sort cmp l).
  rewrite IH by exact Hs.
  destruct l as [|y l]; [reflexivity|].
  apply Forall_cons_iff in Hx as [Hxy _]. cbn [Js.sort_insert].
  apply Z.leb_le in Hxy. now rewrite Hxy.
Qed.

(** * Ranking of city suggestions *)

Lemma compareCities_rankedBefore (a b : FinalJs.cityMatch) :
  FinalJs.compareCities a b <= 0 <-> rankedBefore a b.
Proof.
  unfold FinalJs.compareCities, rankedBefore, priorityOf, populationOf.
  destruct (FinalJs.isPriority (FinalJs.c_country a)),
           (FinalJs.isPriority (FinalJs.c_country b)); simpl;
    split; intros H; try lia; intuition (try congruence; try lia).
Qed.

Lemma compareCities_total (a b : FinalJs.cityMatch) :
  0 < FinalJs.compareCities a b -> FinalJs.compareCities b a <= 0.
Proof.
  unfold FinalJs.compareCities.
  destruct (FinalJs.isPriority (FinalJs.c_country a)),
           (FinalJs.isPriority (FinalJs.c_country b)); simpl; lia.
Qed.

Lemma compareCities_trans (a b c : FinalJs.cityMatch) :
  FinalJs.compareCities a b <= 0 -> FinalJs.compareCities b c <= 0 ->
  FinalJs.compareCities a c <= 0.
Proof.
  unfold FinalJs.compareCities.
  destruct (FinalJs.isPriority (FinalJs.c_country a)),
           (FinalJs.isPriority (FinalJs.c_country b)),
           (FinalJs.isPriority (FinalJs.c_country c)); simpl; lia.
Qed.

Lemma sameRank_compare (x a b : FinalJs.cityMatch) :
  sameRank x a = true -> sameRank x b = true ->
  FinalJs.compareCities a b <= 0.
Proof.
  unfold sameRank, FinalJs.compareCities, priorityOf, populationOf.
  intros Ha Hb.
  apply andb_true_iff in Ha as [Pa Na], Hb as [Pb Nb].
  apply Bool.eqb_prop in Pa, Pb. apply Z.eqb_eq in Na, Nb.
  rewrite <- Pa, <- Pb.
  destruct (FinalJs.isPriority (FinalJs.c_country x)); simpl; lia.
Qed.

Lemma ranked_groups (l : list FinalJs.cityMatch) :
  StronglySorted rankedBefore l ->
  l = List.filter priorityOf l
      ++ List.filter (fun c => negb (priorityOf c)) l.
Proof.
  induction l as [|x l IH]; intros Hs; [reflexivity|].
  apply StronglySorted_inv in Hs as [Hs Hx]. cbn [List.filter].
  destruct (priorityOf x) eqn:Px; cbn [negb app].
  - f_equal. now apply IH.
  - assert (Hall : Forall (fun c => priorityOf c = false) l).
    { eapply List.Forall_impl; [|exact Hx]. intros c [[? ?]|[? _]]; congruence. }
    clear IH Hs Hx.
    assert (E1 : List.filter priorityOf l = []).
    { induction Hall as [|c l Hc _ IH]; [reflexivity|].
      cbn [List.filter]. now rewrite Hc. }
    assert (E2 : List.filter (fun c => negb (priorityOf c)) l = l).
    { induction Hall as [|c l Hc _ IH]; [reflexivity|].
      cbn [List.filter]. rewrite Hc. cbn [negb]. f_equal. apply IH.
      cbn [List.filter] in E1. now rewrite Hc in E1. }
    now rewrite E1, E2.
Qed.

(** C8, as the script ranks. The ranking is a rearrangement of the
    candidates with every priority-country entry before every other
    entry and, within each group, populations descending; entries of the
    same group and population keep their input order. A USA entry of
    25 000 inhabitants comes before a 2 000 000 entry of any country
    outside the priority list. *)
Theorem prioritizeCities_ranks (cities : list FinalJs.cityMatch) :
  let ranked := FinalJs.prioritizeCities cities in
  Permutation ranked cities /\
  StronglySorted rankedBefore ranked /\
  ranked = List.filter priorityOf ranked
           ++ List.filter (fun c => negb (priorityOf c)) ranked /\
  (forall x, List.filter (sameRank x) ranked
             = List.filter (sameRank x) cities) /\
  (forall country,
      FinalJs.isPriority country = false ->
      FinalJs.prioritizeCities [paris country 2000000; paris "USA" 25000]
      = [paris "USA" 25000; paris country 2000000]).
Proof.
  assert (Hs : StronglySorted rankedBefore (FinalJs.prioritizeCities cities)).
  { unfold FinalJs.prioritizeCities.
    eapply StronglySorted_weaken;
      [| apply Array_sort_sorted;
         [apply compareCities_total | apply compareCities_trans]].
    intros a b. apply compareCities_rankedBefore. }
  repeat split.
  - apply Array_sort_perm.
  - exact Hs.
  - now apply ranked_groups.
  - intros x. apply Array_sort_stable. apply sameRank_compare.
  - intros country Hc. unfold FinalJs.prioritizeCities.
    cbn [Js.Array_sort fold_right Js.sort_insert].
    unfold FinalJs.compareCities at 1. cbn [paris FinalJs.c_country].
    rewrite Hc. reflexivity.
Qed.

Lemma prioritizeCities_ranks_witness :
  FinalJs.prioritizeCities [paris "Japan" 2000000; paris "USA" 25000]
  = [paris "USA" 25000; paris "Japan" 2000000].
Proof.
  exact (proj2 (proj2 (proj2 (proj2
           (prioritizeCities_ranks
              [paris "Japan" 2000000; paris "USA" 25000]))))
           "Japan" eq_refl).
Defined.

(** France is itself on the priority list, so against a French entry
    the population decides. *)
Lemma paris_france_stays_first :
  In "USA" FinalJs.PRIORITY_COUNTRIES /\
  In "France" FinalJs.PRIORITY_COUNTRIES /\
  FinalJs.prioritizeCities [paris "France" 2000000; paris "USA" 25000]
  = [paris "France" 2000000; paris "USA" 25000].
Proof.
  split; [|split]; [vm_compute; tauto | vm_compute; tauto | reflexivity].
Qed.

(** * Order of first occurrence *)

Lemma firstSeen_In {K} `{EqDecision K} (ks : list K) (k : K) :
  k ∈ firstSeen ks <-> k ∈ ks.
Proof.
  rewrite !list_elem_of_In.
  induction ks as [|a ks IH]; [reflexivity|].
  cbn [firstSeen In]. rewrite filter_In, IH.
  rewrite negb_true_iff, bool_decide_eq_false.
  destruct (decide (k = a)) as [->|Hne]; [tauto|].
  split; [tauto|]. intros [E|Hin]; [congruence | tauto].
Qed.

Lemma firstSeen_NoDup {K} `{EqDecision K} (ks : list K) :
  List.NoDup (firstSeen ks).
Proof.
  induction ks as [|a ks IH]; [constructor|].
  cbn [firstSeen]. constructor.
  - rewrite filter_In, negb_true_iff, bool_decide_eq_false. tauto.
  - now apply List.NoDup_filter.
Qed.

Lemma firstSeen_snoc {K} `{EqDecision K} (ks : list K) (k : K) :
  firstSeen (ks ++ [k])
  = if decide (k ∈ ks) then firstSeen ks else firstSeen ks ++ [k].
Proof.
  induction ks as [|a ks IH].
  - cbn. destruct (decide (k ∈ [])) as [Hin|_]; [|reflexivity].
    now apply elem_of_nil in Hin.
  - cbn [app firstSeen]. rewrite IH.
    destruct (decide (k ∈ ks)) as [Hin|Hnin].
    + rewrite decide_True by now right. reflexivity.
    + rewrite List.filter_app. cbn [List.filter].
      destruct (decide (k = a)) as [->|Hne].
      * rewrite bool_decide_eq_true_2 by reflexivity. cbn [negb].
        rewrite app_nil_r. rewrite decide_True by now left. reflexivity.
      * rewrite bool_decide_eq_false_2 by exact Hne. cbn [negb].
        rewrite decide_False; [reflexivity|].
        intros Hin. apply elem_of_cons in Hin as [E|Hin];
          [congruence | contradiction].
Qed.

Lemma firstSeen_app {K} `{EqDecision K} (l1 l2 : list K) :
  firstSeen (l1 ++ l2)
  = firstSeen l1
    ++ List.filter (fun k => negb (bool_decide (k ∈ l1))) (firstSeen l2).
Proof.
  induction l1 as [|a l1 IH]; cbn [app firstSeen].
  - symmetry. rewrite <- (List.filter_ext (fun _ => true)).
    + induction (firstSeen l2) as [|b l IHl]; [reflexivity|].
      cbn [List.filter]. now rewrite IHl.
    + intros k. rewrite bool_decide_eq_false_2; [reflexivity|].
      apply not_elem_of_nil.
  - f_equal. rewrite IH, List.filter_app. f_equal. clear IH.
    generalize (firstSeen l2). intros l.
    induction l as [|b l IHl]; [reflexivity|].
    cbn [List.filter].
    destruct (decide (b ∈ l1)) as [Hin|Hnin].
    + rewrite (bool_decide_eq_true_2 (b ∈ l1)) by exact Hin.
      rewrite (bool_decide_eq_true_2 (b ∈ a :: l1)) by now right.
      cbn [negb]. exact IHl.
    + rewrite (bool_decide_eq_false_2 (b ∈ l1)) by exact Hnin.
      cbn [negb List.filter].
      destruct (decide (b = a)) as [->|Hne].
      * rewrite bool_decide_eq_true_2 by reflexivity.
        rewrite (bool_decide_eq_true_2 (a ∈ a :: l1)) by now left.
        cbn [negb]. exact IHl.
      * rewrite bool_decide_eq_false_2 by exact Hne.
        rewrite (bool_decide_eq_false_2 (b ∈ a :: l1)).
        -- cbn [negb]. now rewrite IHl.
        -- intros Hin. apply elem_of_cons in Hin as [E|Hin];
             [congruence | contradiction].
Qed.

Lemma firstSeen_map_inj {K L} `{EqDecision K} `{EqDecision L}
    (f : K -> L) (ks : list K) :
  (forall a b, f a = f b -> a = b) ->
  firstSeen (map f ks) = map f (firstSeen ks).
Proof.
  intros Hinj. induction ks as [|a ks IH]; [reflexivity|].
  cbn [map firstSeen]. f_equal. rewrite IH. clear IH.
  induction (firstSeen ks) as [|b l IHl]; [reflexivity|].
  cbn [map List.filter].
  destruct (decide (b = a)) as [->|Hne].
  - rewrite !bool_decide_eq_true_2 by reflexivity. exact IHl.
  - rewrite (bool_decide_eq_false_2 (b = a)) by exact Hne.
    rewrite (bool_decide_eq_false_2 (f b = f a))
      by (intros E; apply Hne, Hinj, E).
    cbn [negb map]. now rewrite IHl.
Qed.

(** * Dictionaries *)

Lemma get_set_eq {V} (k : string) (v : V) (o : Js.obj V) :
  Js.get k (Js.set k v o) = Some v.
Proof.
  induction o as [|[k' v'] o IH]; cbn [Js.set Js.get].
  - now rewrite String.eqb_refl.
  - destruct (String.eqb k k') eqn:E; cbn [Js.get]; rewrite ?E;
      [now rewrite String.eqb_refl | exact IH].
Qed.

Lemma get_set_ne {V} (k k' : string) (v : V) (o : Js.obj V) :
  k <> k' -> Js.get k' (Js.set k v o) = Js.get k' o.
Proof.
  intros Hne. induction o as [|[k0 v0] o IH]; cbn [Js.set Js.get].
  - apply not_eq_sym, String.eqb_neq in Hne. now rewrite Hne.
  - destruct (String.eqb k k0) eqn:E; cbn [Js.get].
    + apply String.eqb_eq in E. subst k0.
      apply not_eq_sym, String.eqb_neq in Hne. now rewrite Hne.
    + now rewrite IH.
Qed.

Lemma get_None_keys {V} (k : string) (o : Js.obj V) :
  Js.get k o = None <-> k ∉ map fst o.
Proof.
  rewrite list_elem_of_In.
  induction o as [|[k' v'] o IH]; cbn [Js.get map fst In]; [tauto|].
  destruct (String.eqb_spec k k') as [->|Hne].
  - split; [discriminate | tauto].
  - rewrite IH. split; [intros H [E|Hin]; [congruence | tauto] | tauto].
Qed.

Lemma keys_set {V} (k : string) (v : V) (o : Js.obj V) :
  map fst (Js.set k v o)
  = if decide (k ∈ map fst o) then map fst o else map fst o ++ [k].
Proof.
  induction o as [|[k' v'] o IH]; cbn [Js.set map fst app].
  - rewrite decide_False; [reflexivity | apply not_elem_of_nil].
  - destruct (String.eqb_spec k k') as [->|Hne]; cbn [map fst].
    + rewrite decide_True by now left. reflexivity.
    + rewrite IH.
      destruct (decide (k ∈ map fst o)) as [Hin|Hnin].
      * rewrite decide_True by now right. reflexivity.
      * rewrite decide_False; [reflexivity|].
        intros Hin. apply elem_of_cons in Hin as [E|Hin];
          [congruence | contradiction].
Qed.

Lemma set_set {V} (k : string) (v w : V) (o : Js.obj V) :
  Js.set k w (Js.set k v o) = Js.set k w o.
Proof.
  induction o as [|[k' v'] o IH]; cbn [Js.set].
  - now rewrite String.eqb_refl.
  - destruct (String.eqb k k') eqn:E; cbn [Js.set].
    + now rewrite String.eqb_refl.
    + now rewrite E, IH.
Qed.

(** An object none of whose keys is an array index is enumerated in
    creation order. *)
Lemma ownEntries_plain {V} (o : Js.obj V) :
  Forall (fun k => Js.isArrayIndex k = false) (map fst o) ->
  Js.ownEntries o = o.
Proof.
  intros Hplain. unfold Js.ownEntries.
  assert (E1 : omap Js.indexed o = []).
  { induction o as [|[k v] o IH]; [reflexivity|].
    cbn [map fst] in Hplain. apply Forall_cons_iff in Hplain as [Hk Ho].
    cbn [omap list_omap]. unfold Js.indexed at 1. cbn [fst].
    unfold Js.isArrayIndex in Hk.
    destruct (Js.arrayIndex k); [discriminate|]. cbn [option_map].
    now apply IH. }
  rewrite E1. cbn [Js.Array_sort fold_right map app].
  induction o as [|[k v] o IH]; [reflexivity|].
  cbn [map fst] in Hplain. apply Forall_cons_iff in Hplain as [Hk Ho].
  cbn [List.filter fst]. rewrite Hk. cbn [negb]. f_equal.
  apply IH; [exact Ho|].
  cbn [omap list_omap] in E1. unfold Js.indexed at 1 in E1. cbn [fst] in E1.
  unfold Js.isArrayIndex in Hk.
  destruct (Js.arrayIndex k); [discriminate | exact E1].
Qed.

(** In general the enumeration is a rearrangement of the properties. *)
Lemma ownEntries_perm {V} (o : Js.obj V) : Permutation (Js.ownEntries o) o.
Proof.
  unfold Js.ownEntries.
  assert (E : Permutation
                (map snd (Js.Array_sort (fun a b => fst a - fst b)
                            (omap Js.indexed o)))
                (List.filter (fun e => Js.isArrayIndex (fst e)) o)).
  { rewrite Array_sort_perm.
    induction o as [|[k v] o IH]; [reflexivity|].
    cbn [omap list_omap List.filter fst].
    unfold Js.indexed at 1, Js.isArrayIndex. cbn [fst].
    destruct (Js.arrayIndex k); cbn [option_map map snd];
      [now constructor | exact IH]. }
  rewrite E. clear E.
  induction o as [|e o IH]; [reflexivity|].
  cbn [List.filter]. destruct (Js.isArrayIndex (fst e)); cbn [negb app].
  - now constructor.
  - rewrite <- Permutation_middle. now constructor.
Qed.

(** * Numerals as keys *)

Lemma parseDecimal_toString (n : Z) :
  Js.parseDecimal (Js.Number_toString n) = Some n.
Proof.
  unfold Js.parseDecimal, Js.Number_toString.
  rewrite NilZero.isi.
  - cbn [option_map]. now rewrite DecimalZ.of_to.
  - destruct n; cbn; try discriminate.
    intros [= E]. now apply DecimalPos.Unsigned.to_uint_nonnil in E.
  - destruct n; cbn; try discriminate.
    intros [= E]. now apply DecimalPos.Unsigned.to_uint_nonnil in E.
Qed.

Lemma parseInt_toString (n : Z) : Js.parseInt (Js.Number_toString n) = n.
Proof. unfold Js.parseInt. now rewrite parseDecimal_toString. Qed.

Lemma Number_toString_inj (a b : Z) :
  Js.Number_toString a = Js.Number_toString b -> a = b.
Proof.
  intros E. apply (f_equal Js.parseInt) in E.
  now rewrite !parseInt_toString in E.
Qed.

(** A string with a slash in it is no numeral, hence no array index. *)
Lemma uint_of_string_slash (a b : string) :
  NilEmpty.uint_of_string (a +:+ String "/" b) = None.
Proof.
  induction a as [|c a IH]; simpl.
  - destruct (NilEmpty.uint_of_string b); reflexivity.
  - now rewrite IH.
Qed.

Lemma NilZero_uint_of_string_slash (a b : string) :
  NilZero.uint_of_string (a +:+ String "/" b) = None.
Proof.
  unfold NilZero.uint_of_string. rewrite uint_of_string_slash.
  destruct (a +:+ String "/" b); reflexivity.
Qed.

Lemma int_of_string_slash (a b : string) :
  NilZero.int_of_string (a +:+ String "/" b) = None.
Proof.
  destruct a as [|c a].
  - change (NilZero.int_of_string ("" +:+ String "/" b))
      with (option_map Decimal.Pos
              (NilZero.uint_of_string ("" +:+ String "/" b))).
    now rewrite NilZero_uint_of_string_slash.
  - change (NilZero.int_of_string (String c a +:+ String "/" b))
      with (if Ascii.eqb c "-"
            then option_map Decimal.Neg
                   (NilZero.uint_of_string (a +:+ String "/" b))
            else option_map Decimal.Pos
                   (NilZero.uint_of_string (String c a +:+ String "/" b))).
    rewrite !NilZero_uint_of_string_slash. now destruct (Ascii.eqb c "-").
Qed.

Lemma parseDecimal_slash (a b : string) :
  Js.parseDecimal (a +:+ String "/" b) = None.
Proof. unfold Js.parseDecimal. now rewrite int_of_string_slash. Qed.

Lemma toLocaleDateString_plain (tz t : Z) :
  Js.isArrayIndex (Js.toLocaleDateString tz t) = false.
Proof.
  unfold Js.isArrayIndex, Js.arrayIndex, Js.toLocaleDateString.
  destruct (Js.civil (Js.localDay tz t)) as [[y m] d].
  change ("/" +:+ Js.Number_toString d +:+ "/" +:+ Js.Number_toString y)
    with (String "/" (Js.Number_toString d +:+ "/" +:+ Js.Number_toString y)).
  now rewrite parseDecimal_slash.
Qed.

(** * Dictionaries filled by a loop *)

Section Tally.
Context {T V : Type} (key : T -> string) (upd : option V -> T -> V).

Lemma tally_get (l : list T) (k : string) :
  Js.get k (fold_left (tallyStep key upd) l []) = tallied key upd k l.
Proof.
  induction l as [|x l IH] using rev_ind; [reflexivity|].
  unfold tallied. rewrite !fold_left_app. cbn [fold_left].
  fold (tallied key upd k l). unfold tallyStep at 1.
  destruct (String.eqb_spec (key x) k) as [<-|Hne].
  - rewrite get_set_eq. now rewrite <- IH.
  - rewrite get_set_ne by exact Hne. exact IH.
Qed.

Lemma tally_keys (l : list T) :
  map fst (fold_left (tallyStep key upd) l []) = firstSeen (map key l).
Proof.
  induction l as [|x l IH] using rev_ind; [reflexivity|].
  rewrite fold_left_app. cbn [fold_left]. unfold tallyStep at 1.
  rewrite keys_set, IH, map_app. cbn [map]. rewrite firstSeen_snoc.
  destruct (decide (key x ∈ map key l)) as [Hin|Hnin].
  - rewrite decide_True by now apply firstSeen_In. reflexivity.
  - rewrite decide_False; [reflexivity|]. now rewrite firstSeen_In.
Qed.
End Tally.

(** A dictionary is its keys with the values looked up. *)
Lemma obj_by_keys {V} (o : Js.obj V) (f : string -> V) :
  List.NoDup (map fst o) ->
  (forall k, k ∈ map fst o -> Js.get k o = Some (f k)) ->
  o = map (fun k => (k, f k)) (map fst o).
Proof.
  induction o as [|[k v] o IH]; intros Hnd Hget; [reflexivity|].
  cbn [map fst] in *. apply List.NoDup_cons_iff in Hnd as [Hk Hnd].
  f_equal.
  - specialize (Hget k ltac:(now left)). cbn [Js.get] in Hget.
    rewrite String.eqb_refl in Hget. congruence.
  - apply IH; [exact Hnd|]. intros k' Hin.
    specialize (Hget k' ltac:(now right)). cbn [Js.get] in Hget.
    destruct (String.eqb_spec k' k) as [E|_]; [|exact Hget].
    exfalso. apply Hk. apply list_elem_of_In. now rewrite <- E.
Qed.

Lemma get_by_keys {V} (ks : list string) (f : string -> V) (k : string) :
  k ∈ ks -> Js.get k (map (fun k => (k, f k)) ks) = Some (f k).
Proof.
  induction ks as [|a ks IH]; intros Hin; [now apply elem_of_nil in Hin|].
  cbn [map Js.get]. destruct (String.eqb_spec k a) as [->|Hne];
    [reflexivity|].
  apply IH. apply elem_of_cons in Hin as [E|Hin]; [congruence | exact Hin].
Qed.

(** ** Grouping loops *)

Section Grouping.
Context {T : Type} (key : T -> string).

Lemma groupStep_tally (o : Js.obj (list T)) (x : T) :
  groupStep key o x = tallyStep key (fun b x => default [] b ++ [x]) o x.
Proof.
  unfold groupStep, tallyStep.
  destruct (Js.get (key x) o) as [b|] eqn:E.
  - now rewrite E.
  - rewrite get_set_eq. cbn [default]. apply set_set.
Qed.

Lemma tallied_group (l : list T) (k : string) :
  tallied key (fun b x => default [] b ++ [x]) k l
  = if decide (k ∈ map key l) then Some (filedUnder key k l) else None.
Proof.
  induction l as [|x l IH] using rev_ind.
  - cbn. rewrite decide_False; [reflexivity | apply not_elem_of_nil].
  - unfold tallied. rewrite fold_left_app. cbn [fold_left].
    fold (tallied key (fun b x => default [] b ++ [x]) k l).
    rewrite IH. unfold filedUnder. rewrite List.filter_app, map_app.
    cbn [List.filter map].
    destruct (String.eqb_spec (key x) k) as [E|Hne].
    + rewrite (decide_True (P := k ∈ map key l ++ [key x]))
        by (apply elem_of_app; right; rewrite E; now left).
      destruct (decide (k ∈ map key l)) as [Hin|Hnin]; [reflexivity|].
      cbn [default]. do 2 f_equal. clear IH.
      induction l as [|y l IHl]; [reflexivity|].
      cbn [List.filter map] in *.
      destruct (String.eqb_spec (key y) k) as [Ey|_].
      * exfalso. apply Hnin. rewrite Ey. now left.
      * apply IHl. intros Hin. apply Hnin. now right.
    + rewrite app_nil_r.
      destruct (decide (k ∈ map key l)) as [Hin|Hnin].
      * rewrite decide_True by (apply elem_of_app; now left). reflexivity.
      * rewrite decide_False; [reflexivity|].
        intros Hin. apply elem_of_app in Hin as [Hin|Hin];
          [contradiction|].
        apply list_elem_of_singleton in Hin. congruence.
Qed.

(** The dictionary a grouping loop leaves: one group per key, keys in
    order of first occurrence, each group in the order of the input. *)
Lemma grouped_entries (l : list T) :
  fold_left (groupStep key) l []
  = map (fun k => (k, filedUnder key k l)) (firstSeen (map key l)).
Proof.
  assert (E : fold_left (groupStep key) l []
              = fold_left (tallyStep key (fun b x => default [] b ++ [x]))
                  l []).
  { generalize (@nil (string * list T)).
    induction l as [|x l IH]; intros o; [reflexivity|].
    cbn [fold_left]. now rewrite groupStep_tally, IH. }
  rewrite E.
  rewrite <- (tally_keys key (fun b x => default [] b ++ [x]) l).
  apply obj_by_keys.
  - rewrite tally_keys. apply firstSeen_NoDup.
  - intros k Hin. rewrite tally_get, tallied_group.
    rewrite tally_keys, firstSeen_In in Hin.
    now rewrite decide_True by exact Hin.
Qed.
End Grouping.

(** * Day buckets *)

Lemma concat_map_app_perm {A B} (f g : A -> list B) (ks : list A) :
  Permutation (concat (map (fun k => f k ++ g k) ks))
              (concat (map f ks) ++ concat (map g ks)).
Proof.
  induction ks as [|k ks IH]; [reflexivity|].
  cbn [map concat]. rewrite IH, <- !app_assoc.
  apply Permutation_app_head.
  rewrite !app_assoc. apply Permutation_app_tail, Permutation_app_comm.
Qed.

Lemma concat_singleton_at {K} `{EqDecision K} {B} (k0 : K) (x : B)
    (ks : list K) :
  List.NoDup ks -> k0 ∈ ks ->
  concat (map (fun k => if bool_decide (k0 = k) then [x] else []) ks) = [x].
Proof.
  induction ks as [|k ks IH]; intros Hnd Hin;
    [now apply elem_of_nil in Hin|].
  apply List.NoDup_cons_iff in Hnd as [Hk Hnd]. cbn [map concat].
  destruct (decide (k0 = k)) as [->|Hne].
  - rewrite bool_decide_eq_true_2 by reflexivity. cbn [app]. f_equal.
    clear IH Hin Hnd. induction ks as [|k' ks IH]; [reflexivity|].
    cbn [map concat].
    rewrite bool_decide_eq_false_2
      by (intros ->; apply Hk; now left).
    apply IH. intros Hin. apply Hk. now right.
  - rewrite bool_decide_eq_false_2 by exact Hne. cbn [app].
    apply IH; [exact Hnd|].
    apply elem_of_cons in Hin as [E|Hin]; [congruence | exact Hin].
Qed.

Lemma ofDay_concat_perm {K} `{EqDecision K} (key : sample -> K)
    (ks : list K) (l : list sample) :
  List.NoDup ks -> (forall s, s ∈ l -> key s ∈ ks) ->
  Permutation (concat (map (fun k => ofDay key k l) ks)) l.
Proof.
  intros Hnd. induction l as [|x l IH]; intros Hcover.
  - cbn. induction ks as [|k ks IHk]; [reflexivity|].
    apply List.NoDup_cons_iff in Hnd as [_ Hnd]. cbn. now apply IHk.
  - assert (E : map (fun k => ofDay key k (x :: l)) ks
                = map (fun k => (if bool_decide (key x = k) then [x] else [])
                                ++ ofDay key k l) ks).
    { apply map_ext. intros k. unfold ofDay. cbn [List.filter].
      now destruct (bool_decide (key x = k)). }
    rewrite E, concat_map_app_perm.
    rewrite concat_singleton_at by (auto; apply Hcover; now left).
    cbn [app]. constructor. apply IH. intros s Hs. apply Hcover. now right.
Qed.

(** Grouping by a key function, the keys listed without repetition and
    covering the input, splits the input by day. *)
Lemma ofDay_splits {K} `{EqDecision K} (key : sample -> K)
    (ks : list K) (l : list sample) :
  List.NoDup ks -> (forall s, s ∈ l -> key s ∈ ks) ->
  splitsByDay key ks l (map (fun k => ofDay key k l) ks).
Proof.
  intros Hnd Hcover.
  pose proof (ofDay_concat_perm key ks l Hnd Hcover) as Hperm.
  split; [reflexivity|]. split; [|split; [exact Hperm|]].
  - intros s Hs.
    destruct (proj1 (list_elem_of_lookup ks (key s)) (Hcover s Hs))
      as [i Hi].
    exists i. split.
    + exists (ofDay key (key s) l). split.
      * change (map (fun k => ofDay key k l) ks)
          with ((fun k => ofDay key k l) <$> ks).
        now rewrite list_lookup_fmap, Hi.
      * apply list_elem_of_In, filter_In. split;
          [now apply list_elem_of_In|].
        now apply bool_decide_eq_true_2.
    + intros j b Hj Hb.
      change (map (fun k => ofDay key k l) ks)
        with ((fun k => ofDay key k l) <$> ks) in Hj.
      rewrite list_lookup_fmap in Hj.
      destruct (ks !! j) as [k|] eqn:Ek; [|discriminate].
      cbn in Hj. injection Hj as <-.
      apply list_elem_of_In, filter_In in Hb as [_ Hb].
      apply bool_decide_eq_true_1 in Hb. subst k.
      apply NoDup_ListNoDup in Hnd.
      exact (NoDup_lookup ks j i (key s) Hnd Ek Hi).
  - rewrite <- length_concat. now apply Permutation_length.
Qed.

Lemma firstSeen_covers {K} `{EqDecision K} (key : sample -> K)
    (l : list sample) (s : sample) :
  s ∈ l -> key s ∈ firstSeen (map key l).
Proof.
  intros Hs. apply firstSeen_In, list_elem_of_In, in_map.
  now apply list_elem_of_In.
Qed.

(** The rewritten script's helper. *)
Lemma groupForecastByDay_buckets (h : host) (l : list sample) :
  FinalJs.groupForecastByDay h {| fc_list := Some l |}
  = Ok (map (fun k => ofDay (localeDay h) k l)
          (firstSeen (map (localeDay h) l))).
Proof.
  unfold FinalJs.groupForecastByDay. cbn [fc_list]. f_equal.
  unfold Js.Object_values.
  change (FinalJs.dailyData h l)
    with (fold_left (groupStep (localeDay h)) l []).
  rewrite grouped_entries.
  rewrite ownEntries_plain.
  - rewrite map_map. cbn [snd]. apply map_ext. intros k.
    unfold filedUnder, ofDay. apply List.filter_ext. intros s.
    destruct (String.eqb_spec (localeDay h s) k) as [E|Hne].
    + now rewrite bool_decide_eq_true_2.
    + now rewrite bool_decide_eq_false_2.
  - rewrite map_map. cbn [fst]. rewrite map_id.
    apply Forall_forall. intros k Hk.
    apply firstSeen_In, list_elem_of_In, in_map_iff in Hk
      as [s [<- _]].
    apply toLocaleDateString_plain.
Qed.

(** [src/main.js]: the dictionary, its sorted keys and the buckets. *)
Lemma dailyForecasts_entries (h : host) (l : list sample) :
  MainJs.dailyForecasts h l
  = map (fun k => (Js.Number_toString k, ofDay (MainJs.dateKey h) k l))
      (firstSeen (map (MainJs.dateKey h) l)).
Proof.
  change (MainJs.dailyForecasts h l)
    with (fold_left
            (groupStep (fun f => Js.Number_toString (MainJs.dateKey h f)))
            l []).
  rewrite grouped_entries.
  rewrite <- (map_map (MainJs.dateKey h) Js.Number_toString).
  rewrite firstSeen_map_inj by apply Number_toString_inj.
  rewrite map_map. apply map_ext. intros k. f_equal.
  unfold filedUnder, ofDay. apply List.filter_ext. intros s.
  destruct (String.eqb_spec (Js.Number_toString (MainJs.dateKey h s))
              (Js.Number_toString k)) as [E|Hne].
  - apply Number_toString_inj in E. now rewrite bool_decide_eq_true_2.
  - rewrite bool_decide_eq_false_2; [reflexivity|]. intros E. apply Hne.
    now rewrite E.
Qed.

Lemma sortedDays_perm (h : host) (l : list sample) :
  Permutation (MainJs.sortedDays h l) (firstSeen (map (MainJs.dateKey h) l)).
Proof.
  unfold MainJs.sortedDays. rewrite Array_sort_perm.
  unfold Js.Object_keys. rewrite ownEntries_perm, dailyForecasts_entries.
  rewrite !map_map. cbn [fst].
  rewrite (map_ext _ (fun k => k)) by apply parseInt_toString.
  now rewrite map_id.
Qed.

Lemma sortedDays_ascending (h : host) (l : list sample) :
  StronglySorted Z.lt (MainJs.sortedDays h l).
Proof.
  assert (Hle : StronglySorted Z.le (MainJs.sortedDays h l)).
  { unfold MainJs.sortedDays.
    eapply StronglySorted_weaken; [|apply Array_sort_sorted].
    - intros a b H. cbv beta in H. lia.
    - intros a b. lia.
    - intros a b c. lia. }
  assert (Hnd : List.NoDup (MainJs.sortedDays h l)).
  { eapply Permutation_NoDup; [symmetry; apply sortedDays_perm|].
    apply firstSeen_NoDup. }
  induction Hle as [|k ks Hs IH Hk]; [constructor|].
  apply List.NoDup_cons_iff in Hnd as [Hnk Hnd].
  constructor; [now apply IH|].
  apply Forall_forall. intros k' Hin.
  rewrite Forall_forall in Hk. specialize (Hk k' Hin).
  assert (k <> k') by (intros ->; apply Hnk; now apply list_elem_of_In).
  lia.
Qed.

Lemma dailyForecasts_get (h : host) (l : list sample) (k : Z) :
  k ∈ firstSeen (map (MainJs.dateKey h) l) ->
  Js.get (Js.Number_toString k) (MainJs.dailyForecasts h l)
  = Some (ofDay (MainJs.dateKey h) k l).
Proof.
  rewrite dailyForecasts_entries.
  generalize (firstSeen (map (MainJs.dateKey h) l)). intros ks Hin.
  induction ks as [|a ks IH]; [now apply elem_of_nil in Hin|].
  cbn [map Js.get].
  destruct (String.eqb_spec (Js.Number_toString k) (Js.Number_toString a))
    as [E|Hne].
  - apply Number_toString_inj in E. now subst a.
  - apply IH. apply elem_of_cons in Hin as [E|Hin]; [|exact Hin].
    subst a. contradiction.
Qed.

Lemma dayBuckets_ofDay (h : host) (l : list sample) :
  MainJs.dayBuckets h l
  = map (fun k => ofDay (MainJs.dateKey h) k l) (MainJs.sortedDays h l).
Proof.
  unfold MainJs.dayBuckets.
  assert (Hin : forall k, k ∈ MainJs.sortedDays h l ->
                          k ∈ firstSeen (map (MainJs.dateKey h) l)).
  { intros k Hk. now rewrite <- (sortedDays_perm h l). }
  induction (MainJs.sortedDays h l) as [|k ks IH]; [reflexivity|].
  cbn [omap list_omap map].
  rewrite dailyForecasts_get by (apply Hin; now left).
  f_equal. apply IH. intros k' Hk'. apply Hin. now right.
Qed.

(** Ascending timestamps give ascending day keys. *)
Lemma dateKey_monotone (h : host) (a b : sample) :
  dt a <= dt b -> MainJs.dateKey h a <= MainJs.dateKey h b.
Proof.
  intros Hab. unfold MainJs.dateKey, Js.setHours0, Js.localDay, Js.msPerDay.
  assert (H : (dt a * 1000 + tz h) / 86400000
              <= (dt b * 1000 + tz h) / 86400000).
  { apply Z.div_le_mono; lia. }
  lia.
Qed.

Lemma StronglySorted_map {A B} (R : A -> A -> Prop) (R' : B -> B -> Prop)
    (f : A -> B) (l : list A) :
  (forall a b, R a b -> R' (f a) (f b)) ->
  StronglySorted R l -> StronglySorted R' (map f l).
Proof.
  intros Hf Hs. induction Hs as [|x l Hs IH Hx]; cbn [map]; constructor;
    [exact IH|].
  apply List.Forall_forall. intros y Hy.
  apply in_map_iff in Hy as [z [<- Hz]].
  rewrite List.Forall_forall in Hx. auto.
Qed.

Lemma firstSeen_sorted (ks : list Z) :
  StronglySorted Z.le ks -> StronglySorted Z.le (firstSeen ks).
Proof.
  intros Hs. induction Hs as [|k ks Hs IH Hk]; cbn [firstSeen]; constructor.
  - clear Hk. induction IH as [|a l Hl IHl Ha]; cbn [List.filter];
      [constructor|].
    destruct (negb (bool_decide (a = k))); [|exact IHl].
    constructor; [exact IHl|].
    apply List.Forall_forall. intros b Hb. apply filter_In in Hb as [Hb _].
    rewrite List.Forall_forall in Ha. auto.
  - apply List.Forall_forall. intros b Hb. apply filter_In in Hb as [Hb _].
    apply (proj2 (list_elem_of_In _ _)) in Hb.
    apply (proj1 (firstSeen_In _ _)) in Hb.
    apply (proj1 (list_elem_of_In _ _)) in Hb.
    rewrite List.Forall_forall in Hk. auto.
Qed.

Lemma sortedDays_first_seen (h : host) (l : list sample) :
  StronglySorted Z.le (map dt l) ->
  MainJs.sortedDays h l = firstSeen (map (MainJs.dateKey h) l).
Proof.
  intros Hasc.
  apply (StronglySorted_unique_strong Z.le).
  - intros a b _ _. lia.
  - eapply StronglySorted_weaken; [|apply sortedDays_ascending].
    intros a b. lia.
  - apply firstSeen_sorted.
    change (map (MainJs.dateKey h) l)
      with (map (fun s => Js.setHours0 (tz h) (dt s * 1000)) l).
    rewrite <- (map_map dt (fun t => Js.setHours0 (tz h) (t * 1000))).
    eapply StronglySorted_map; [|exact Hasc].
    intros a b Hab. cbv beta.
    apply (dateKey_monotone h {| dt := a; temp := 0; icon := "" |}
             {| dt := b; temp := 0; icon := "" |} Hab).
  - apply sortedDays_perm.
Qed.

(** C1, as the scripts bucket. Both scripts split every forecast list
    by local day: each sample lies in exactly one bucket, nothing is
    dropped or repeated, the bucket sizes add up to the input length and
    each bucket keeps the input order. The rewritten script lists the
    buckets in order of first occurrence of their day for every input;
    [src/main.js] lists them by ascending day, which is the order of first
    occurrence whenever the input is in ascending timestamp order. *)
Theorem day_buckets_partition (h : host) (l : list sample) :
  (exists buckets,
      FinalJs.groupForecastByDay h {| fc_list := Some l |} = Ok buckets /\
      splitsByDay (localeDay h) (firstSeen (map (localeDay h) l)) l buckets)
  /\
  splitsByDay (MainJs.dateKey h) (MainJs.sortedDays h l) l
    (MainJs.dayBuckets h l) /\
  StronglySorted Z.lt (MainJs.sortedDays h l) /\
  Permutation (MainJs.sortedDays h l)
    (firstSeen (map (MainJs.dateKey h) l)) /\
  (StronglySorted Z.le (map dt l) ->
   MainJs.sortedDays h l = firstSeen (map (MainJs.dateKey h) l)).
Proof.
  split; [|split; [|split; [|split]]].
  - eexists. split; [apply groupForecastByDay_buckets|].
    apply ofDay_splits; [apply firstSeen_NoDup|].
    intros s Hs. now apply firstSeen_covers.
  - rewrite dayBuckets_ofDay. apply ofDay_splits.
    + eapply Permutation_NoDup; [symmetry; apply sortedDays_perm|].
      apply firstSeen_NoDup.
    + intros s Hs. rewrite (sortedDays_perm h l).
      now apply firstSeen_covers.
  - apply sortedDays_ascending.
  - apply sortedDays_perm.
  - apply sortedDays_first_seen.
Qed.

Lemma day_buckets_partition_witness :
  StronglySorted Z.le (map dt [sample_at 0; sample_at 10800; sample_at 86400])
  /\
  MainJs.sortedDays utc [sample_at 0; sample_at 10800; sample_at 86400]
  = firstSeen
      (map (MainJs.dateKey utc)
         [sample_at 0; sample_at 10800; sample_at 86400]).
Proof.
  assert (Hasc : StronglySorted Z.le
                   (map dt [sample_at 0; sample_at 10800; sample_at 86400])).
  { cbn. repeat constructor; lia. }
  split; [exact Hasc|].
  exact (proj2 (proj2 (proj2 (proj2
           (day_buckets_partition utc
              [sample_at 0; sample_at 10800; sample_at 86400])))) Hasc).
Defined.

(** With the later day first in the input, [src/main.js] still lists
    the earlier day's bucket first. *)
Lemma main_buckets_sorted_not_first_seen :
  firstSeen (map (MainJs.dateKey utc) [sample_at 86400; sample_at 0])
  = [86400000; 0] /\
  MainJs.sortedDays utc [sample_at 86400; sample_at 0] = [0; 86400000] /\
  MainJs.dayBuckets utc [sample_at 86400; sample_at 0]
  = [[sample_at 0]; [sample_at 86400]].
Proof. repeat split; vm_compute; reflexivity. Qed.

(** * Hourly selection *)

Lemma sortedDays_length (h : host) (l : list sample) :
  length (MainJs.sortedDays h l) = length (MainJs.dayBuckets h l).
Proof. now rewrite dayBuckets_ofDay, length_map. Qed.

(** C2, as the scripts select. With no bucket at the day index, the
    rewritten script selects nothing and takes every hourly card off
    display, while [src/main.js] falls back to the first eight samples of
    the whole forecast list; neither throws. *)
Theorem hourly_selection_out_of_range
    (h : host) (l : list sample) (dayIndex : nat) (p : page)
    (currentUnit currentTimeFormat : string) (current24Hour : bool) :
  (forall buckets,
      FinalJs.groupForecastByDay h {| fc_list := Some l |} = Ok buckets ->
      (length buckets <= dayIndex)%nat ->
      FinalJs.selectedDayItems buckets dayIndex = None /\
      exists p',
        FinalJs.updateHourlyForecast h currentUnit currentTimeFormat
          {| fc_list := Some l |} dayIndex p = Ok p' /\
        hourlyCards p' = map hidden (hourlyCards p)) /\
  ((length (MainJs.dayBuckets h l) <= dayIndex)%nat ->
   MainJs.hourlyData h l dayIndex = firstn 8 l /\
   exists p',
     MainJs.updateHourlyForecast h current24Hour
       {| fc_list := Some l |} dayIndex p = Ok p').
Proof.
  split.
  - intros buckets Hb Hlen.
    assert (Hnone : FinalJs.selectedDayItems buckets dayIndex = None)
      by now apply lookup_ge_None_2.
    split; [exact Hnone|].
    unfold FinalJs.updateHourlyForecast. rewrite Hb.
    eexists. split; [reflexivity|].
    cbn [hourlyCards with_hourlyCards]. rewrite Hnone. cbn [mbind option_bind].
    change (map hidden (hourlyCards p)) with (hidden <$> hourlyCards p).
    rewrite <- imap_const. apply imap_ext. intros i card _. reflexivity.
  - intros Hlen. split.
    + unfold MainJs.hourlyData.
      rewrite lookup_ge_None_2 by now rewrite sortedDays_length.
      cbn [mbind option_bind]. unfold Js.slice0.
      rewrite firstn_firstn. reflexivity.
    + unfold MainJs.updateHourlyForecast. cbn [fc_list]. eexists. reflexivity.
Qed.

Lemma hourly_selection_out_of_range_witness :
  (FinalJs.selectedDayItems [[sample_at 0]] 3 = None /\
   exists p',
     FinalJs.updateHourlyForecast utc "celsius" "12"
       {| fc_list := Some [sample_at 0] |} 3 blankPage = Ok p' /\
     hourlyCards p' = map hidden (hourlyCards blankPage)) /\
  (MainJs.hourlyData utc [sample_at 0] 3 = firstn 8 [sample_at 0] /\
   exists p',
     MainJs.updateHourlyForecast utc false
       {| fc_list := Some [sample_at 0] |} 3 blankPage = Ok p').
Proof.
  split.
  - apply (proj1 (hourly_selection_out_of_range utc [sample_at 0] 3
                    blankPage "celsius" "12" false) [[sample_at 0]]).
    + reflexivity.
    + vm_compute. lia.
  - apply (proj2 (hourly_selection_out_of_range utc [sample_at 0] 3
                    blankPage "celsius" "12" false)).
    vm_compute. lia.
Defined.

(** Two days of forecast and day index 5: [src/main.js] shows the
    samples of both days in the hourly cards. *)
Lemma main_hourly_falls_back :
  length (MainJs.dayBuckets utc [sample_at 0; sample_at 86400]) = 2%nat /\
  MainJs.hourlyData utc [sample_at 0; sample_at 86400] 5
  = [sample_at 0; sample_at 86400] /\
  exists p',
    MainJs.updateHourlyForecast utc false
      {| fc_list := Some [sample_at 0; sample_at 86400] |} 5 blankPage
    = Ok p' /\
    map hourlyTemp (firstn 2 (hourlyCards p')) = ["18°"; "18°"].
Proof.
  split; [reflexivity|]. split; [reflexivity|].
  eexists. split; [reflexivity|]. vm_compute. reflexivity.
Qed.

(** * Representative condition code *)

Lemma occurrences_snoc (c x : string) (l : list string) :
  occurrences c (l ++ [x])
  = occurrences c l + (if String.eqb x c then 1 else 0).
Proof.
  unfold occurrences. rewrite List.filter_app, length_app.
  cbn [List.filter]. rewrite (String.eqb_sym c x).
  destruct (String.eqb x c); cbn [length]; lia.
Qed.

Lemma occurrences_nonneg (c : string) (l : list string) :
  0 <= occurrences c l.
Proof. unfold occurrences. lia. Qed.

Lemma occurrences_pos (c : string) (l : list string) :
  c ∈ l -> 0 < occurrences c l.
Proof.
  intros Hin. apply list_elem_of_In in Hin.
  assert (H : In c (List.filter (String.eqb c) l)).
  { apply filter_In. split; [exact Hin | apply String.eqb_refl]. }
  unfold occurrences. destruct (List.filter (String.eqb c) l);
    [destruct H | cbn [length]; lia].
Qed.

Lemma occurrences_absent (c : string) (l : list string) :
  c ∉ l -> occurrences c l = 0.
Proof.
  intros Hnin. unfold occurrences.
  assert (E : List.filter (String.eqb c) l = []); [|now rewrite E].
  induction l as [|x l IH]; [reflexivity|].
  cbn [List.filter]. destruct (String.eqb_spec c x) as [->|_].
  - exfalso. apply Hnin. now left.
  - apply IH. intros Hin. apply Hnin. now right.
Qed.

(** [n || 0] on a number. *)
Lemma or_zero (n : Z) : (if n =? 0 then 0 else n) = n.
Proof. now destruct (Z.eqb_spec n 0). Qed.

(** On codes that are no inherited names every turn of the first loop
    is an assignment of a count. *)
Lemma iconCounts_snoc (l : list string) (x : string) :
  Js.inherited x = false ->
  MainJs.iconCounts (l ++ [x])
  = Js.set x
      (MainJs.Count
         (match Js.get x (MainJs.iconCounts l) with
          | Some (MainJs.Count n) => n + 1
          | _ => 1
          end))
      (MainJs.iconCounts l)
    \/ Js.get x (MainJs.iconCounts l) = Some MainJs.Glued.
Proof.
  intros Hx. unfold MainJs.iconCounts. rewrite fold_left_app.
  cbn [fold_left]. fold (MainJs.iconCounts l).
  destruct (Js.get x (MainJs.iconCounts l)) as [[n|]|].
  - left. now rewrite or_zero.
  - now right.
  - left. now rewrite Hx.
Qed.

(** The tally of the first loop counts occurrences. *)
Lemma iconCounts_get (icons : list string) (c : string) :
  Forall (fun c => Js.inherited c = false) icons ->
  Js.get c (MainJs.iconCounts icons)
  = if decide (c ∈ icons) then Some (MainJs.Count (occurrences c icons))
    else None.
Proof.
  revert c. induction icons as [|x l IH] using rev_ind; intros c Hplain.
  - cbn. rewrite decide_False; [reflexivity | apply not_elem_of_nil].
  - apply Forall_app in Hplain as [Hl Hx].
    apply Forall_cons_iff in Hx as [Hx _].
    destruct (iconCounts_snoc l x Hx) as [E|E].
    2:{ rewrite (IH x Hl) in E. destruct (decide (x ∈ l)); discriminate. }
    rewrite E. rewrite (IH x Hl). rewrite occurrences_snoc.
    destruct (String.eqb_spec x c) as [->|Hne].
    + rewrite get_set_eq.
      rewrite (decide_True (P := c ∈ l ++ [c]))
        by (apply elem_of_app; right; now left).
      destruct (decide (c ∈ l)) as [Hin|Hnin]; [reflexivity|].
      now rewrite (occurrences_absent c l Hnin).
    + rewrite get_set_ne by exact Hne. rewrite (IH c Hl), Z.add_0_r.
      destruct (decide (c ∈ l)) as [Hin|Hnin].
      * rewrite decide_True by (apply elem_of_app; now left). reflexivity.
      * rewrite decide_False; [reflexivity|].
        intros Hin. apply elem_of_app in Hin as [Hin|Hin];
          [contradiction|].
        apply list_elem_of_singleton in Hin. congruence.
Qed.

Lemma iconCounts_keys (icons : list string) :
  Forall (fun c => Js.inherited c = false) icons ->
  map fst (MainJs.iconCounts icons) = firstSeen icons.
Proof.
  induction icons as [|x l IH] using rev_ind; intros Hplain;
    [reflexivity|].
  apply Forall_app in Hplain as [Hl Hx].
  apply Forall_cons_iff in Hx as [Hx _].
  destruct (iconCounts_snoc l x Hx) as [E|E].
  2:{ rewrite (iconCounts_get l x Hl) in E.
      destruct (decide (x ∈ l)); discriminate. }
  rewrite E, keys_set, (IH Hl), firstSeen_snoc.
  destruct (decide (x ∈ l)) as [Hin|Hnin].
  - rewrite decide_True by now apply firstSeen_In. reflexivity.
  - rewrite decide_False; [reflexivity|]. now rewrite firstSeen_In.
Qed.

(** On keys that hold counts the second loop is [pick]. *)
Lemma pick_counts (counts : Js.obj MainJs.tallyValue) (f : string -> Z)
    (keys : list string) (acc : option string * Z) :
  (forall k, k ∈ keys -> Js.get k counts = Some (MainJs.Count (f k))) ->
  fold_left
    (fun '(mostCommon, highestCount) icon =>
       match Js.get icon counts with
       | Some (MainJs.Count n) =>
           if highestCount <? n then (Some icon, n)
           else (mostCommon, highestCount)
       | _ => (mostCommon, highestCount)
       end)
    keys acc
  = fold_left (pick f) keys acc.
Proof.
  revert acc. induction keys as [|k keys IH]; intros acc Hk; [reflexivity|].
  cbn [fold_left]. rewrite IH by (intros k' Hk'; apply Hk; now right).
  f_equal. destruct acc as [mostCommon highestCount]. cbn [pick].
  now rewrite (Hk k) by now left.
Qed.

(** The second loop keeps the first key with the highest count. *)
Lemma pick_first_max (f : string -> Z) (keys : list string)
    (init : option string) :
  keys <> [] ->
  (forall k, k ∈ keys -> 0 < f k) ->
  exists c,
    fold_left (pick f) keys (init, 0) = (Some c, f c) /\
    c ∈ keys /\
    (forall k, k ∈ keys -> f k <= f c) /\
    (forall pre post, keys = pre ++ c :: post -> c ∉ pre ->
       forall k, k ∈ pre -> f k < f c).
Proof.
  induction keys as [|k keys IH] using rev_ind; [congruence|].
  intros _ Hpos. rewrite fold_left_app. cbn [fold_left].
  destruct keys as [|k0 keys0] eqn:Ek.
  - cbn [fold_left pick].
    assert (Hk : 0 < f k) by (apply Hpos; now left).
    apply Z.ltb_lt in Hk. rewrite Hk. exists k.
    split; [reflexivity|]. split; [now left|]. split.
    + intros k' Hk'. apply list_elem_of_singleton in Hk'. subst. lia.
    + intros pre post E Hn k' Hk'. destruct pre as [|a pre];
        [now apply elem_of_nil in Hk'|].
      injection E as _ E. now destruct pre.
  - rewrite <- Ek in *.
    destruct IH as [c [Hfold [Hc [Hmax Hfirst]]]].
    { rewrite Ek. discriminate. }
    { intros k' Hk'. apply Hpos. apply elem_of_app. now left. }
    rewrite Hfold. cbn [pick].
    destruct (f c <? f k) eqn:E.
    + apply Z.ltb_lt in E. exists k. split; [reflexivity|].
      split; [apply elem_of_app; right; now left|]. split.
      * intros k' Hk'. apply elem_of_app in Hk' as [Hk'|Hk'].
        -- specialize (Hmax k' Hk'). lia.
        -- apply list_elem_of_singleton in Hk'. subst. lia.
      * intros pre post Epre Hn k' Hk'.
        assert (Hin : k' ∈ keys ++ [k]).
        { rewrite Epre. apply elem_of_app. now left. }
        apply elem_of_app in Hin as [Hin|Hin].
        -- specialize (Hmax k' Hin). lia.
        -- apply list_elem_of_singleton in Hin. subst. contradiction.
    + apply Z.ltb_ge in E. exists c. split; [reflexivity|].
      split; [apply elem_of_app; now left|]. split.
      * intros k' Hk'. apply elem_of_app in Hk' as [Hk'|Hk'].
        -- now apply Hmax.
        -- apply list_elem_of_singleton in Hk'. now subst.
      * intros pre post Epre Hn.
        destruct post as [|z post] using rev_ind.
        -- apply app_inj_tail in Epre as [Epre Ec]. subst. contradiction.
        -- clear IHpost. rewrite app_comm_cons, app_assoc in Epre.
           apply app_inj_tail in Epre as [Epre _].
           now apply (Hfirst pre post).
Qed.

Lemma getMostCommonIcon_representative (icons : list string) :
  icons <> [] ->
  Forall (fun c => Js.isArrayIndex c = false) icons ->
  Forall (fun c => Js.inherited c = false) icons ->
  exists c, MainJs.getMostCommonIcon icons = Some c /\
            representative icons c.
Proof.
  intros Hne Hplain Hown. unfold MainJs.getMostCommonIcon.
  assert (Hkeys : Js.Object_keys (MainJs.iconCounts icons)
                  = firstSeen icons).
  { unfold Js.Object_keys. rewrite ownEntries_plain.
    - now apply iconCounts_keys.
    - rewrite iconCounts_keys by exact Hown.
      apply Forall_forall. intros c Hc.
      apply (proj1 (firstSeen_In _ _)) in Hc.
      rewrite Forall_forall in Hplain. auto. }
  rewrite Hkeys.
  rewrite (pick_counts _ (fun icon => occurrences icon icons)).
  2:{ intros k Hk. rewrite iconCounts_get by exact Hown.
      now rewrite decide_True by now apply firstSeen_In. }
  destruct (pick_first_max (fun icon => occurrences icon icons)
              (firstSeen icons) (head icons))
    as [c [Hfold [Hc [Hmax Hfirst]]]].
  { destruct icons; [congruence | discriminate]. }
  { intros k Hk. cbv beta. apply occurrences_pos. now apply firstSeen_In. }
  rewrite Hfold. cbn [fst]. exists c. split; [reflexivity|].
  cbv beta in Hmax, Hfirst.
  apply (proj1 (firstSeen_In _ _)) in Hc. split.
  - intros c'. destruct (decide (c' ∈ icons)) as [Hin|Hnin].
    + exact (Hmax c' ltac:(now apply firstSeen_In)).
    + rewrite (occurrences_absent c' icons Hnin).
      apply occurrences_nonneg.
  - destruct (list_elem_of_split_l icons c Hc) as [pre [post [E Hn]]].
    exists pre, post. split; [exact E|]. intros c' Hc'.
    specialize (Hfirst (firstSeen pre)
                  (List.filter (fun k => negb (bool_decide (k ∈ pre)))
                     (List.filter
                        (fun k' => negb (bool_decide (k' = c)))
                        (firstSeen post)))).
    apply Hfirst.
    + rewrite E at 1. rewrite firstSeen_app. f_equal.
      cbn [firstSeen List.filter].
      now rewrite (bool_decide_eq_false_2 (c ∈ pre)) by exact Hn.
    + now rewrite firstSeen_In.
    + now apply firstSeen_In.
Qed.

(** C3, as the scripts choose. For a day with at least one sample whose
    condition codes are neither integer-like property names nor names a
    plain object inherits from [Object.prototype], [getMostCommonIcon] of
    [src/main.js] returns the code with the highest number of occurrences,
    the first such code in bucket order on a tie; the rewritten script
    takes the code of the day's first sample. *)
Theorem representative_icon (icons : list string) (dayItems : list sample) :
  icons <> [] ->
  Forall (fun c => Js.isArrayIndex c = false) icons ->
  Forall (fun c => Js.inherited c = false) icons ->
  map icon dayItems = icons ->
  (exists c, MainJs.getMostCommonIcon icons = Some c /\
             representative icons c) /\
  FinalJs.iconCode dayItems = head icons.
Proof.
  intros Hne Hplain Hown Hitems. split.
  - now apply getMostCommonIcon_representative.
  - unfold FinalJs.iconCode. rewrite <- Hitems.
    now destruct dayItems.
Qed.

Lemma representative_icon_witness :
  (exists c, MainJs.getMostCommonIcon ["10d"; "10d"; "01d"] = Some c /\
             representative ["10d"; "10d"; "01d"] c) /\
  FinalJs.iconCode (items_with ["10d"; "10d"; "01d"])
  = head ["10d"; "10d"; "01d"].
Proof.
  apply (representative_icon ["10d"; "10d"; "01d"]
           (items_with ["10d"; "10d"; "01d"])).
  - discriminate.
  - repeat constructor.
  - repeat constructor.
  - reflexivity.
Defined.

(** The two worked examples. *)
Example getMostCommonIcon_majority :
  MainJs.getMostCommonIcon ["10d"; "10d"; "01d"] = Some "10d".
Proof. reflexivity. Qed.

Example getMostCommonIcon_tie :
  MainJs.getMostCommonIcon ["10d"; "01d"] = Some "10d".
Proof. reflexivity. Qed.

(** A clear day followed by two rainy readings: the rewritten script
    shows the clear-sky code although rain is the more frequent one. *)
Lemma final_icon_is_first_sample :
  FinalJs.iconCode (items_with ["01d"; "10d"; "10d"]) = Some "01d" /\
  occurrences "01d" ["01d"; "10d"; "10d"]
  < occurrences "10d" ["01d"; "10d"; "10d"] /\
  MainJs.getMostCommonIcon ["01d"; "10d"; "10d"] = Some "10d".
Proof. repeat split; reflexivity. Qed.

(** Integer-like keys are enumerated first, in ascending order, so on
    such codes the tie goes to the smaller number. *)
Example getMostCommonIcon_integer_keys :
  MainJs.getMostCommonIcon ["5"; "3"] = Some "3".
Proof. reflexivity. Qed.

(** A code that is a name inherited from [Object.prototype] is tallied
    as text and never wins against a counted code; alone, it is returned
    as the first code of the day. *)
Example getMostCommonIcon_inherited_names :
  MainJs.getMostCommonIcon ["toString"; "toString"; "01d"] = Some "01d" /\
  MainJs.getMostCommonIcon ["__proto__"; "__proto__"; "01d"] = Some "01d" /\
  MainJs.getMostCommonIcon ["toString"; "toString"] = Some "toString".
Proof. repeat split; reflexivity. Qed.

(** * Fetching *)

Lemma main_fetch_requests (h : host) (net : network) (cityName : string)
    (a : MainJs.app) :
  MainJs.requests (MainJs.fetchWeatherForCity h net cityName a)
  = MainJs.requests a ++ [weatherUrl cityName] \/
  MainJs.requests (MainJs.fetchWeatherForCity h net cityName a)
  = MainJs.requests a ++ [weatherUrl cityName; forecastUrl cityName].
Proof.
  run_fetch. cbn.
  destruct (GET_weather net (weatherUrl cityName)) as [|[[|] st1 [cd|]]];
    cbn; try (left; reflexivity).
  destruct (GET_forecast net (forecastUrl cityName)) as [|[[|] st2 [fd|]]];
    cbn; try (right; now rewrite <- app_assoc).
  unfold MainJs.updateHourlyForecast, MainJs.updateDailyForecast,
    MainJs.populateDayDropdown.
  destruct (fc_list fd); cbn; right; now rewrite <- app_assoc.
Qed.

Lemma final_fetch_requests (h : host) (net : network) (a : FinalJs.app) :
  FinalJs.requests (FinalJs.fetchWeather h net a)
  = FinalJs.requests a ++ [weatherUrl (FinalJs.city a)] \/
  FinalJs.requests (FinalJs.fetchWeather h net a)
  = FinalJs.requests a
    ++ [weatherUrl (FinalJs.city a); forecastUrl (FinalJs.city a)].
Proof.
  run_fetch. cbn.
  destruct (GET_weather net (weatherUrl (FinalJs.city a)))
    as [|[[|] st1 [cd|]]]; cbn; try (left; reflexivity).
  destruct (GET_forecast net (forecastUrl (FinalJs.city a)))
    as [|[ok2 st2 [fd|]]]; cbn; try (right; now rewrite <- app_assoc).
  unfold FinalJs.updateDailyForecast, FinalJs.updateHourlyForecast,
    FinalJs.groupForecastByDay.
  destruct (fc_list fd); cbn; right; now rewrite <- app_assoc.
Qed.

(** C9, as the scripts recover. When a fetch fails, the request ends in
    the error state and is not retried: the location line reads
    [Could not find weather for "X"] in [src/main.js] and
    [Could not find "X"] in the rewritten script, the five
    current-conditions fields hold their "--" placeholders, the forecast
    cards and the stored location are left as they were, and each
    endpoint has been requested at most once. The rewritten script does
    not look at the status of the forecast response: a non-success
    forecast response ends in the error state when its body carries no
    forecast list. *)
Theorem fetch_failure_shows_placeholders
    (h : host) (net : network) (cityName : string)
    (a : MainJs.app) (b : FinalJs.app) :
  (failed (GET_weather net (weatherUrl cityName)) \/
   failed (GET_forecast net (forecastUrl cityName)) ->
   let a' := MainJs.fetchWeatherForCity h net cityName a in
   locationName (MainJs.doc a')
   = "Could not find weather for " +:+ dquote +:+ cityName +:+ dquote /\
   showsPlaceholders (MainJs.doc a') /\
   dailyCards (MainJs.doc a') = dailyCards (MainJs.doc a) /\
   hourlyCards (MainJs.doc a') = hourlyCards (MainJs.doc a) /\
   MainJs.localStorage a' = MainJs.localStorage a /\
   (MainJs.requests a' = MainJs.requests a ++ [weatherUrl cityName] \/
    MainJs.requests a'
    = MainJs.requests a ++ [weatherUrl cityName; forecastUrl cityName]))
  /\
  (FinalJs.city b = cityName ->
   failed (GET_weather net (weatherUrl cityName)) \/
   GET_forecast net (forecastUrl cityName) = Rejected \/
   (exists r, GET_forecast net (forecastUrl cityName) = Resolved r /\
              ok r = false /\ json r ≫= fc_list = None) ->
   let b' := FinalJs.fetchWeather h net b in
   locationName (FinalJs.doc b')
   = "Could not find " +:+ dquote +:+ cityName +:+ dquote /\
   showsPlaceholders (FinalJs.doc b') /\
   dailyCards (FinalJs.doc b') = dailyCards (FinalJs.doc b) /\
   hourlyCards (FinalJs.doc b') = hourlyCards (FinalJs.doc b) /\
   loadingVisible (FinalJs.doc b') = false /\
   FinalJs.localStorage b' = FinalJs.localStorage b /\
   (FinalJs.requests b' = FinalJs.requests b ++ [weatherUrl cityName] \/
    FinalJs.requests b'
    = FinalJs.requests b ++ [weatherUrl cityName; forecastUrl cityName])).
Proof.
  split.
  - intros Hfail a'.
    split; [|split; [|split; [|split; [|split]]]];
      try apply main_fetch_requests; subst a'; run_fetch; cbn;
      destruct (GET_weather net (weatherUrl cityName))
        as [|[[|] st1 [cd|]]];
      cbn; try (unfold showsPlaceholders; cbn; tauto);
      destruct (GET_forecast net (forecastUrl cityName))
        as [|[[|] st2 [fd|]]];
      cbn in *; try (unfold showsPlaceholders; cbn; tauto);
      destruct Hfail; discriminate.
  - intros <- Hfail b'.
    pose proof (final_fetch_requests h net b) as Hreq.
    split; [|split; [|split; [|split; [|split; [|split]]]]];
      try exact Hreq; clear Hreq; subst b'; run_fetch; cbn;
      destruct (GET_weather net (weatherUrl (FinalJs.city b)))
        as [|[[|] st1 [cd|]]];
      cbn; try (unfold showsPlaceholders; cbn; tauto);
      destruct (GET_forecast net (forecastUrl (FinalJs.city b)))
        as [|[ok2 st2 [fd|]]];
      cbn in *; try (unfold showsPlaceholders; cbn; tauto);
      (destruct Hfail as [Hf|[Hf|[r [Hr [Hok Hlist]]]]];
       [discriminate | discriminate |]);
      injection Hr as <-; cbn in Hlist;
      unfold FinalJs.updateDailyForecast, FinalJs.groupForecastByDay;
      rewrite Hlist; cbn; unfold showsPlaceholders; cbn; tauto.
Qed.

Lemma fetch_failure_shows_placeholders_witness :
  locationName
    (MainJs.doc (MainJs.fetchWeatherForCity utc unreachable "Atlantis"
                   atlantis_main))
  = "Could not find weather for " +:+ dquote +:+ "Atlantis" +:+ dquote /\
  showsPlaceholders
    (MainJs.doc (MainJs.fetchWeatherForCity utc unreachable "Atlantis"
                   atlantis_main)).
Proof.
  pose proof (proj1 (fetch_failure_shows_placeholders utc unreachable
                       "Atlantis" atlantis_main atlantis_final)
                (or_introl I)) as H.
  exact (conj (proj1 H) (proj1 (proj2 H))).
Defined.

(** The rewritten script words the error line differently; and in
    [src/main.js] a failed search after a successful one leaves the
    temperatures of the forecast cards on display. *)
Lemma final_error_line_differs :
  locationName (FinalJs.doc (FinalJs.fetchWeather utc unreachable
                               atlantis_final))
  = "Could not find " +:+ dquote +:+ "Atlantis" +:+ dquote /\
  locationName (FinalJs.doc (FinalJs.fetchWeather utc unreachable
                               atlantis_final))
  <> "Could not find weather for " +:+ dquote +:+ "Atlantis" +:+ dquote /\
  let found := MainJs.fetchWeatherForCity utc only_cardiff "Cardiff"
                 atlantis_main in
  let lost := MainJs.fetchWeatherForCity utc only_cardiff "Atlantis" found in
  mainTemperature (MainJs.doc lost) = "--°" /\
  map dayTempMax (firstn 1 (dailyCards (MainJs.doc lost))) = ["21°"] /\
  map hourlyTemp (firstn 3 (hourlyCards (MainJs.doc lost)))
  = ["18°"; "21°"; "16°"].
Proof.
  split; [reflexivity|]. split; [vm_compute; discriminate|].
  vm_compute. repeat split; reflexivity.
Qed.

(** * Start-up *)

(** C10. With no last location in storage the scripts start on the
    default city "Cardiff" and at once request its weather; a stored
    (non-empty) location is used instead. *)
Theorem startup_location
    (h : host) (net : network) (p : page) (st : gmap string string) :
  (st !! "lastLocation" = None ->
   snd (MainJs.loadSettings (MainJs.start p st)) = "Cardiff" /\
   head (MainJs.requests (MainJs.initialize h net (MainJs.start p st)))
   = Some (weatherUrl "Cardiff")) /\
  (forall s, s <> "" -> st !! "lastLocation" = Some s ->
   snd (MainJs.loadSettings (MainJs.start p st)) = s /\
   head (MainJs.requests (MainJs.initialize h net (MainJs.start p st)))
   = Some (weatherUrl s)) /\
  (st !! "lastCity" = None ->
   FinalJs.city (FinalJs.start p st) = "Cardiff" /\
   head (FinalJs.requests (FinalJs.initialize h net (FinalJs.start p st)))
   = Some (weatherUrl "Cardiff")) /\
  (forall s, s <> "" -> st !! "lastCity" = Some s ->
   FinalJs.city (FinalJs.start p st) = s /\
   head (FinalJs.requests (FinalJs.initialize h net (FinalJs.start p st)))
   = Some (weatherUrl s)).
Proof.
  assert (Hmain : forall loc,
            snd (MainJs.loadSettings (MainJs.start p st)) = loc ->
            head (MainJs.requests
                    (MainJs.initialize h net (MainJs.start p st)))
            = Some (weatherUrl loc)).
  { intros loc Hloc. unfold MainJs.initialize.
    destruct (MainJs.loadSettings (MainJs.start p st)) as [a1 loc'] eqn:E.
    cbn [snd] in Hloc. subst loc'.
    assert (Hreq : MainJs.requests a1 = []).
    { unfold MainJs.loadSettings in E. injection E as <- _. reflexivity. }
    destruct (main_fetch_requests h net loc a1) as [-> | ->];
      now rewrite Hreq. }
  assert (Hfinal :
            head (FinalJs.requests
                    (FinalJs.initialize h net (FinalJs.start p st)))
            = Some (weatherUrl (FinalJs.city (FinalJs.start p st)))).
  { unfold FinalJs.initialize.
    destruct (final_fetch_requests h net
                (FinalJs.with_doc (FinalJs.start p st)
                   (FinalJs.initializeUI h (FinalJs.doc (FinalJs.start p st)))))
      as [-> | ->]; reflexivity. }
  assert (Hs : forall s, s <> "" -> orString (Some s) "Cardiff" = s).
  { intros s Hne. unfold orString.
    now apply String.eqb_neq in Hne as ->. }
  split; [|split; [|split]].
  - intros Hnone.
    assert (E : snd (MainJs.loadSettings (MainJs.start p st)) = "Cardiff").
    { unfold MainJs.loadSettings, MainJs.start. cbn. now rewrite Hnone. }
    split; [exact E | now apply Hmain].
  - intros s Hne Hsome.
    assert (E : snd (MainJs.loadSettings (MainJs.start p st)) = s).
    { unfold MainJs.loadSettings, MainJs.start. cbn. rewrite Hsome.
      now apply Hs. }
    split; [exact E | now apply Hmain].
  - intros Hnone.
    assert (E : FinalJs.city (FinalJs.start p st) = "Cardiff").
    { unfold FinalJs.start. cbn. now rewrite Hnone. }
    split; [exact E | now rewrite Hfinal, E].
  - intros s Hne Hsome.
    assert (E : FinalJs.city (FinalJs.start p st) = s).
    { unfold FinalJs.start. cbn. rewrite Hsome. now apply Hs. }
    split; [exact E | now rewrite Hfinal, E].
Qed.

Lemma startup_location_witness :
  (snd (MainJs.loadSettings (MainJs.start blankPage ∅)) = "Cardiff" /\
   head (MainJs.requests
           (MainJs.initialize utc unreachable (MainJs.start blankPage ∅)))
   = Some (weatherUrl "Cardiff")) /\
  (snd (MainJs.loadSettings
          (MainJs.start blankPage {[ "lastLocation" := "Oslo" ]}))
   = "Oslo" /\
   head (MainJs.requests
           (MainJs.initialize utc unreachable
              (MainJs.start blankPage {[ "lastLocation" := "Oslo" ]})))
   = Some (weatherUrl "Oslo")).
Proof.
  split.
  - apply (proj1 (startup_location utc unreachable blankPage ∅)).
    reflexivity.
  - apply (proj1 (proj2 (startup_location utc unreachable blankPage
                           {[ "lastLocation" := "Oslo" ]})) "Oslo").
    + discriminate.
    + reflexivity.
Defined.

(** An empty stored value counts as no location. *)
Example empty_location_is_absent :
  orString (Some "") "Cardiff" = "Cardiff".
Proof. reflexivity. Qed.

(** * Further properties: units *)

(** The Fahrenheit value of a whole Celsius degree [c], taken back
    through the inverse formula, lies within half a degree of [c]. *)
Lemma fahrenheit_back_near (c : Z) :
  nearest_integer
    (((inject_Z (celsiusToFahrenheit (inject_Z c)) - 32) * 5) / 9)%Q c.
Proof.
  pose proof (Math_round_nearest ((inject_Z c * 9) / 5 + 32)%Q) as [H1 H2].
  fold (celsiusToFahrenheit (inject_Z c)) in H1, H2.
  unfold nearest_integer.
  set (F := inject_Z (celsiusToFahrenheit (inject_Z c))) in *.
  set (C := inject_Z c) in *.
  assert (E1 : ((C * 9) / 5 + 32 == C * (9 # 5) + 32)%Q) by field.
  assert (E2 : (((F - 32) * 5) / 9 == (F - 32) * (5 # 9))%Q) by field.
  rewrite E1 in H1, H2. rewrite E2. split; lra.
Qed.

Lemma celsiusToFahrenheit_undone (c : Z) :
  fahrenheitToCelsius (inject_Z (celsiusToFahrenheit (inject_Z c))) = c.
Proof.
  eapply nearest_integer_unique;
    [apply Math_round_nearest | apply fahrenheit_back_near].
Qed.

(** X1. Celsius to Fahrenheit and back is the identity on whole
    degrees, as the code computes it in binary64: for every whole degree
    [c] between -10 000 and 10 000, [celsiusToFahrenheit] gives an integer
    [f] and [fahrenheitToCelsius] gives [c] back from it. *)
Theorem celsius_round_trip (c : Z) :
  -10000 <= c <= 10000 ->
  exists f : Z,
    Binary64.celsiusToFahrenheit (Js.Number_of_Z c) = Some f /\
    Binary64.fahrenheitToCelsius (Js.Number_of_Z f) = Some c.
Proof.
  intros Hc. exists (celsiusToFahrenheit (inject_Z c)).
  split; [apply binary64_agrees; lia|].
  assert (Hf : -20000 <= celsiusToFahrenheit (inject_Z c) <= 20000).
  { pose proof (Math_round_nearest ((inject_Z c * 9) / 5 + 32)%Q) as [H1 H2].
    fold (celsiusToFahrenheit (inject_Z c)) in H1, H2.
    set (F := celsiusToFahrenheit (inject_Z c)) in *.
    assert (E1 : ((inject_Z c * 9) / 5 + 32 == inject_Z c * (9 # 5) + 32)%Q)
      by field.
    rewrite E1 in H1, H2.
    assert (Hlo : (inject_Z (-10000) <= inject_Z c)%Q)
      by (rewrite <- Zle_Qle; lia).
    assert (Hhi : (inject_Z c <= inject_Z 10000)%Q)
      by (rewrite <- Zle_Qle; lia).
    change (inject_Z (-10000)) with (-10000)%Q in Hlo.
    change (inject_Z 10000) with 10000%Q in Hhi.
    assert (G1 : (inject_Z (-20000) < inject_Z F)%Q)
      by (change (inject_Z (-20000)) with (-20000)%Q; lra).
    assert (G2 : (inject_Z F < inject_Z 20000)%Q)
      by (change (inject_Z 20000) with 20000%Q; lra).
    rewrite <- Zlt_Qlt in G1, G2. lia. }
  rewrite (proj2 (binary64_agrees _ Hf)).
  now rewrite celsiusToFahrenheit_undone.
Qed.

Lemma celsius_round_trip_witness :
  exists f : Z,
    Binary64.celsiusToFahrenheit (Js.Number_of_Z 20) = Some f /\
    Binary64.fahrenheitToCelsius (Js.Number_of_Z f) = Some 20.
Proof. apply (celsius_round_trip 20). lia. Defined.


(** ** Numerals on the page *)

#[local] Arguments Js.isDigit : simpl never.
#[local] Arguments Js.isSpace : simpl never.

Lemma string_of_uint_digits (d : Decimal.uint) :
  allDigits (NilEmpty.string_of_uint d) = true.
Proof. induction d; cbn; auto. Qed.

Lemma string_of_uint_nonempty (d : Decimal.uint) :
  d <> Decimal.Nil -> NilEmpty.string_of_uint d <> "".
Proof. destruct d; cbn; congruence. Qed.

(** A printed integer is a non-empty run of digits, after a minus sign
    when negative. *)
Lemma Number_toString_shape (n : Z) :
  exists c ds,
    Js.isDigit c = true /\ allDigits ds = true /\
    Js.Number_toString n
    = if n <? 0 then String "-" (String c ds) else String c ds.
Proof.
  unfold Js.Number_toString. destruct n as [|p|p]; cbn [Z.to_int Z.ltb Z.compare].
  - exists "0"%char, "". repeat split.
  - cbn [NilZero.string_of_int]. unfold NilZero.string_of_uint.
    pose proof (DecimalPos.Unsigned.to_uint_nonnil p) as Hn.
    pose proof (string_of_uint_digits (Pos.to_uint p)) as Hd.
    pose proof (string_of_uint_nonempty _ Hn) as He.
    destruct (Pos.to_uint p) eqn:E; [congruence| ..];
      (destruct (NilEmpty.string_of_uint _) as [|c ds] eqn:Es;
       [congruence|];
       cbn [allDigits] in Hd; apply andb_true_iff in Hd as [Hc Hds];
       exists c, ds; repeat split; assumption).
  - cbn [NilZero.string_of_int]. unfold NilZero.string_of_uint.
    pose proof (DecimalPos.Unsigned.to_uint_nonnil p) as Hn.
    pose proof (string_of_uint_digits (Pos.to_uint p)) as Hd.
    pose proof (string_of_uint_nonempty _ Hn) as He.
    destruct (Pos.to_uint p) eqn:E; [congruence| ..];
      (destruct (NilEmpty.string_of_uint _) as [|c ds] eqn:Es;
       [congruence|];
       cbn [allDigits] in Hd; apply andb_true_iff in Hd as [Hc Hds];
       exists c, ds; repeat split; assumption).
Qed.

Lemma takeDigits_app (ds rest : string) :
  allDigits ds = true -> Js.startsWithDigit rest = false ->
  Js.takeDigits (ds +:+ rest) = ds.
Proof.
  intros Hd Hr. induction ds as [|c ds IH]; simpl.
  - destruct rest as [|r rest]; [reflexivity|].
    simpl in Hr. simpl. now rewrite Hr.
  - cbn [allDigits] in Hd. apply andb_true_iff in Hd as [Hc Hds].
    rewrite Hc. now rewrite IH.
Qed.


Lemma match_integer_printed (n : Z) (rest : string) :
  Js.startsWithDigit rest = false ->
  Js.match_integer (Js.Number_toString n +:+ rest)
  = Some (Js.Number_toString n).
Proof.
  intros Hr. destruct (Number_toString_shape n) as [c [ds [Hc [Hds E]]]].
  rewrite E. destruct (n <? 0); simpl.
  - rewrite !Hc. now rewrite takeDigits_app.
  - rewrite Hc. now rewrite takeDigits_app.
Qed.


Lemma match_integer_None (s : string) :
  Js.match_integer s = None <-> hasDigit s = false.
Proof.
  induction s as [|c s IH]; [tauto|].
  cbn [Js.match_integer hasDigit].
  destruct (Js.isDigit c) eqn:Hc; cbn [orb]; [split; discriminate|].
  destruct (Ascii.eqb c "-" && Js.startsWithDigit s) eqn:Hm; [|exact IH].
  split; [discriminate|]. intros Hs. exfalso.
  apply andb_true_iff in Hm as [_ Hm].
  destruct s as [|d s]; [discriminate|].
  simpl in Hm, Hs. rewrite Hm in Hs. discriminate.
Qed.

Lemma match_digits_None (s : string) :
  Js.match_digits s = None <-> hasDigit s = false.
Proof.
  induction s as [|c s IH]; [tauto|].
  cbn [Js.match_digits hasDigit].
  destruct (Js.isDigit c) eqn:Hc; cbn [orb]; [split; discriminate|exact IH].
Qed.

(** X2. [extractTemperature] reads a written temperature back: a safe
    integer (below 2^53 in magnitude) printed and followed by anything
    that does not start with a digit gives that integer; and the result is
    [null] exactly on the texts without a digit. *)
Theorem extractTemperature_reads_back :
  (forall n rest,
      Js.isSafeInteger n ->
      Js.startsWithDigit rest = false ->
      extractTemperature (Js.Number_toString n +:+ rest) = Some n) /\
  (forall text, extractTemperature text = None <-> hasDigit text = false).
Proof.
  split.
  - intros n rest _ Hr. unfold extractTemperature.
    rewrite match_integer_printed by exact Hr.
    cbn [option_map]. now rewrite parseInt_toString.
  - intros text. unfold extractTemperature.
    rewrite <- match_integer_None.
    destruct (Js.match_integer text); cbn [option_map];
      split; congruence.
Qed.

Lemma extractTemperature_reads_back_witness :
  extractTemperature (Js.Number_toString (-5) +:+ "°F") = Some (-5).
Proof.
  refine (proj1 extractTemperature_reads_back (-5) "°F" _ eq_refl).
  unfold Js.isSafeInteger. vm_compute. split; discriminate.
Defined.

(** ** Switching the temperature unit *)

















(** ** Switching the wind unit *)


Lemma extractWindSpeed_None (text : string) :
  hasDigit text = false -> extractWindSpeed text = None.
Proof.
  intros H. unfold extractWindSpeed.
  now rewrite (proj2 (match_digits_None text) H).
Qed.





Lemma windSpeed_with_windSpeed (p : page) (w : string) :
  windSpeed (with_windSpeed p w) = w.
Proof. reflexivity. Qed.











(** ** Switching the time format *)


(** X7. In the rewritten script [convertAllTimes] turns a time written
    by [formatTime] in one format into the time [formatTime] writes in
    the other, for every timestamp of a valid Date and every time
    zone. *)
Theorem convertTime_matches_formatTime (h : host) (timestamp : Z) :
  Js.validTime (timestamp * 1000) ->
  FinalJs.convertTime "24" (FinalJs.formatTime h "12" timestamp)
  = FinalJs.formatTime h "24" timestamp /\
  FinalJs.convertTime "12" (FinalJs.formatTime h "24" timestamp)
  = FinalJs.formatTime h "12" timestamp.
Proof.
  intros _. unfold FinalJs.formatTime.
  pose proof (getHours_range (tz h) (timestamp * 1000)) as Hr.
  generalize dependent (Js.getHours (tz h) (timestamp * 1000)).
  intros hr Hr. cbn [String.eqb Ascii.eqb Bool.eqb].
  each_hour hr.
Qed.

Lemma convertTime_matches_formatTime_witness :
  FinalJs.convertTime "24" (FinalJs.formatTime utc "12" 54000)
  = FinalJs.formatTime utc "24" 54000 /\
  FinalJs.convertTime "12" (FinalJs.formatTime utc "24" 54000)
  = FinalJs.formatTime utc "12" 54000.
Proof.
  apply (convertTime_matches_formatTime utc 54000).
  unfold Js.validTime. lia.
Defined.




(** * Further properties: settings in storage *)

Lemma orString_Some (s d : string) : s <> "" -> orString (Some s) d = s.
Proof.
  intros H. unfold orString.
  destruct (String.eqb_spec s ""); [contradiction | reflexivity].
Qed.

(** X9. In [main.js] the settings written by [saveSettings] are the
    settings [loadSettings] restores at the next load, whatever the time
    format and for any unit names that are not empty; the stored location
    is not touched by saving. *)
Theorem settings_round_trip (a : MainJs.app) (p : page) :
  MainJs.currentUnit a <> "" ->
  MainJs.currentWindUnit a <> "" ->
  let st := MainJs.localStorage (MainJs.saveSettings a) in
  let loaded := MainJs.loadSettings (MainJs.start p st) in
  MainJs.currentUnit loaded.1 = MainJs.currentUnit a /\
  MainJs.currentWindUnit loaded.1 = MainJs.currentWindUnit a /\
  MainJs.current24Hour loaded.1 = MainJs.current24Hour a /\
  st !! "lastLocation" = MainJs.localStorage a !! "lastLocation" /\
  loaded.2 = orString (MainJs.localStorage a !! "lastLocation") "Cardiff".
Proof.
  intros Hu Hw st loaded. subst loaded st.
  unfold MainJs.loadSettings, MainJs.start, MainJs.saveSettings.
  cbn [MainJs.localStorage MainJs.with_localStorage MainJs.with_settings
       MainJs.currentUnit MainJs.currentWindUnit MainJs.current24Hour
       fst snd].
  repeat (rewrite lookup_insert_eq
          || rewrite lookup_insert_ne by discriminate).
  rewrite !orString_Some by assumption.
  repeat split. now destruct (MainJs.current24Hour a).
Qed.

Lemma settings_round_trip_witness :
  MainJs.currentUnit
    (MainJs.loadSettings
       (MainJs.start blankPage
          (MainJs.localStorage
             (MainJs.saveSettings
                (MainJs.selectUnit "fahrenheit" cardiff_main))))).1
  = "fahrenheit".
Proof.
  apply (settings_round_trip (MainJs.selectUnit "fahrenheit" cardiff_main)
           blankPage); discriminate.
Defined.

(** X10. In the rewritten script a click on a unit or format option
    leaves that option in use; when it differs from the one in use and
    is not empty, it is also the one the script starts with at the next
    load. *)
Theorem selection_is_persisted (a : FinalJs.app) (p : page) (v : string) :
  v <> "" ->
  (FinalJs.currentUnit (FinalJs.selectUnit v a) = v /\
   (v <> FinalJs.currentUnit a ->
    FinalJs.currentUnit
      (FinalJs.start p (FinalJs.localStorage (FinalJs.selectUnit v a)))
    = v)) /\
  (FinalJs.currentSpeedUnit (FinalJs.selectWindUnit v a) = v /\
   (v <> FinalJs.currentSpeedUnit a ->
    FinalJs.currentSpeedUnit
      (FinalJs.start p (FinalJs.localStorage (FinalJs.selectWindUnit v a)))
    = v)) /\
  (FinalJs.currentTimeFormat (FinalJs.selectTimeFormat v a) = v /\
   (v <> FinalJs.currentTimeFormat a ->
    FinalJs.currentTimeFormat
      (FinalJs.start p
         (FinalJs.localStorage (FinalJs.selectTimeFormat v a)))
    = v)).
Proof.
  intros Hv.
  unfold FinalJs.selectUnit, FinalJs.selectWindUnit,
    FinalJs.selectTimeFormat, FinalJs.start.
  repeat split.
  - destruct (String.eqb_spec v (FinalJs.currentUnit a)); [now symmetry|].
    reflexivity.
  - intros Hne.
    destruct (String.eqb_spec v (FinalJs.currentUnit a)); [contradiction|].
    cbn. rewrite lookup_insert_eq. now apply orString_Some.
  - destruct (String.eqb_spec v (FinalJs.currentSpeedUnit a));
      [now symmetry|]. reflexivity.
  - intros Hne.
    destruct (String.eqb_spec v (FinalJs.currentSpeedUnit a));
      [contradiction|].
    cbn. rewrite lookup_insert_eq. now apply orString_Some.
  - destruct (String.eqb_spec v (FinalJs.currentTimeFormat a));
      [now symmetry|]. reflexivity.
  - intros Hne.
    destruct (String.eqb_spec v (FinalJs.currentTimeFormat a));
      [contradiction|].
    cbn. rewrite lookup_insert_eq. now apply orString_Some.
Qed.

Lemma selection_is_persisted_witness :
  FinalJs.currentUnit
    (FinalJs.start blankPage
       (FinalJs.localStorage (FinalJs.selectUnit "fahrenheit" cardiff_final)))
  = "fahrenheit".
Proof.
  apply (proj1 (selection_is_persisted cardiff_final blankPage "fahrenheit"
                  ltac:(discriminate)));
    discriminate.
Defined.

(** * Further properties: a fetch that succeeds *)

(** What [main.js] leaves behind after a fetch that succeeds: the page
    rendered by the four update functions in turn, the forecast kept for
    the day menu, the city in storage and two requests. *)
Lemma main_fetch_success (h : host) (net : network) (cityName : string)
    (a : MainJs.app) (cd : currentData) (fd : forecastData)
    (l : list sample) :
  delivers (GET_weather net (weatherUrl cityName)) cd ->
  delivers (GET_forecast net (forecastUrl cityName)) fd ->
  fc_list fd = Some l ->
  let a' := MainJs.fetchWeatherForCity h net cityName a in
  exists p1 p2 p3,
    MainJs.updateHourlyForecast h (MainJs.current24Hour a) fd 0
      (MainJs.updateCurrentWeather h (MainJs.currentWindUnit a) cd
         (MainJs.doc a)) = Ok p1 /\
    MainJs.updateDailyForecast h fd p1 = Ok p2 /\
    MainJs.populateDayDropdown h fd p2 = Ok p3 /\
    MainJs.doc a' = p3 /\
    MainJs.localStorage a'
    = <["lastLocation" := cityName]> (MainJs.localStorage a) /\
    MainJs.globalForecastData a' = Some fd /\
    MainJs.currentUnit a' = MainJs.currentUnit a /\
    MainJs.currentWindUnit a' = MainJs.currentWindUnit a /\
    MainJs.current24Hour a' = MainJs.current24Hour a /\
    MainJs.requests a'
    = MainJs.requests a ++ [weatherUrl cityName; forecastUrl cityName].
Proof.
  intros Hw Hf Hl a'. subst a'. run_fetch. cbn.
  destruct (GET_weather net (weatherUrl cityName)) as [|[ok1 st1 j1]];
    [contradiction|]. cbn in Hw. destruct Hw as [-> ->].
  cbn.
  destruct (GET_forecast net (forecastUrl cityName)) as [|[ok2 st2 j2]];
    [contradiction|]. cbn in Hf. destruct Hf as [-> ->].
  cbn.
  unfold MainJs.updateHourlyForecast, MainJs.updateDailyForecast,
    MainJs.populateDayDropdown.
  rewrite Hl. cbn.
  do 3 eexists. repeat (split; [reflexivity|]).
  now rewrite <- app_assoc.
Qed.

Lemma final_fetch_success (h : host) (net : network) (a : FinalJs.app)
    (cd : currentData) (fd : forecastData) (l : list sample) :
  delivers (GET_weather net (weatherUrl (FinalJs.city a))) cd ->
  carries (GET_forecast net (forecastUrl (FinalJs.city a))) fd ->
  fc_list fd = Some l ->
  let a' := FinalJs.fetchWeather h net a in
  exists p1 p2,
    FinalJs.updateDailyForecast h (FinalJs.currentUnit a) fd
      (FinalJs.updateCurrentWeather h (FinalJs.currentUnit a)
         (FinalJs.currentSpeedUnit a) cd
         (FinalJs.setLoading true (FinalJs.doc a))) = Ok p1 /\
    FinalJs.updateHourlyForecast h (FinalJs.currentUnit a)
      (FinalJs.currentTimeFormat a) fd 0 p1 = Ok p2 /\
    FinalJs.doc a'
    = FinalJs.setLoading false
        (with_dayMenu p2 (dayOptions p2) "Today") /\
    FinalJs.localStorage a'
    = <["lastCity" := FinalJs.city a]> (FinalJs.localStorage a) /\
    FinalJs.globalForecastData a' = Some fd /\
    FinalJs.city a' = FinalJs.city a /\
    FinalJs.currentUnit a' = FinalJs.currentUnit a /\
    FinalJs.currentSpeedUnit a' = FinalJs.currentSpeedUnit a /\
    FinalJs.currentTimeFormat a' = FinalJs.currentTimeFormat a /\
    FinalJs.requests a'
    = FinalJs.requests a
      ++ [weatherUrl (FinalJs.city a); forecastUrl (FinalJs.city a)].
Proof.
  intros Hw Hf Hl a'. subst a'. run_fetch. cbn.
  destruct (GET_weather net (weatherUrl (FinalJs.city a)))
    as [|[ok1 st1 j1]]; [contradiction|].
  cbn in Hw. destruct Hw as [-> ->]. cbn.
  destruct (GET_forecast net (forecastUrl (FinalJs.city a)))
    as [|[ok2 st2 j2]]; [contradiction|].
  cbn in Hf. subst j2. cbn.
  unfold FinalJs.updateDailyForecast, FinalJs.updateHourlyForecast,
    FinalJs.groupForecastByDay.
  rewrite Hl. cbn.
  do 2 eexists. repeat (split; [reflexivity|]).
  now rewrite <- app_assoc.
Qed.

(** X11. A fetch that succeeds shows the location the service names,
    keeps the forecast for the day menu, asks each endpoint once and
    stores the city searched for, which is then the city the script
    starts with at the next load. The rewritten script does so whatever
    the status of the forecast response. *)
Theorem fetched_city_is_remembered (h : host) (net : network)
    (cityName : string) (cd : currentData) (fd : forecastData)
    (l : list sample) (p : page) :
  cityName <> "" ->
  delivers (GET_weather net (weatherUrl cityName)) cd ->
  fc_list fd = Some l ->
  (forall a : MainJs.app,
      delivers (GET_forecast net (forecastUrl cityName)) fd ->
      let a' := MainJs.fetchWeatherForCity h net cityName a in
      locationName (MainJs.doc a') = cd_name cd +:+ ", " +:+ cd_country cd /\
      MainJs.globalForecastData a' = Some fd /\
      MainJs.requests a'
      = MainJs.requests a ++ [weatherUrl cityName; forecastUrl cityName] /\
      (MainJs.loadSettings (MainJs.start p (MainJs.localStorage a'))).2
      = cityName) /\
  (forall b : FinalJs.app,
      FinalJs.city b = cityName ->
      carries (GET_forecast net (forecastUrl cityName)) fd ->
      let b' := FinalJs.fetchWeather h net b in
      locationName (FinalJs.doc b') = cd_name cd +:+ ", " +:+ cd_country cd /\
      FinalJs.globalForecastData b' = Some fd /\
      FinalJs.requests b'
      = FinalJs.requests b ++ [weatherUrl cityName; forecastUrl cityName] /\
      FinalJs.city (FinalJs.start p (FinalJs.localStorage b')) = cityName).
Proof.
  intros Hc Hw Hl. split.
  - intros a Hf a'.
    destruct (main_fetch_success h net cityName a cd fd l Hw Hf Hl)
      as (p1 & p2 & p3 & H1 & H2 & H3 & Hd & Hs & Hg & _ & _ & _ & Hr).
    fold a' in Hd, Hs, Hg, Hr.
    unfold MainJs.updateHourlyForecast in H1.
    unfold MainJs.updateDailyForecast in H2.
    unfold MainJs.populateDayDropdown in H3.
    rewrite Hl in H1, H2, H3.
    injection H1 as <-. injection H2 as <-. injection H3 as <-.
    repeat split; [now rewrite Hd | exact Hg | exact Hr |].
    unfold MainJs.loadSettings, MainJs.start. cbn [snd MainJs.localStorage].
    rewrite Hs, lookup_insert_eq. now apply orString_Some.
  - intros b <- Hf b'.
    destruct (final_fetch_success h net b cd fd l Hw Hf Hl)
      as (p1 & p2 & H1 & H2 & Hd & Hs & Hg & _ & _ & _ & _ & Hr).
    fold b' in Hd, Hs, Hg, Hr.
    unfold FinalJs.updateDailyForecast, FinalJs.groupForecastByDay in H1.
    unfold FinalJs.updateHourlyForecast, FinalJs.groupForecastByDay in H2.
    rewrite Hl in H1, H2.
    injection H1 as <-. injection H2 as <-.
    repeat split; [now rewrite Hd | exact Hg | exact Hr |].
    unfold FinalJs.start. cbn [FinalJs.city].
    rewrite Hs, lookup_insert_eq. now apply orString_Some.
Qed.

Lemma fetched_city_is_remembered_witness :
  (MainJs.loadSettings
     (MainJs.start blankPage
        (MainJs.localStorage
           (MainJs.fetchWeatherForCity utc only_cardiff "Cardiff"
              atlantis_main)))).2 = "Cardiff".
Proof.
  apply (proj1 (fetched_city_is_remembered utc only_cardiff "Cardiff"
                  cardiff_weather {| fc_list := Some day_18_21_16 |}
                  day_18_21_16 blankPage
                  ltac:(discriminate) ltac:(split; reflexivity) eq_refl)
           atlantis_main).
  split; reflexivity.
Defined.

(** * Further properties: the hourly view *)

(** The loops of [main.js] that fill cards by index: the card at [j] is
    filled from the [j]-th item when there is one, and is left as it was
    otherwise. *)
Lemma fill_by_index {A B} (f : B -> A -> A) (xs : list B) (cards : list A) :
  fold_left
    (fun cards '(index, x) =>
       match cards !! index with
       | Some card => <[index := f x card]> cards
       | None => cards
       end)
    (imap pair xs) cards
  = imap (fun j card => match xs !! j with
                        | Some x => f x card
                        | None => card
                        end) cards.
Proof.
  induction xs as [|x xs IH] using rev_ind.
  - cbn [imap fold_left]. apply list_eq. intros j.
    rewrite list_lookup_imap. now destruct (cards !! j).
  - rewrite imap_app, fold_left_app, IH. cbn [imap fold_left].
    rewrite Nat.add_0_r. set (n := length xs).
    rewrite list_lookup_imap.
    destruct (cards !! n) as [c|] eqn:Hc; cbn [fmap option_fmap option_map].
    + rewrite (lookup_ge_None_2 xs n) by (subst n; lia).
      apply list_eq. intros j. rewrite list_lookup_insert.
      rewrite !list_lookup_imap, length_imap.
      destruct (decide (n = j ∧ (n < length cards)%nat)) as [[<- _]|Hn].
      * rewrite Hc. cbn. now rewrite lookup_app_r, Nat.sub_diag by (subst n; lia).
      * destruct (cards !! j) as [c'|] eqn:Hj; [|reflexivity]. cbn.
        f_equal.
        assert (j <> n).
        { intros ->. apply Hn. split; [reflexivity|].
          now apply lookup_lt_Some in Hc. }
        destruct (decide (j < n)%nat).
        -- now rewrite lookup_app_l by (subst n; lia).
        -- rewrite !lookup_ge_None_2; [reflexivity| |];
             rewrite ?length_app; cbn; subst n; lia.
    + apply imap_ext. intros j c' Hj.
      assert (j < n)%nat.
      { apply lookup_lt_Some in Hj. apply lookup_ge_None_1 in Hc. lia. }
      now rewrite lookup_app_l by (subst n; lia).
Qed.

Lemma ofDay_nonempty {K} `{EqDecision K} (key : sample -> K) (k : K)
    (l : list sample) :
  k ∈ firstSeen (map key l) -> ofDay key k l <> [].
Proof.
  intros Hk. apply (proj1 (firstSeen_In _ _)) in Hk.
  apply list_elem_of_In in Hk.
  apply in_map_iff in Hk as [s [<- Hs]].
  unfold ofDay. intros E.
  assert (Hin : In s (List.filter (fun s0 => bool_decide (key s0 = key s)) l)).
  { apply filter_In. split; [exact Hs|]. now apply bool_decide_eq_true. }
  rewrite E in Hin. exact Hin.
Qed.

Lemma sortedDays_elem (h : host) (l : list sample) (i : nat) (k : Z) :
  MainJs.sortedDays h l !! i = Some k ->
  k ∈ firstSeen (map (MainJs.dateKey h) l).
Proof.
  intros Hi. rewrite <- (sortedDays_perm h l).
  now apply list_elem_of_lookup_2 in Hi.
Qed.

(** X12. In [main.js], for a day index within the days of the
    forecast, the hourly view takes the first eight samples of that day,
    in the order of the forecast list: at least one and at most eight
    samples, all of the selected day. *)
Theorem main_hourly_in_range (h : host) (l : list sample) (dayIndex : nat)
    (k : Z) :
  MainJs.sortedDays h l !! dayIndex = Some k ->
  MainJs.hourlyData h l dayIndex = firstn 8 (ofDay (MainJs.dateKey h) k l) /\
  MainJs.hourlyData h l dayIndex <> [] /\
  (length (MainJs.hourlyData h l dayIndex) <= 8)%nat /\
  Forall (fun s => MainJs.dateKey h s = k /\ In s l)
    (MainJs.hourlyData h l dayIndex).
Proof.
  intros Hi. pose proof (sortedDays_elem h l dayIndex k Hi) as Hk.
  assert (E : MainJs.hourlyData h l dayIndex
              = firstn 8 (ofDay (MainJs.dateKey h) k l)).
  { unfold MainJs.hourlyData. rewrite Hi. cbn [mbind option_bind].
    now rewrite dailyForecasts_get. }
  rewrite E. split; [reflexivity|]. split; [|split].
  - pose proof (ofDay_nonempty _ _ _ Hk) as Hne.
    destruct (ofDay (MainJs.dateKey h) k l); [congruence | discriminate].
  - apply firstn_le_length.
  - apply List.Forall_forall. intros s Hs.
    assert (Hs' : In s (ofDay (MainJs.dateKey h) k l)).
    { rewrite <- (firstn_skipn 8). apply in_or_app. now left. }
    clear Hs. rename Hs' into Hs. unfold ofDay in Hs.
    apply filter_In in Hs as [Hin Hs].
    apply bool_decide_eq_true in Hs. now split.
Qed.

Lemma main_hourly_in_range_witness :
  MainJs.hourlyData utc day_18_21_16 0
  = firstn 8 (ofDay (MainJs.dateKey utc) 1765065600000 day_18_21_16).
Proof.
  apply (main_hourly_in_range utc day_18_21_16 0 1765065600000).
  reflexivity.
Defined.

(** X13. The hourly view of [main.js] rewrites the card at each place
    for which a sample was selected and leaves every other card exactly as
    it was, display included: cards beyond the selected samples keep
    what they showed before, and no card is added or removed. *)
Theorem main_hourly_cards (h : host) (b : bool) (l : list sample)
    (dayIndex : nat) (p : page) :
  exists p',
    MainJs.updateHourlyForecast h b {| fc_list := Some l |} dayIndex p
    = Ok p' /\
    hourlyCards p'
    = imap (fun j card =>
              match MainJs.hourlyData h l dayIndex !! j with
              | Some forecast =>
                  {| hourlyTime := MainJs.formatTime h b (dt forecast * 1000);
                     hourlyTemp :=
                       degrees
                         (Js.Number_toString (Js.Math_round (temp forecast)));
                     hourlyIcon := Js.get (icon forecast) weatherIconMap;
                     hourlyDisplay := hourlyDisplay card |}
              | None => card
              end)
        (hourlyCards p) /\
    length (hourlyCards p') = length (hourlyCards p).
Proof.
  unfold MainJs.updateHourlyForecast. cbn [fc_list].
  eexists. split; [reflexivity|].
  cbn [hourlyCards with_hourlyCards].
  rewrite (fill_by_index (MainJs.fillHourlyCard h b)).
  split; [reflexivity | apply length_imap].
Qed.

(** X14. The hourly view of the rewritten script, for the [dayIndex]-th
    day in first-seen order: the card at [j] is put on display and filled
    from the [j]-th sample of that day when there is one, and is taken off
    display with its content left as it was otherwise. Every card of the
    page is treated so; the samples are not limited to eight. *)
Theorem final_hourly_cards (h : host) (u t : string) (l : list sample)
    (dayIndex : nat) (p : page) :
  exists p',
    FinalJs.updateHourlyForecast h u t {| fc_list := Some l |} dayIndex p
    = Ok p' /\
    hourlyCards p'
    = imap (fun j card =>
              match firstSeen (map (localeDay h) l) !! dayIndex
                    ≫= (fun k => ofDay (localeDay h) k l !! j) with
              | Some f =>
                  {| hourlyTime := FinalJs.formatTime h t (dt f);
                     hourlyTemp :=
                       degrees
                         (Js.Number_toString
                            (if String.eqb u "fahrenheit"
                             then celsiusToFahrenheit
                                    (inject_Z (Js.Math_round (temp f)))
                             else Js.Math_round (temp f)));
                     hourlyIcon := Js.get (icon f) weatherIconMap;
                     hourlyDisplay := "flex" |}
              | None => hidden card
              end)
        (hourlyCards p).
Proof.
  unfold FinalJs.updateHourlyForecast.
  rewrite groupForecastByDay_buckets.
  eexists. split; [reflexivity|].
  cbn [hourlyCards with_hourlyCards].
  apply imap_ext. intros j card _.
  unfold FinalJs.selectedDayItems.
  change (map (fun k => ofDay (localeDay h) k l)
            (firstSeen (map (localeDay h) l)))
    with ((fun k => ofDay (localeDay h) k l)
            <$> firstSeen (map (localeDay h) l)).
  rewrite list_lookup_fmap.
  destruct (firstSeen (map (localeDay h) l) !! dayIndex) as [k|];
    cbn [fmap option_fmap option_map mbind option_bind]; [|reflexivity].
  destruct (ofDay (localeDay h) k l !! j) as [f|]; reflexivity.
Qed.

(** * Further properties: the unit handler and the rendering *)







(** * Further properties: the temperatures on the page *)










(** ** Invariants of the statements *)

Lemma keeps_ret {S A} (I : S -> Prop) (x : A) : keeps I (ret x).
Proof. intros s H. exact H. Qed.

Lemma keeps_throw {S A} (I : S -> Prop) (e : exn) :
  keeps I (throw e : M S A).
Proof. intros s H. exact H. Qed.

Lemma keeps_get_state {S} (I : S -> Prop) : keeps I get_state.
Proof. intros s H. exact H. Qed.

Lemma keeps_modify {S} (I : S -> Prop) (f : S -> S) :
  (forall s, I s -> I (f s)) -> keeps I (modify f).
Proof. intros Hf s H. now apply Hf. Qed.

Lemma keeps_bind {S A B} (I : S -> Prop) (c : M S A) (k : A -> M S B) :
  keeps I c -> (forall x, keeps I (k x)) -> keeps I (bind c k).
Proof.
  intros Hc Hk s H. unfold bind. specialize (Hc s H).
  destruct (c s) as [s' [x|e]]; cbn [fst] in *; [now apply Hk | exact Hc].
Qed.

Lemma keeps_settle {S A} (I : S -> Prop) (checked : bool)
    (onStatus : Z -> exn) (f : fetched A) :
  keeps I (settle checked onStatus f : M S A).
Proof.
  intros s H. unfold settle.
  destruct f as [|r]; [exact H|].
  destruct (checked && negb (ok r)); [exact H|].
  destruct (json r); exact H.
Qed.

Lemma keeps_try_catch {S} (I : S -> Prop) (body : M S unit)
    (handler : exn -> S -> S) :
  keeps I body -> (forall e s, I s -> I (handler e s)) ->
  forall s, I s -> I (try_catch body handler s).
Proof.
  intros Hb Hh s H. unfold try_catch. specialize (Hb s H).
  destruct (body s) as [s' [x|e]]; cbn [fst] in *; [exact Hb | now apply Hh].
Qed.

Lemma main_keeps_fetch {A} (I : MainJs.app -> Prop) (url : string)
    (served : string -> fetched A) :
  (forall a, I a -> I (MainJs.with_request a url)) ->
  keeps I (MainJs.fetch url served).
Proof.
  intros Hr. unfold MainJs.fetch.
  apply keeps_bind; [now apply keeps_modify | intros _; apply keeps_ret].
Qed.















(** * Further properties: the days of [main.js] *)

Lemma get_mapValues {V W} (g : string -> V -> W) (k : string)
    (o : Js.obj V) :
  Js.get k (mapValues g o) = g k <$> Js.get k o.
Proof.
  induction o as [|[k' v] o IH]; [reflexivity|].
  cbn [mapValues map Js.get fst snd].
  destruct (String.eqb_spec k k') as [->|_]; [reflexivity | exact IH].
Qed.

Lemma set_mapValues {V W} (g : string -> V -> W) (k : string) (v : V)
    (o : Js.obj V) :
  Js.set k (g k v) (mapValues g o) = mapValues g (Js.set k v o).
Proof.
  induction o as [|[k' v'] o IH]; [reflexivity|].
  cbn [mapValues map Js.set fst snd].
  destruct (String.eqb_spec k k') as [->|_]; [reflexivity|].
  cbn [map fst snd]. f_equal. exact IH.
Qed.

Lemma set_same {V} (k : string) (v : V) (o : Js.obj V) :
  Js.get k o = Some v -> Js.set k v o = o.
Proof.
  induction o as [|[k' v'] o IH]; [discriminate|].
  cbn [Js.get Js.set].
  destruct (String.eqb_spec k k') as [->|_].
  - intros E. injection E as ->. reflexivity.
  - intros E. f_equal. now apply IH.
Qed.

Lemma dailyData_mapValues (h : host) (l : list sample) :
  MainJs.dailyData h l
  = mapValues (fun k b => {| MainJs.temps := map temp b;
                             MainJs.icons := map icon b;
                             MainJs.date := Js.parseInt k |})
      (MainJs.dailyForecasts h l).
Proof.
  unfold MainJs.dailyData, MainJs.dailyForecasts.
  set (g := fun k b => {| MainJs.temps := map temp b;
                          MainJs.icons := map icon b;
                          MainJs.date := Js.parseInt k |}).
  change (@nil (string * MainJs.dayData)) with (mapValues g []).
  generalize (@nil (string * list sample)).
  induction l as [|x l IH]; intros o; [reflexivity|].
  cbn [fold_left]. rewrite <- IH. f_equal. clear IH.
  set (k := Js.Number_toString (MainJs.dateKey h x)).
  rewrite get_mapValues.
  destruct (Js.get k o) as [b|] eqn:E; cbn [fmap option_fmap option_map].
  - rewrite get_mapValues, E. cbn [fmap option_fmap option_map default].
    rewrite <- (set_mapValues g k _ o). unfold g.
    cbn [MainJs.temps MainJs.icons MainJs.date].
    now rewrite !map_app.
  - replace {| MainJs.temps := []; MainJs.icons := [];
               MainJs.date := MainJs.dateKey h x |} with (g k [])
      by (unfold g, k; now rewrite parseInt_toString).
    rewrite set_mapValues, get_mapValues, !get_set_eq.
    cbn [fmap option_fmap option_map default].
    rewrite <- (set_mapValues g k _ (Js.set k [] o)). reflexivity.
Qed.

Lemma dailyData_entries (h : host) (l : list sample) :
  MainJs.dailyData h l
  = map (fun k => (Js.Number_toString k, dayDataOf h k l))
      (firstSeen (map (MainJs.dateKey h) l)).
Proof.
  rewrite dailyData_mapValues, dailyForecasts_entries.
  unfold mapValues. rewrite map_map. apply map_ext. intros k.
  cbn [fst snd]. unfold dayDataOf. now rewrite parseInt_toString.
Qed.

Lemma dropdownDays_mapValues (h : host) (l : list sample) :
  MainJs.dropdownDays h l
  = mapValues (fun k _ => Js.parseInt k) (MainJs.dailyForecasts h l).
Proof.
  unfold MainJs.dropdownDays, MainJs.dailyForecasts.
  change (@nil (string * Z))
    with (mapValues (fun k (_ : list sample) => Js.parseInt k) []).
  generalize (@nil (string * list sample)).
  induction l as [|x l IH]; intros o; [reflexivity|].
  cbn [fold_left]. rewrite <- IH. f_equal. clear IH.
  set (k := Js.Number_toString (MainJs.dateKey h x)).
  rewrite get_mapValues.
  destruct (Js.get k o) as [b|] eqn:E; cbn [fmap option_fmap option_map].
  - rewrite E. cbn [default].
    rewrite <- (set_mapValues (fun k _ => Js.parseInt k) k _ o).
    symmetry. apply set_same. now rewrite get_mapValues, E.
  - rewrite get_set_eq. cbn [default app]. rewrite set_set.
    rewrite <- (set_mapValues (fun k _ => Js.parseInt k) k _ o).
    unfold k. now rewrite parseInt_toString.
Qed.

Lemma dropdownDays_entries (h : host) (l : list sample) :
  MainJs.dropdownDays h l
  = map (fun k => (Js.Number_toString k, k))
      (firstSeen (map (MainJs.dateKey h) l)).
Proof.
  rewrite dropdownDays_mapValues, dailyForecasts_entries.
  unfold mapValues. rewrite map_map. apply map_ext. intros k.
  cbn [fst snd]. now rewrite parseInt_toString.
Qed.

(** A list sorted without ties is the only sorted arrangement of its
    elements. *)
Lemma sorted_perm_eq {A} (f : A -> Z) (l1 l2 : list A) :
  StronglySorted (fun a b => f a < f b) l1 ->
  StronglySorted (fun a b => f a - f b <= 0) l2 ->
  Permutation l1 l2 -> l1 = l2.
Proof.
  intros H1. revert l2.
  induction H1 as [|x l1 Hs1 IH Hx]; intros l2 H2 Hp.
  - now apply Permutation_nil in Hp.
  - destruct H2 as [|y l2 Hs2 Hy].
    + symmetry in Hp. now apply Permutation_nil in Hp.
    + assert (E : x = y).
      { assert (Hxin : In x (y :: l2))
          by (eapply Permutation_in; [exact Hp | now left]).
        assert (Hyin : In y (x :: l1))
          by (eapply Permutation_in; [symmetry; exact Hp | now left]).
        destruct Hxin as [E|Hxin]; [now symmetry|].
        destruct Hyin as [E|Hyin]; [exact E|].
        rewrite List.Forall_forall in Hx, Hy.
        specialize (Hx y Hyin). specialize (Hy x Hxin). lia. }
      subst y. f_equal. apply IH; [exact Hs2|].
      now apply Permutation_cons_inv in Hp.
Qed.

Lemma next7Days_days (h : host) (l : list sample) :
  MainJs.next7Days h l
  = map (fun k => dayDataOf h k l) (firstn 7 (MainJs.sortedDays h l)).
Proof.
  unfold MainJs.next7Days, Js.slice0. rewrite <- List.firstn_map. f_equal.
  symmetry. apply (sorted_perm_eq MainJs.date).
  - eapply StronglySorted_map; [|apply sortedDays_ascending].
    intros a b Hab. exact Hab.
  - apply Array_sort_sorted; intros; lia.
  - rewrite Array_sort_perm. unfold Js.Object_values.
    rewrite ownEntries_perm, dailyData_entries, map_map. cbn [snd].
    apply Permutation_map, sortedDays_perm.
Qed.

Lemma dropdown_days (h : host) (l : list sample) :
  Js.Array_sort (fun a b => a - b)
    (Js.Object_values (MainJs.dropdownDays h l))
  = MainJs.sortedDays h l.
Proof.
  symmetry. apply (sorted_perm_eq (fun k => k)).
  - apply sortedDays_ascending.
  - apply Array_sort_sorted; intros; lia.
  - rewrite Array_sort_perm. unfold Js.Object_values.
    rewrite ownEntries_perm, dropdownDays_entries, map_map. cbn [snd].
    rewrite map_id. apply sortedDays_perm.
Qed.

Lemma dayDataOf_finite (h : host) (l : list sample) (k : Z) :
  k ∈ MainJs.sortedDays h l ->
  MainJs.temps (dayDataOf h k l) <> [] /\
  exists hi lo,
    MainJs.maxTemp (dayDataOf h k l) = Js.Finite hi /\
    MainJs.minTemp (dayDataOf h k l) = Js.Finite lo.
Proof.
  intros Hk. rewrite (sortedDays_perm h l) in Hk.
  pose proof (ofDay_nonempty _ _ _ Hk) as Hne.
  unfold MainJs.maxTemp, MainJs.minTemp, dayDataOf.
  cbn [MainJs.temps].
  destruct (ofDay (MainJs.dateKey h) k l) as [|s rest]; [congruence|].
  split; [discriminate|]. cbn [map Js.Math_max Js.Math_min Js.Math_round_ext].
  eauto.
Qed.

(** X17. In [main.js] the three views list the same days in the same
    order: the days behind the daily cards are the first seven day keys
    of the hourly view, ascending, each with the temperatures and codes
    of that day's samples in list order; the dates behind the day menu are
    those day keys; and every day has a sample, so that its extremes are
    numbers. *)
Theorem main_views_share_days (h : host) (l : list sample) :
  MainJs.next7Days h l
  = map (fun k => dayDataOf h k l) (firstn 7 (MainJs.sortedDays h l)) /\
  Js.Array_sort (fun a b => a - b)
    (Js.Object_values (MainJs.dropdownDays h l))
  = MainJs.sortedDays h l /\
  Forall (fun d => MainJs.temps d <> [] /\
                   exists hi lo, MainJs.maxTemp d = Js.Finite hi /\
                                 MainJs.minTemp d = Js.Finite lo)
    (MainJs.next7Days h l).
Proof.
  split; [apply next7Days_days|]. split; [apply dropdown_days|].
  rewrite next7Days_days. apply List.Forall_map, List.Forall_forall.
  intros k Hk. apply dayDataOf_finite, list_elem_of_In.
  rewrite <- (firstn_skipn 7). apply in_or_app. now left.
Qed.

(** X18. The daily cards. In [main.js] the card at [i] is filled from
    the [i]-th day in ascending order, for the first seven days, and a
    card beyond the days of the forecast keeps what it showed. In the
    rewritten script the card at [i] is filled from the [i]-th day in
    first-seen order, and every card beyond the days of the forecast
    shows "N/A" and the sunny icon. *)
Theorem daily_cards (h : host) (u : string) (l : list sample) (p : page) :
  (exists p',
      MainJs.updateDailyForecast h {| fc_list := Some l |} p = Ok p' /\
      dailyCards p'
      = imap (fun i card =>
                match firstn 7 (MainJs.sortedDays h l) !! i with
                | Some k => MainJs.fillDailyCard h (dayDataOf h k l)
                | None => card
                end)
          (dailyCards p)) /\
  (exists p',
      FinalJs.updateDailyForecast h u {| fc_list := Some l |} p = Ok p' /\
      dailyCards p'
      = imap (fun i _ =>
                match firstSeen (map (localeDay h) l) !! i with
                | Some k =>
                    FinalJs.fillDailyCard h u (Some (ofDay (localeDay h) k l))
                | None =>
                    {| dayName := "N/A"; dayIcon := Some "icon-sunny.webp";
                       dayTempMax := "N/A"; dayTempMin := "N/A" |}
                end)
          (dailyCards p)).
Proof.
  split.
  - unfold MainJs.updateDailyForecast. cbn [fc_list].
    eexists. split; [reflexivity|].
    cbn [dailyCards with_dailyCards].
    rewrite (fill_by_index (fun d _ => MainJs.fillDailyCard h d)).
    rewrite next7Days_days. apply imap_ext. intros i card _.
    change (map (fun k => dayDataOf h k l) (firstn 7 (MainJs.sortedDays h l)))
      with ((fun k => dayDataOf h k l) <$> firstn 7 (MainJs.sortedDays h l)).
    rewrite list_lookup_fmap.
    now destruct (firstn 7 (MainJs.sortedDays h l) !! i).
  - unfold FinalJs.updateDailyForecast.
    rewrite groupForecastByDay_buckets.
    eexists. split; [reflexivity|].
    cbn [dailyCards with_dailyCards].
    apply imap_ext. intros i card _.
    change (map (fun k => ofDay (localeDay h) k l)
              (firstSeen (map (localeDay h) l)))
      with ((fun k => ofDay (localeDay h) k l)
              <$> firstSeen (map (localeDay h) l)).
    rewrite list_lookup_fmap.
    now destruct (firstSeen (map (localeDay h) l) !! i).
Qed.

(** * Further properties: the names of the days *)

Lemma getDay_range (tz t : Z) : 0 <= Js.getDay tz t < 7.
Proof. unfold Js.getDay. apply Z.mod_pos_bound. lia. Qed.

(** X19. The names of [getDynamicWeekdays] in the rewritten script are
    the week turned so that it starts at the weekday of the clock: the
    names from today's to Saturday, then those from Sunday to yesterday's;
    the first is today's weekday and each weekday occurs once, whatever
    the forecast holds. *)
Theorem day_names (h : host) :
  let today := Z.to_nat (Js.getDay (tz h) (now h)) in
  FinalJs.getDynamicWeekdays h
  = drop today Js.weekdaysLong ++ take today Js.weekdaysLong /\
  head (FinalJs.getDynamicWeekdays h) = Some (Js.weekdayLong (tz h) (now h)) /\
  Permutation (FinalJs.getDynamicWeekdays h) Js.weekdaysLong.
Proof.
  intros today.
  assert (E : FinalJs.getDynamicWeekdays h
              = drop today Js.weekdaysLong ++ take today Js.weekdaysLong
              /\ head (FinalJs.getDynamicWeekdays h)
                 = Some (Js.weekdayLong (tz h) (now h))).
  { subst today. unfold FinalJs.getDynamicWeekdays, Js.weekdayLong.
    pose proof (getDay_range (tz h) (now h)) as Hr.
    generalize dependent (Js.getDay (tz h) (now h)). intros d Hr.
    remember (Z.to_nat d) as n eqn:En.
    replace d with (Z.of_nat n) by lia.
    do 7 (destruct n as [|n]; [split; vm_compute; reflexivity|]).
    lia. }
  destruct E as [E1 E2]. split; [exact E1|]. split; [exact E2|].
  rewrite E1, Permutation_app_comm. now rewrite take_drop.
Qed.

(** * Further properties: the city suggestions *)

Lemma sort_insert_skip {A} (cmp : A -> A -> Z) (x : A) (l1 l2 : list A) :
  Forall (fun y => 0 < cmp x y) l1 ->
  Js.sort_insert cmp x (l1 ++ l2) = l1 ++ Js.sort_insert cmp x l2.
Proof.
  induction 1 as [|y l1 Hy _ IH]; [reflexivity|].
  cbn [app Js.sort_insert].
  destruct (Z.leb_spec (cmp x y) 0); [lia|]. now rewrite IH.
Qed.

Lemma sort_insert_front {A} (cmp : A -> A -> Z) (x : A) (l : list A) :
  Forall (fun y => cmp x y <= 0) l -> Js.sort_insert cmp x l = x :: l.
Proof.
  intros H. destruct H as [|y l Hy _]; [reflexivity|].
  cbn [Js.sort_insert]. now destruct (Z.leb_spec (cmp x y) 0); [|lia].
Qed.

Lemma prioritizeCities_partition (cities : list FinalJs.cityMatch) :
  StronglySorted (fun a b => populationOf b <= populationOf a) cities ->
  FinalJs.prioritizeCities cities
  = List.filter priorityOf cities
    ++ List.filter (fun c => negb (priorityOf c)) cities.
Proof.
  unfold FinalJs.prioritizeCities.
  induction 1 as [|x cs Hs IH Hx]; [reflexivity|].
  cbn [Js.Array_sort fold_right]. fold (Js.Array_sort FinalJs.compareCities cs).
  rewrite IH. cbn [List.filter].
  rewrite List.Forall_forall in Hx.
  destruct (priorityOf x) eqn:Px; cbn [negb app].
  - apply sort_insert_front. apply List.Forall_forall. intros y Hy.
    apply in_app_or in Hy.
    assert (Hin : In y cs)
      by (destruct Hy as [Hy|Hy]; apply filter_In in Hy; tauto).
    specialize (Hx y Hin).
    unfold FinalJs.compareCities, priorityOf, populationOf in *.
    rewrite Px. destruct (FinalJs.isPriority (FinalJs.c_country y));
      cbn; lia.
  - rewrite sort_insert_skip.
    + f_equal. apply sort_insert_front. apply List.Forall_forall.
      intros y Hy. apply filter_In in Hy as [Hin Py].
      specialize (Hx y Hin).
      unfold FinalJs.compareCities, priorityOf, populationOf in *.
      rewrite Px. apply negb_true_iff in Py. rewrite Py. cbn. lia.
    + apply List.Forall_forall. intros y Hy.
      apply filter_In in Hy as [Hin Py].
      unfold FinalJs.compareCities, priorityOf in *.
      rewrite Px, Py. cbn. lia.
Qed.

(** X20. On candidates that come in descending order of population, as
    the geocoding request asks for them, [prioritizeCities] only moves the
    priority countries to the front: the result is the priority entries in
    their input order followed by the other entries in their input order.
    Ranking a ranked list changes nothing. *)
Theorem prioritizeCities_on_sorted_input (cities : list FinalJs.cityMatch) :
  StronglySorted (fun a b => populationOf b <= populationOf a) cities ->
  FinalJs.prioritizeCities cities
  = List.filter priorityOf cities
    ++ List.filter (fun c => negb (priorityOf c)) cities /\
  FinalJs.prioritizeCities (FinalJs.prioritizeCities cities)
  = FinalJs.prioritizeCities cities.
Proof.
  intros Hs. split; [now apply prioritizeCities_partition|].
  unfold FinalJs.prioritizeCities. apply Array_sort_id.
  apply Array_sort_sorted;
    [apply compareCities_total | apply compareCities_trans].
Qed.

Lemma prioritizeCities_on_sorted_input_witness :
  FinalJs.prioritizeCities
    [paris "Brazil" 2000000; paris "USA" 25000; paris "Peru" 20000]
  = [paris "USA" 25000; paris "Brazil" 2000000; paris "Peru" 20000].
Proof.
  apply (prioritizeCities_on_sorted_input
           [paris "Brazil" 2000000; paris "USA" 25000; paris "Peru" 20000]).
  repeat constructor; vm_compute; discriminate.
Defined.

(** * Further properties: the search box and the day menu *)

Lemma dropSpaces_blank (s : string) :
  blank s = true -> Js.dropSpaces s = "".
Proof.
  induction s as [|c s IH]; [reflexivity|].
  cbn [blank Js.dropSpaces]. intros H.
  apply andb_true_iff in H as [Hc Hs]. rewrite Hc. now apply IH.
Qed.

Lemma trimEnd_nonempty (c : ascii) (s : string) :
  Js.isSpace c = false -> Js.trimEnd (String c s) <> "".
Proof.
  intros Hc. cbn [Js.trimEnd].
  destruct (Js.trimEnd s); [now rewrite Hc | discriminate].
Qed.

Lemma trim_blank (s : string) : Js.trim s = "" <-> blank s = true.
Proof.
  unfold Js.trim. split.
  - induction s as [|c s IH]; [reflexivity|].
    cbn [blank Js.dropSpaces].
    destruct (Js.isSpace c) eqn:Hc; [exact IH|].
    intros E. now apply trimEnd_nonempty in E.
  - intros H. now rewrite dropSpaces_blank.
Qed.

(** X21. A search with nothing but white space in the box asks the
    network nothing and leaves the state as it was: the button raises the
    alert and the Enter key of the rewritten script does nothing. Any
    other ASCII input starts a fetch for the trimmed text. *)
Theorem search_box (h : host) (net : network) (inputValue : string)
    (a : MainJs.app) (b : FinalJs.app) :
  (blank inputValue = true ->
   MainJs.searchClick h net inputValue a
   = (a, Some "Please enter a city name") /\
   FinalJs.searchClick h net inputValue b
   = (b, Some "Please enter a city name") /\
   FinalJs.enterKey h net inputValue b = b) /\
  (isAscii inputValue = true -> blank inputValue = false ->
   let cityName := Js.trim inputValue in
   let b1 := FinalJs.with_prefs b cityName (FinalJs.currentUnit b)
               (FinalJs.currentSpeedUnit b) (FinalJs.currentTimeFormat b) in
   cityName <> "" /\
   MainJs.searchClick h net inputValue a
   = (MainJs.fetchWeatherForCity h net cityName a, None) /\
   FinalJs.searchClick h net inputValue b
   = (FinalJs.fetchWeather h net b1, None) /\
   FinalJs.enterKey h net inputValue b = FinalJs.fetchWeather h net b1).
Proof.
  split.
  - intros H. apply trim_blank in H.
    unfold MainJs.searchClick, FinalJs.searchClick, FinalJs.enterKey.
    rewrite H. now repeat split.
  - intros _ H.
    assert (Hne : Js.trim inputValue <> "").
    { intros E. apply trim_blank in E. congruence. }
    cbv zeta.
    unfold MainJs.searchClick, FinalJs.searchClick, FinalJs.enterKey.
    destruct (String.eqb_spec (Js.trim inputValue) ""); [contradiction|].
    now repeat split.
Qed.

Lemma search_box_witness :
  MainJs.searchClick utc unreachable "   " atlantis_main
  = (atlantis_main, Some "Please enter a city name").
Proof.
  apply (proj1 (search_box utc unreachable "   " atlantis_main
                  atlantis_final)).
  reflexivity.
Defined.

(** X22. A click on a day of the menu before any forecast was stored:
    [main.js] writes the day on the button and leaves the hourly cards
    alone, while the rewritten script writes the day on the button and
    then throws, reading the list off [null]. With a forecast stored both
    show the hourly view of that day. *)
Theorem day_click (h : host) (dayIndex : nat) (text : string)
    (a : MainJs.app) (b : FinalJs.app) :
  (MainJs.globalForecastData a = None ->
   exists a',
     MainJs.selectDay h dayIndex text a = (a', Ok tt) /\
     selectedDay (MainJs.doc a') = text /\
     hourlyCards (MainJs.doc a') = hourlyCards (MainJs.doc a)) /\
  (FinalJs.globalForecastData b = None ->
   exists b',
     FinalJs.selectDay h dayIndex text b = (b', Throw TypeError) /\
     selectedDay (FinalJs.doc b') = text /\
     hourlyCards (FinalJs.doc b') = hourlyCards (FinalJs.doc b)) /\
  (forall data l,
      fc_list data = Some l ->
      (MainJs.globalForecastData a = Some data ->
       exists a' p',
         MainJs.selectDay h dayIndex text a = (a', Ok tt) /\
         MainJs.updateHourlyForecast h (MainJs.current24Hour a) data
           dayIndex (MainJs.doc a) = Ok p' /\
         hourlyCards (MainJs.doc a') = hourlyCards p' /\
         selectedDay (MainJs.doc a') = text) /\
      (FinalJs.globalForecastData b = Some data ->
       exists b' p',
         FinalJs.selectDay h dayIndex text b = (b', Ok tt) /\
         FinalJs.updateHourlyForecast h (FinalJs.currentUnit b)
           (FinalJs.currentTimeFormat b) data dayIndex (FinalJs.doc b)
         = Ok p' /\
         hourlyCards (FinalJs.doc b') = hourlyCards p' /\
         selectedDay (FinalJs.doc b') = text)).
Proof.
  split; [|split].
  - intros E. unfold MainJs.selectDay.
    cbn [MainJs.globalForecastData MainJs.with_doc
         MainJs.with_currentDayIndex]. rewrite E.
    eexists. split; [reflexivity|]. now split.
  - intros E. unfold FinalJs.selectDay.
    cbn [FinalJs.globalForecastData FinalJs.with_doc]. rewrite E.
    eexists. split; [reflexivity|]. now split.
  - intros data l Hl. split.
    + intros E. unfold MainJs.selectDay.
      cbn [MainJs.globalForecastData MainJs.with_doc MainJs.current24Hour
           MainJs.doc MainJs.with_currentDayIndex MainJs.currentDayIndex].
      rewrite E. unfold MainJs.updateHourlyForecast. rewrite Hl.
      do 2 eexists. split; [reflexivity|]. split; [reflexivity|].
      now split.
    + intros E. unfold FinalJs.selectDay.
      cbn [FinalJs.globalForecastData FinalJs.with_doc FinalJs.currentUnit
           FinalJs.currentTimeFormat FinalJs.doc].
      rewrite E. unfold FinalJs.updateHourlyForecast,
        FinalJs.groupForecastByDay. rewrite Hl.
      do 2 eexists. split; [reflexivity|]. split; [reflexivity|].
      now split.
Qed.

Lemma day_click_witness :
  exists b',
    FinalJs.selectDay utc 2 "Tuesday" atlantis_final
    = (b', Throw TypeError) /\
    selectedDay (FinalJs.doc b') = "Tuesday" /\
    hourlyCards (FinalJs.doc b') = hourlyCards (FinalJs.doc atlantis_final).
Proof.
  apply (proj1 (proj2 (day_click utc 2 "Tuesday" atlantis_main
                         atlantis_final))).
  reflexivity.
Defined.

(** * Further properties: what a fetch asks and shows *)

Lemma main_fetch_weather_only (h : host) (net : network)
    (cityName : string) (a : MainJs.app) :
  (forall cd, ~ delivers (GET_weather net (weatherUrl cityName)) cd) ->
  MainJs.requests (MainJs.fetchWeatherForCity h net cityName a)
  = MainJs.requests a ++ [weatherUrl cityName].
Proof.
  intros Hn. run_fetch. cbn.
  destruct (GET_weather net (weatherUrl cityName)) as [|[[|] st1 [cd|]]];
    cbn; try reflexivity.
  exfalso. apply (Hn cd). now split.
Qed.

Lemma main_fetch_both (h : host) (net : network) (cityName : string)
    (a : MainJs.app) (cd : currentData) :
  delivers (GET_weather net (weatherUrl cityName)) cd ->
  MainJs.requests (MainJs.fetchWeatherForCity h net cityName a)
  = MainJs.requests a ++ [weatherUrl cityName; forecastUrl cityName].
Proof.
  intros Hw. run_fetch. cbn.
  destruct (GET_weather net (weatherUrl cityName)) as [|[ok1 st1 j1]];
    [contradiction|]. cbn in Hw. destruct Hw as [-> ->]. cbn.
  destruct (GET_forecast net (forecastUrl cityName)) as [|[[|] st2 [fd|]]];
    cbn; try (now rewrite <- app_assoc).
  unfold MainJs.updateHourlyForecast, MainJs.updateDailyForecast,
    MainJs.populateDayDropdown.
  destruct (fc_list fd); cbn; now rewrite <- app_assoc.
Qed.

Lemma final_fetch_weather_only (h : host) (net : network)
    (b : FinalJs.app) :
  (forall cd, ~ delivers (GET_weather net (weatherUrl (FinalJs.city b))) cd) ->
  FinalJs.requests (FinalJs.fetchWeather h net b)
  = FinalJs.requests b ++ [weatherUrl (FinalJs.city b)].
Proof.
  intros Hn. run_fetch. cbn.
  destruct (GET_weather net (weatherUrl (FinalJs.city b)))
    as [|[[|] st1 [cd|]]]; cbn; try reflexivity.
  exfalso. apply (Hn cd). now split.
Qed.

Lemma final_fetch_both (h : host) (net : network) (b : FinalJs.app)
    (cd : currentData) :
  delivers (GET_weather net (weatherUrl (FinalJs.city b))) cd ->
  FinalJs.requests (FinalJs.fetchWeather h net b)
  = FinalJs.requests b
    ++ [weatherUrl (FinalJs.city b); forecastUrl (FinalJs.city b)].
Proof.
  intros Hw. run_fetch. cbn.
  destruct (GET_weather net (weatherUrl (FinalJs.city b)))
    as [|[ok1 st1 j1]]; [contradiction|].
  cbn in Hw. destruct Hw as [-> ->]. cbn.
  destruct (GET_forecast net (forecastUrl (FinalJs.city b)))
    as [|[ok2 st2 [fd|]]]; cbn; try (now rewrite <- app_assoc).
  unfold FinalJs.updateDailyForecast, FinalJs.updateHourlyForecast,
    FinalJs.groupForecastByDay.
  destruct (fc_list fd); cbn; now rewrite <- app_assoc.
Qed.

(** X23. The forecast is asked for exactly when the weather request
    resolved with a success status and a body: then the two endpoints are
    requested once each, in that order, whatever the forecast request
    gives; otherwise the weather endpoint alone is requested. *)
Theorem forecast_follows_weather (h : host) (net : network)
    (cityName : string) (a : MainJs.app) (b : FinalJs.app) :
  FinalJs.city b = cityName ->
  ((exists cd, delivers (GET_weather net (weatherUrl cityName)) cd) ->
   MainJs.requests (MainJs.fetchWeatherForCity h net cityName a)
   = MainJs.requests a ++ [weatherUrl cityName; forecastUrl cityName] /\
   FinalJs.requests (FinalJs.fetchWeather h net b)
   = FinalJs.requests b ++ [weatherUrl cityName; forecastUrl cityName]) /\
  ((forall cd, ~ delivers (GET_weather net (weatherUrl cityName)) cd) ->
   MainJs.requests (MainJs.fetchWeatherForCity h net cityName a)
   = MainJs.requests a ++ [weatherUrl cityName] /\
   FinalJs.requests (FinalJs.fetchWeather h net b)
   = FinalJs.requests b ++ [weatherUrl cityName]).
Proof.
  intros <-. split.
  - intros [cd Hw]. split;
      [now apply (main_fetch_both h net _ a cd)
      |now apply (final_fetch_both h net b cd)].
  - intros Hn. split;
      [now apply main_fetch_weather_only
      |now apply final_fetch_weather_only].
Qed.

Lemma forecast_follows_weather_witness :
  MainJs.requests
    (MainJs.fetchWeatherForCity utc only_cardiff "Atlantis" atlantis_main)
  = MainJs.requests atlantis_main ++ [weatherUrl "Atlantis"].
Proof.
  apply (proj2 (forecast_follows_weather utc only_cardiff "Atlantis"
                  atlantis_main atlantis_final eq_refl)).
  intros cd [H _]. vm_compute in H. discriminate.
Defined.




(** X25. No day bucket is empty, in either script: every day the
    grouping lists holds a sample of the forecast, so that a daily card of
    the rewritten script shows "N/A" only for a day the forecast does not
    reach. *)
Theorem day_buckets_nonempty (h : host) (l : list sample) :
  Forall (fun bucket => bucket <> []) (MainJs.dayBuckets h l) /\
  exists buckets,
    FinalJs.groupForecastByDay h {| fc_list := Some l |} = Ok buckets /\
    Forall (fun bucket => bucket <> []) buckets /\
    forall u, Forall (fun bucket =>
                        dayTempMax (FinalJs.fillDailyCard h u (Some bucket))
                        <> "N/A") buckets.
Proof.
  split.
  - rewrite dayBuckets_ofDay. apply List.Forall_map, List.Forall_forall.
    intros k Hk. apply ofDay_nonempty.
    rewrite <- (sortedDays_perm h l). now apply list_elem_of_In.
  - rewrite groupForecastByDay_buckets. eexists. split; [reflexivity|].
    assert (Hne : Forall (fun bucket : list sample => bucket <> [])
                    (map (fun k => ofDay (localeDay h) k l)
                       (firstSeen (map (localeDay h) l)))).
    { apply List.Forall_map, List.Forall_forall.
      intros k Hk. apply ofDay_nonempty. now apply list_elem_of_In. }
    split; [exact Hne|]. intros u.
    eapply List.Forall_impl; [|exact Hne].
    intros [|first rest] Hb; [congruence|].
    cbn [FinalJs.fillDailyCard dayTempMax].
    destruct (FinalJs.maxTemp u (first :: rest)) as [|n|] eqn:E;
      cbn [Js.ext_toString]; try discriminate.
    destruct (Number_toString_shape n) as [c [ds [Hc [_ En]]]].
    rewrite En. intros Habs.
    destruct (n <? 0); cbn in Habs;
      [discriminate Habs | injection Habs as -> _; discriminate Hc].
Qed.

(** * Further properties: the time format in [main.js] *)

Lemma imap_imap {A} (f g : nat -> A -> A) (l : list A) :
  imap f (imap g l) = imap (fun i x => f i (g i x)) l.
Proof.
  apply list_eq. intros i. rewrite !list_lookup_imap.
  now destruct (l !! i).
Qed.

(** Rendering the hourly view again, for the same forecast and day,
    overrides the earlier rendering. *)
Lemma main_hourly_rerender (h : host) (b b' : bool) (l : list sample)
    (i : nat) (p : page) :
  exists p1 p2,
    MainJs.updateHourlyForecast h b {| fc_list := Some l |} i p = Ok p1 /\
    MainJs.updateHourlyForecast h b' {| fc_list := Some l |} i p1 = Ok p2 /\
    MainJs.updateHourlyForecast h b' {| fc_list := Some l |} i p = Ok p2.
Proof.
  unfold MainJs.updateHourlyForecast. cbn [fc_list].
  do 2 eexists. split; [reflexivity|]. split; [reflexivity|].
  f_equal. unfold with_hourlyCards.
  cbn [locationName currentDate mainTemperature mainWeatherIcon
       feelsLikeTemp humidityValue windSpeed precipitationValue dailyCards
       hourlyCards dayOptions selectedDay loadingVisible].
  f_equal.
  rewrite !(fill_by_index (MainJs.fillHourlyCard h b')).
  rewrite (fill_by_index (MainJs.fillHourlyCard h b)).
  rewrite imap_imap. apply imap_ext. intros j card _.
  now destruct (MainJs.hourlyData h l i !! j).
Qed.

Lemma main_keeps_onPage_state (I : MainJs.app -> Prop)
    (f : page -> result page) :
  (forall a p, I a -> I (MainJs.with_doc a p)) ->
  keeps I (MainJs.onPage f).
Proof.
  intros Hd a H. unfold MainJs.onPage.
  destruct (f (MainJs.doc a)) as [p'|e]; cbn [fst]; [now apply Hd | exact H].
Qed.

(** A fetch leaves the day index as it was. *)
Lemma main_fetch_keeps_dayIndex (h : host) (net : network)
    (cityName : string) (a : MainJs.app) :
  MainJs.currentDayIndex (MainJs.fetchWeatherForCity h net cityName a)
  = MainJs.currentDayIndex a.
Proof.
  unfold MainJs.fetchWeatherForCity.
  apply (keeps_try_catch
           (fun s => MainJs.currentDayIndex s = MainJs.currentDayIndex a));
    [| now intros | reflexivity].
  apply keeps_bind; [apply main_keeps_fetch; now intros|intros currentRes].
  apply keeps_bind; [apply keeps_settle|intros currentData].
  apply keeps_bind; [apply keeps_get_state|intros a0].
  apply keeps_bind; [apply main_keeps_onPage_state; now intros|intros _].
  apply keeps_bind; [apply main_keeps_fetch; now intros|intros forecastRes].
  apply keeps_bind; [apply keeps_settle|intros forecastData].
  apply keeps_bind; [apply keeps_modify; now intros|intros _].
  apply keeps_bind; [apply main_keeps_onPage_state; now intros|intros _].
  apply keeps_bind; [apply main_keeps_onPage_state; now intros|intros _].
  apply keeps_bind; [apply main_keeps_onPage_state; now intros|intros _].
  apply keeps_modify. now intros.
Qed.

(** X26. In [main.js] the time-format handler renders the hourly view
    for [currentDayIndex], the day of the last click in the day menu: a
    click on the day [i] sets it to [i] and a fetch leaves it as it was,
    although the fetch itself renders day 0. With a forecast stored and
    the 12-hour format in use, choosing the 24-hour format renders the day
    of that index in that format, and choosing the 12-hour format again
    leaves the page as a rendering of that day in the 12-hour format; the
    format in use and the one in storage follow. *)
Theorem main_time_toggle (h : host) (net : network) (cityName : string)
    (a : MainJs.app) (data : forecastData) (l : list sample) :
  MainJs.globalForecastData a = Some data ->
  fc_list data = Some l ->
  MainJs.current24Hour a = false ->
  (exists a1 a2 p24 p12,
      MainJs.selectTimeFormat h "24" a = (a1, Ok tt) /\
      MainJs.selectTimeFormat h "12" a1 = (a2, Ok tt) /\
      MainJs.updateHourlyForecast h true data (MainJs.currentDayIndex a)
        (MainJs.doc a) = Ok p24 /\
      MainJs.updateHourlyForecast h false data (MainJs.currentDayIndex a)
        (MainJs.doc a) = Ok p12 /\
      MainJs.doc a1 = p24 /\
      MainJs.localStorage a1 !! "24hourFormat" = Some "true" /\
      MainJs.doc a2 = p12 /\
      MainJs.current24Hour a2 = false /\
      MainJs.localStorage a2 !! "24hourFormat" = Some "false") /\
  (forall i text,
      MainJs.currentDayIndex (MainJs.selectDay h i text a).1 = i) /\
  MainJs.currentDayIndex (MainJs.fetchWeatherForCity h net cityName a)
  = MainJs.currentDayIndex a.
Proof.
  intros Hg Hl H12. split; [|split].
  - destruct data as [fl]. cbn [fc_list] in Hl. subst fl.
    destruct (main_hourly_rerender h true false l (MainJs.currentDayIndex a)
                (MainJs.doc a))
      as (p24 & p12 & E1 & E2 & E3).
    unfold MainJs.selectTimeFormat at 1. rewrite H12.
    change (String.eqb "24" "24") with true. cbn [Bool.eqb].
    cbn [MainJs.globalForecastData MainJs.with_settings MainJs.doc
         MainJs.currentDayIndex].
    rewrite Hg, E1.
    eexists. eexists. exists p24, p12.
    split; [reflexivity|].
    unfold MainJs.selectTimeFormat, MainJs.saveSettings.
    cbn [MainJs.current24Hour MainJs.with_localStorage MainJs.with_doc
         MainJs.with_settings MainJs.globalForecastData MainJs.doc
         MainJs.localStorage MainJs.currentUnit MainJs.currentWindUnit
         MainJs.currentDayIndex].
    change (String.eqb "12" "24") with false. cbn [Bool.eqb].
    rewrite Hg, E2.
    split; [reflexivity|].
    cbn [MainJs.current24Hour MainJs.with_localStorage MainJs.with_doc
         MainJs.with_settings MainJs.globalForecastData MainJs.doc
         MainJs.localStorage MainJs.currentUnit MainJs.currentWindUnit
         MainJs.currentDayIndex].
    repeat split; try assumption; now rewrite lookup_insert_eq.
  - intros i text. unfold MainJs.selectDay.
    cbn [MainJs.globalForecastData MainJs.with_doc
         MainJs.with_currentDayIndex MainJs.current24Hour
         MainJs.currentDayIndex MainJs.doc].
    rewrite Hg. unfold MainJs.updateHourlyForecast. rewrite Hl.
    reflexivity.
  - apply main_fetch_keeps_dayIndex.
Qed.

Lemma main_time_toggle_witness :
  MainJs.currentDayIndex
    (MainJs.fetchWeatherForCity utc only_cardiff "Cardiff"
       (MainJs.selectDay utc 2 "Tuesday" cardiff_main).1)
  = 2%nat.
Proof.
  refine (proj2 (proj2 (main_time_toggle utc only_cardiff "Cardiff"
                          (MainJs.selectDay utc 2 "Tuesday" cardiff_main).1
                          {| fc_list := Some day_18_21_16 |} day_18_21_16
                          _ _ _)));
    vm_compute; reflexivity.
Defined.

(** * Further properties: the day menu of [main.js] *)

(** X27. The day menu after [populateDayDropdown]: each of the first
    seven options is named after the day at its place among the ascending
    days of the forecast, or blanked and hidden when there is no such day;
    the button reads "Today". An option hidden before stays hidden, and an
    option marked active before stays marked beside the first one: the
    function never shows an option again and never clears a mark. *)
Theorem main_day_menu (h : host) (l : list sample) (p : page) :
  exists p',
    MainJs.populateDayDropdown h {| fc_list := Some l |} p = Ok p' /\
    selectedDay p' = "Today" /\
    dayOptions p'
    = imap (fun i o =>
              {| dayText :=
                   if (i <? 7)%nat
                   then match MainJs.sortedDays h l !! i with
                        | Some date => MainJs.dayLabel h date
                        | None => ""
                        end
                   else dayText o;
                 dayHidden :=
                   dayHidden o
                   || ((i <? 7)%nat
                       && bool_decide (MainJs.sortedDays h l !! i = None));
                 dayActive := dayActive o || (i =? 0)%nat |})
        (dayOptions p).
Proof.
  unfold MainJs.populateDayDropdown. cbn [fc_list]. rewrite dropdown_days.
  eexists. split; [reflexivity|]. split; [reflexivity|].
  cbn [dayOptions with_dayMenu].
  assert (E : forall i o,
             (if (i <? 7)%nat
              then match MainJs.sortedDays h l !! i with
                   | Some date =>
                       {| dayText := MainJs.dayLabel h date;
                          dayHidden := dayHidden o;
                          dayActive := dayActive o |}
                   | None =>
                       {| dayText := ""; dayHidden := true;
                          dayActive := dayActive o |}
                   end
              else o)
             = {| dayText :=
                    if (i <? 7)%nat
                    then match MainJs.sortedDays h l !! i with
                         | Some date => MainJs.dayLabel h date
                         | None => ""
                         end
                    else dayText o;
                  dayHidden :=
                    dayHidden o
                    || ((i <? 7)%nat
                        && bool_decide (MainJs.sortedDays h l !! i = None));
                  dayActive := dayActive o |}).
  { intros i [t hd ac]. cbn [dayText dayHidden dayActive].
    destruct (i <? 7)%nat; [|now rewrite orb_false_r].
    destruct (MainJs.sortedDays h l !! i) as [date|].
    - rewrite bool_decide_eq_false_2 by discriminate.
      now rewrite orb_false_r.
    - rewrite bool_decide_eq_true_2 by reflexivity.
      now rewrite orb_true_r. }
  destruct (dayOptions p) as [|o os]; [reflexivity|].
  cbn [imap]. rewrite E. cbn [dayText dayHidden dayActive Nat.eqb].
  rewrite orb_true_r. f_equal.
  apply imap_ext. intros i o' _. unfold compose. rewrite E.
  cbn [Nat.eqb]. now rewrite orb_false_r.
Qed.

(** * Further properties: converting what is displayed *)

